(** * ArrAPI: the Sonarr client of [arrapi/sonarr.py]

    A shallow embedding of the bulk operations of [SonarrAPI]
    ([add_multiple_series], [edit_multiple_series],
    [delete_multiple_series]) together with the validators and endpoint
    wrappers they are built from, and the properties of the specification
    that concern them.

    Python values are modelled as follows: an [int] is a [Z], a [str] a
    [string], a [list] a [list], a [dict] with string keys a
    [gmap string _], [None] the [None] of an [option].  A method that talks
    to the remote service is a function of the remote state that returns,
    next to its result, the new remote state and the requests it issued. *)

From stdpp Require Import gmap strings list fin_maps pretty.

Set Warnings "-register-all".

(** ** JSON documents

    What the transport decodes from a response and encodes into a request
    body. *)

Inductive Json :=
  | JNull
  | JBool (b : bool)
  | JInt (n : Z)
  | JStr (s : string)
  | JList (l : list Json)
  | JObj (m : gmap string Json).

(** ** Exceptions

    [ValueError] and [TypeError] are Python's own; [Invalid], [NotFound]
    and [Exists] come from [arrapi.exceptions]; [ArrException] stands for
    every failure of the transport. *)

Inductive Exception :=
  | ValueError (msg : string)
  | TypeError (msg : string)
  | Invalid (msg : string)
  | NotFound (msg : string)
  | Exists (msg : string)
  | ArrException (msg : string).

Inductive Result (A : Type) :=
  | Ok (a : A)
  | Raise (e : Exception).

Arguments Ok {A} a.
Arguments Raise {A} e.

Definition is_Exists (e : Exception) : bool :=
  match e with Exists _ => true | _ => false end.

Definition is_NotFound (e : Exception) : bool :=
  match e with NotFound _ => true | _ => false end.

#[global] Instance Result_ret : MRet Result := λ A a, Ok a.

#[global] Instance Result_bind : MBind Result := λ A B f r,
  match r with
  | Ok a => f a
  | Raise e => Raise e
  end.

(** ** Python built-ins *)

(** A caller may name a remote entity by its name, by its id, or hand in
    the entity itself ([Union[str, int, RootFolder]] and the like). *)
Inductive PyRef (O : Type) :=
  | RStr (s : string)
  | RInt (n : Z)
  | RObj (o : O).

Arguments RStr {O} s.
Arguments RInt {O} n.
Arguments RObj {O} o.

(** [for x in v]: a list yields its items, a dict its keys, a string its
    characters; the other JSON values are not iterable. *)
Fixpoint py_chars (s : string) : list Json :=
  match s with
  | EmptyString => []
  | String c s' => JStr (String c EmptyString) :: py_chars s'
  end.

Definition py_iter (v : Json) : Result (list Json) :=
  match v with
  | JList l => Ok l
  | JObj m => Ok (JStr <$> (map_to_list m).*1)
  | JStr s => Ok (py_chars s)
  | JNull => Raise (TypeError "'NoneType' object is not iterable")
  | JBool _ => Raise (TypeError "'bool' object is not iterable")
  | JInt _ => Raise (TypeError "'int' object is not iterable")
  end.

(** [[f(x) for x in l]]: the values of [f] on the items, in order, or what
    [f] raises on the first item it rejects. *)
Fixpoint py_map {A B} (f : A → Result B) (l : list A) : Result (list B) :=
  match l with
  | [] => Ok []
  | x :: l' =>
      match f x with
      | Ok y =>
          match py_map f l' with
          | Ok ys => Ok (y :: ys)
          | Raise e => Raise e
          end
      | Raise e => Raise e
      end
  end.

(** [range(start, stop, step)], unfolded one index at a time.  [fuel]
    bounds the number of indices; [py_range] passes [|stop - start|],
    which a non-zero step cannot exceed. *)
Fixpoint range_from (fuel : nat) (i stop step : Z) : list Z :=
  match fuel with
  | O => []
  | S fuel' =>
      if bool_decide (0 < step)%Z
      then (if bool_decide (i < stop)%Z
            then i :: range_from fuel' (i + step) stop step else [])
      else (if bool_decide (stop < i)%Z
            then i :: range_from fuel' (i + step) stop step else [])
  end.

Definition py_range (start stop step : Z) : Result (list Z) :=
  if bool_decide (step = 0)%Z
  then Raise (ValueError "range() arg 3 must not be zero")
  else Ok (range_from (Z.to_nat (Z.abs (stop - start))) start stop step).

(** [l[lo:hi]]: a negative bound counts from the end, and both bounds are
    clipped to the list. *)
Definition py_index (len i : Z) : Z :=
  if bool_decide (i < 0)%Z then Z.max 0 (i + len) else Z.min i len.

Definition py_slice {A} (l : list A) (lo hi : Z) : list A :=
  let len := Z.of_nat (length l) in
  let a := py_index len lo in
  let b := py_index len hi in
  take (Z.to_nat (b - a)) (drop (Z.to_nat a) l).

(** [len(l)] *)
Definition len {A} (l : list A) : Z := Z.of_nat (length l).

(** [str] of a list: the [repr] of its items between brackets. *)
Definition py_str_list {A} (repr : A → string) (l : list A) : string :=
  "[" +:+ String.concat ", " (repr <$> l) +:+ "]".

(** [repr] of a string free of quotes and escapes. *)
Definition py_repr_str (s : string) : string := "'" +:+ s +:+ "'".

(** ** Requests *)

Inductive Verb := GET | POST | PUT | DELETE.

Record Request := mkRequest {
  verb : Verb;
  path : string;
  params : gmap string Json;
  body : option Json
}.

(** ** Collaborators

    [sonarr.py] imports its entities from [objs.py], its option check from
    [util.py] and inherits the transport and three validators from
    [BaseAPI] ([api.py]).  None of them is part of the file under study:
    they are taken as parameters, so every result below holds for any
    implementation of them. *)

(** The entities of [objs.py]: the attributes [sonarr.py] reads, the
    constructors from response data, which raise on data they cannot
    load, and the renderings of the entities in messages.
    [LanguageProfile_eq o name] is [name == o] for a [str] and a
    [LanguageProfile]: [str] does not compare itself with the object, so
    Python asks the [__eq__] of the object. *)
Class Objs := {
  Series : Type;
  Series_data : Json → Result Series;
  Series_id : Series → Z;
  Series_tvdbId : Series → Z;
  _get_add_data : Series → gmap string Json → Result Json;
  lookup_term : Z → string;
  LanguageProfile : Type;
  LanguageProfile_data : Json → Result LanguageProfile;
  LanguageProfile_id : LanguageProfile → Z;
  LanguageProfile_name : LanguageProfile → string;
  LanguageProfile_eq : LanguageProfile → string → bool;
  LanguageProfile_str : LanguageProfile → string;
  LanguageProfile_repr : LanguageProfile → string;
  RootFolder : Type;
  QualityProfile : Type;
  Tag : Type
}.

(** [util.validate_options(title, value, options)] *)
Class Util := {
  validate_options : string → string → list string → Result string
}.

(** [BaseAPI]: the remote state a call acts on, the API-version flag, the
    four verbs of the transport and the validators [sonarr.py] inherits.  A
    transport method returns the decoded response or raises, and leaves the
    remote service in a new state. *)
Class BaseAPI `{Objs} := {
  Server : Type;
  v3 : bool;
  _get : string → gmap string Json → Server → Result Json * Server;
  _post : string → Json → Server → Result Json * Server;
  _put : string → Json → gmap string Json → Server → Result Json * Server;
  _delete : string → option Json → gmap string Json → Server →
            Result Json * Server;
  _validate_root_folder : PyRef RootFolder → Server → Result Json * Server;
  _validate_quality_profile :
    PyRef QualityProfile → Server → Result Json * Server;
  _validate_tags :
    list (PyRef Tag) → option bool → Server → Result Json * Server
}.

(** Modelled from the spec: the constant [apply_tags_options] of
    [BaseAPI], which [sonarr.py] reads but does not define; the spec lists
    the legal tag-apply modes as add, replace and remove. *)
Definition apply_tags_options : list string := ["add"; "replace"; "remove"].

(** ** The monad of API calls

    A call starts in a remote state and ends with a result or a raised
    exception, the remote state it leaves, and the requests that the
    endpoint wrappers of [sonarr.py] issued on the way, oldest first. *)

Section Monad.
Context `{BaseAPI}.

Definition M (A : Type) : Type := Server → Result A * Server * list Request.

#[export] Instance M_ret : MRet M := λ A a s, (Ok a, s, []).

#[export] Instance M_bind : MBind M := λ A B f m s,
  match m s with
  | (Ok a, s', rq) =>
      match f a s' with
      | (r, s'', rq') => (r, s'', rq ++ rq')
      end
  | (Raise e, s', rq) => (Raise e, s', rq)
  end.

(** [raise e] *)
Definition raise {A} (e : Exception) : M A := λ s, (Raise e, s, []).

(** A computation without I/O. *)
Definition pure {A} (r : Result A) : M A := λ s, (r, s, []).

(** A method inherited from [BaseAPI]: it acts on the remote state through
    wrappers of its own. *)
Definition inherited {A} (f : Server → Result A * Server) : M A :=
  λ s, let '(r, s') := f s in (r, s', []).

(** An endpoint wrapper: one request through the transport. *)
Definition issue (r : Request) (f : Server → Result Json * Server) : M Json :=
  λ s, let '(res, s') := f s in (res, s', [r]).

(** [try: m  except E: h], where [handles] tells the exceptions of class
    [E] and the handler does not look at the exception. *)
Definition try_except {A} (m : M A) (handles : Exception → bool) (h : M A)
  : M A :=
  λ s,
    match m s with
    | (Raise e, s', rq) =>
        if handles e
        then (match h s' with (r, s'', rq') => (r, s'', rq ++ rq') end)
        else (Raise e, s', rq)
    | o => o
    end.

(** [for x in xs: acc = body(acc, x)] *)
Fixpoint for_ {I S} (xs : list I) (body : S → I → M S) (acc : S) : M S :=
  match xs with
  | [] => mret acc
  | x :: xs' => acc' ← body acc x; for_ xs' body acc'
  end.

End Monad.

(** ** [SonarrAPI] *)

Section Sonarr.
Context `{BaseAPI} `{Util}.

(** [Union[Series, int]]: an item of the list a bulk operation is given. *)
Inductive SeriesRef :=
  | SeriesObj (s : Series)
  | SeriesInt (tvdb_id : Z).

(** [v is None] *)
Definition is_None {A} (v : option A) : bool :=
  match v with None => true | Some _ => false end.

(** [__init__] *)
Definition monitor_options : list string :=
  ["all"; "future"; "missing"; "existing"; "pilot"; "firstSeason";
   "latestSeason"; "none"].

Definition series_type_options : list string := ["standard"; "daily"; "anime"].

(** *** Endpoint wrappers *)

(** GET /series *)
Definition _get_series (tvdb_id : option Z) : M Json :=
  match tvdb_id with
  | Some t =>
      issue (mkRequest GET "series" {["tvdbId" := JInt t]} None)
            (_get "series" {["tvdbId" := JInt t]})
  | None => issue (mkRequest GET "series" ∅ None) (_get "series" ∅)
  end.

(** GET /series/{id} *)
Definition _get_series_id (series_id : Z) : M Json :=
  issue (mkRequest GET ("series/" +:+ pretty series_id) ∅ None)
        (_get ("series/" +:+ pretty series_id) ∅).

(** POST /series/import *)
Definition _post_series_import (json : Json) : M Json :=
  issue (mkRequest POST "series/import" ∅ (Some json))
        (_post "series/import" json).

(** PUT /series/editor *)
Definition _put_series_editor (json : Json) : M Json :=
  issue (mkRequest PUT "series/editor" ∅ (Some json))
        (_put "series/editor" json ∅).

(** DELETE /series/editor *)
Definition _delete_series_editor (json : Json) : M Json :=
  issue (mkRequest DELETE "series/editor" ∅ (Some json))
        (_delete "series/editor" (Some json) ∅).

(** GET /series/lookup *)
Definition _get_series_lookup (term : string) : M Json :=
  issue (mkRequest GET "series/lookup" {["term" := JStr term]} None)
        (_get "series/lookup" {["term" := JStr term]}).

(** POST /seasonPass *)
Definition _post_seasonPass (json : Json) : M Json :=
  issue (mkRequest POST "seasonPass" ∅ (Some json)) (_post "seasonPass" json).

(** GET /languageProfile *)
Definition _get_languageProfile : M Json :=
  issue (mkRequest GET "languageProfile" ∅ None) (_get "languageProfile" ∅).

(** Edit multiple Series monitoring.  [monitor] is the value popped from
    the option map; it differs from ["none"] unless it is that string. *)
Definition _edit_series_monitoring (series_ids : list Z) (monitor : Json)
  : M Json :=
  let monitored :=
    match monitor with
    | JStr s => bool_decide (s ≠ "none")
    | _ => true
    end in
  let json : gmap string Json :=
    <["series" :=
        JList ((λ s, JObj (<["monitored" := JBool monitored]>
                            {["id" := JInt s]})) <$> series_ids)]>
      {["monitoringOptions" := JObj {["monitor" := monitor]}]} in
  _post_seasonPass (JObj json).

(** *** Validators *)

Definition _validate_monitor (monitor : string) : M string :=
  pure (validate_options "Monitor" monitor monitor_options).

Definition _validate_series_type (series_type : string) : M string :=
  pure (validate_options "Series Type" series_type series_type_options).

(** Gets every [LanguageProfile] in Sonarr. *)
Definition language_profile : M (list LanguageProfile) :=
  r ← _get_languageProfile;
  items ← pure (py_iter r);
  pure (py_map LanguageProfile_data items).

(** The test of the loop of [_validate_language_profile]: the three
    disjuncts, from left to right.  The [isinstance] tests tell the first
    two apart; the third, [profile.name == language_profile], is the
    equality of strings for a [str], false for an [int], and the [__eq__]
    of the object for a [LanguageProfile]. *)
Definition language_profile_matches (profile : LanguageProfile)
    (value : PyRef LanguageProfile) : bool :=
  match value with
  | RObj o =>
      bool_decide (LanguageProfile_id profile = LanguageProfile_id o)
      || LanguageProfile_eq o (LanguageProfile_name profile)
  | RInt n => bool_decide (LanguageProfile_id profile = n)
  | RStr s => bool_decide (LanguageProfile_name profile = s)
  end.

(** [f"{language_profile}"] *)
Definition language_profile_str (value : PyRef LanguageProfile) : string :=
  match value with
  | RStr s => s
  | RInt n => pretty n
  | RObj o => LanguageProfile_str o
  end.

(** The loop of [_validate_language_profile] over the fetched profiles:
    [options] holds the profiles seen so far. *)
Fixpoint _validate_language_profile_loop (value : PyRef LanguageProfile)
    (profiles options : list LanguageProfile) : Result Z :=
  match profiles with
  | [] =>
      Raise (Invalid ("Invalid Language Profile: '"
                      +:+ language_profile_str value +:+ "' Options: "
                      +:+ py_str_list LanguageProfile_repr options))
  | profile :: rest =>
      let options := options ++ [profile] in
      if language_profile_matches profile value
      then Ok (LanguageProfile_id profile)
      else _validate_language_profile_loop value rest options
  end.

Definition _validate_language_profile (value : PyRef LanguageProfile) : M Z :=
  profiles ← language_profile;
  pure (_validate_language_profile_loop value profiles []).

(** Validate Add Series options.  The entries of the dict literal are
    evaluated in the order they are written. *)
Definition _validate_add_options (root_folder : PyRef RootFolder)
    (quality_profile : PyRef QualityProfile)
    (language_profile : PyRef LanguageProfile) (monitor : string)
    (season_folder search unmet_search : bool) (series_type : string)
    (tags : option (list (PyRef Tag))) : M (gmap string Json) :=
  rf ← inherited (_validate_root_folder root_folder);
  qp ← inherited (_validate_quality_profile quality_profile);
  lp ← _validate_language_profile language_profile;
  mo ← _validate_monitor monitor;
  st ← _validate_series_type series_type;
  let options : gmap string Json :=
    <["series_type" := JStr st]> $
    <["unmet_search" := JBool unmet_search]> $
    <["search" := JBool search]> $
    <["season_folder" := JBool season_folder]> $
    <["monitored" := JBool (bool_decide (monitor ≠ "none"))]> $
    <["monitor" := JStr mo]> $
    <["language_profile" := JInt lp]> $
    <[(if v3 then "quality_profile" else "profileId") := qp]> $
    <["root_folder" := rf]> ∅ in
  match tags with
  | Some (t :: ts) =>
      tg ← inherited (_validate_tags (t :: ts) None);
      mret (<["tags" := tg]> options)
  | _ => mret options
  end.

(** Validate Edit Series options. *)
Definition _validate_edit_options (root_folder : option (PyRef RootFolder))
    (path : option string) (move_files : bool)
    (quality_profile : option (PyRef QualityProfile))
    (language_profile : option (PyRef LanguageProfile))
    (monitor : option string) (monitored season_folder : option bool)
    (series_type : option string) (tags : option (list (PyRef Tag)))
    (apply_tags : string) : M (gmap string Json) :=
  let variables :=
    [is_None root_folder; is_None path; is_None quality_profile;
     is_None language_profile; is_None monitor; is_None monitored;
     is_None season_folder; is_None series_type; is_None tags] in
  if forallb (λ v, v) variables
  then raise (ValueError
    ("Expected either root_folder, path, quality_profile, language_profile, "
     +:+ "monitor, monitored, season_folder, series_type, or tags args"))
  else
    let options : gmap string Json := {["moveFiles" := JBool move_files]} in
    options ← match root_folder with
      | Some v =>
          x ← inherited (_validate_root_folder v);
          mret (<["rootFolderPath" := x]> options)
      | None => mret options
      end;
    options ← match path with
      | Some v => mret (<["path" := JStr v]> options)
      | None => mret options
      end;
    options ← match quality_profile with
      | Some v =>
          x ← inherited (_validate_quality_profile v);
          mret (<[(if v3 then "qualityProfileId" else "profileId") := x]>
                  options)
      | None => mret options
      end;
    options ← match language_profile with
      | Some v =>
          x ← _validate_language_profile v;
          mret (<["languageProfileId" := JInt x]> options)
      | None => mret options
      end;
    options ← match monitor with
      | Some v =>
          x ← _validate_monitor v; mret (<["monitor" := JStr x]> options)
      | None => mret options
      end;
    options ← match monitored with
      | Some v => mret (<["monitored" := JBool v]> options)
      | None => mret options
      end;
    options ← match season_folder with
      | Some v => mret (<["seasonFolder" := JBool v]> options)
      | None => mret options
      end;
    options ← match series_type with
      | Some v =>
          x ← _validate_series_type v;
          mret (<["seriesType" := JStr x]> options)
      | None => mret options
      end;
    match tags with
    | Some v =>
        x ← inherited
              (_validate_tags v (Some (bool_decide (apply_tags ≠ "remove"))));
        let options := <["tags" := x]> options in
        if bool_decide (apply_tags ∈ apply_tags_options)
        then mret (<["applyTags" := JStr apply_tags]> options)
        else raise (Invalid ("Invalid apply_tags: '" +:+ apply_tags
                             +:+ "' Options: "
                             +:+ py_str_list py_repr_str apply_tags_options))
    | None => mret options
    end.

(** *** Series *)

(** Modelled from the spec: the constructor [Series(self, series_id=...,
    tvdb_id=...)] of [objs.py], which [get_series] calls and [sonarr.py]
    does not define.  The spec has an identifier resolved against the
    remote service, through the endpoints [series/{id}] and
    [series/lookup?term=], and [NotFound] raised when the "remote lookup by
    id yielded nothing".  The case without any id is not reached from
    [get_series]. *)
Definition Series_init (series_id tvdb_id : option Z) : M Series :=
  match series_id, tvdb_id with
  | Some i, _ => d ← _get_series_id i; pure (Series_data d)
  | None, Some t =>
      r ← _get_series_lookup (lookup_term t);
      items ← pure (py_iter r);
      match items with
      | d :: _ => pure (Series_data d)
      | [] => raise (NotFound "Item Not Found")
      end
  | None, None => raise (NotFound "Item Not Found")
  end.

(** Gets a [Series] by one of the IDs. *)
Definition get_series (series_id tvdb_id : option Z) : M Series :=
  if forallb (λ v, v) [is_None series_id; is_None tvdb_id]
  then raise (ValueError "Expected either series_id or tvdb_id args")
  else Series_init series_id tvdb_id.

(** Gets all [Series] in Sonarr. *)
Definition all_series : M (list Series) :=
  r ← _get_series None;
  items ← pure (py_iter r);
  pure (py_map Series_data items).

(** [{m.tvdbId: m for m in all_series}]: a later series replaces an
    earlier one with the same TVDb id. *)
Definition tvdb_sonarr_ids (all : list Series) : gmap Z Series :=
  foldl (λ d m, <[Series_tvdbId m := m]> d) ∅ all.

(** [if isinstance(tvdb_id, Series): tvdb_id = tvdb_id.tvdbId] *)
Definition as_tvdb_id (tvdb_id : SeriesRef) : Z :=
  match tvdb_id with
  | SeriesObj s => Series_tvdbId s
  | SeriesInt n => n
  end.

(** One turn of the loop of [_validate_tvdb_ids]. *)
Definition _validate_tvdb_id (catalog : gmap Z Series)
    (acc : list Z * list Z) (tvdb_id : SeriesRef) : list Z * list Z :=
  let '(valid_ids, invalid_ids) := acc in
  let tvdb_id := as_tvdb_id tvdb_id in
  match catalog !! tvdb_id with
  | Some m => (valid_ids ++ [Series_id m], invalid_ids)
  | None => (valid_ids, invalid_ids ++ [tvdb_id])
  end.

(** Validate TVDb IDs. *)
Definition _validate_tvdb_ids (tvdb_ids : list SeriesRef)
  : M (list Z * list Z) :=
  all ← all_series;
  mret (foldl (_validate_tvdb_id (tvdb_sonarr_ids all)) ([], []) tvdb_ids).

(** *** Bulk operations *)

(** One turn of the first loop of [add_multiple_series]: the three lists
    are [json], [existing_series] and [not_found_ids]. *)
Definition add_multiple_series_item (options : gmap string Json)
    (acc : list Json * list Series * list SeriesRef) (tvdb_id : SeriesRef)
  : M (list Json * list Series * list SeriesRef) :=
  let '(json, existing_series, not_found_ids) := acc in
  try_except
    (show ← match tvdb_id with
            | SeriesObj s => mret s
            | SeriesInt n => get_series None (Some n)
            end;
     try_except
       (d ← pure (_get_add_data show options);
        mret (json ++ [d], existing_series, not_found_ids))
       is_Exists
       (mret (json, existing_series ++ [show], not_found_ids)))
    is_NotFound
    (mret (json, existing_series, not_found_ids ++ [tvdb_id])).

(** One turn of the second loop of [add_multiple_series]: the chunk of
    [json] at [i] is imported and the series of the response are added to
    [series]. *)
Definition add_multiple_series_import (json : list Json) (per_request : Z)
    (series : list Series) (i : Z) : M (list Series) :=
  r ← _post_series_import (JList (py_slice json i (i + per_request)));
  items ← pure (py_iter r);
  added ← pure (py_map Series_data items);
  mret (series ++ added).

(** Adds multiple Series to Sonarr in a single call by their TVDb IDs. *)
Definition add_multiple_series (tvdb_ids : list SeriesRef)
    (root_folder : PyRef RootFolder) (quality_profile : PyRef QualityProfile)
    (language_profile : PyRef LanguageProfile) (monitor : string)
    (season_folder search unmet_search : bool) (series_type : string)
    (tags : option (list (PyRef Tag))) (per_request : option Z)
  : M (list Series * list Series * list SeriesRef) :=
  options ← _validate_add_options root_folder quality_profile
              language_profile monitor season_folder search unmet_search
              series_type tags;
  '(json, existing_series, not_found_ids) ←
    for_ tvdb_ids (add_multiple_series_item options) ([], [], []);
  series ←
    (if bool_decide (0 < len json)%Z
     then
       let per_request := default (len json) per_request in
       indices ← pure (py_range 0 (len json) per_request);
       for_ indices (add_multiple_series_import json per_request) []
     else mret []);
  mret (series, existing_series, not_found_ids).

(** One turn of the monitoring loop of [edit_multiple_series]. *)
Definition edit_multiple_series_monitor (valid_ids : list Z)
    (per_request : Z) (json_monitor : Json) (_ : ()) (i : Z) : M () :=
  _edit_series_monitoring (py_slice valid_ids i (i + per_request))
    json_monitor;;
  mret ().

(** One turn of the last loop of [edit_multiple_series].  The option map
    [json] is one dict, whose ["seriesIds"] is assigned anew at every turn;
    it is part of the state of the loop. *)
Definition edit_multiple_series_editor (valid_ids : list Z)
    (per_request : Z) (acc : gmap string Json * list Series) (i : Z)
  : M (gmap string Json * list Series) :=
  let '(json, series_list) := acc in
  let json : gmap string Json :=
    <["seriesIds" := JList (JInt <$> py_slice valid_ids i (i + per_request))]>
      json in
  r ← _put_series_editor (JObj json);
  items ← pure (py_iter r);
  edited ← pure (py_map Series_data items);
  mret (json, series_list ++ edited).

(** Edit multiple Series in Sonarr by their TVDb IDs. *)
Definition edit_multiple_series (tvdb_ids : list SeriesRef)
    (root_folder : option (PyRef RootFolder)) (move_files : bool)
    (quality_profile : option (PyRef QualityProfile))
    (language_profile : option (PyRef LanguageProfile))
    (monitor : option string) (monitored season_folder : option bool)
    (series_type : option string) (tags : option (list (PyRef Tag)))
    (apply_tags : string) (per_request : option Z)
  : M (list Series * list Z) :=
  json ← _validate_edit_options root_folder None move_files quality_profile
           language_profile monitor monitored season_folder series_type tags
           apply_tags;
  '(valid_ids, invalid_ids) ← _validate_tvdb_ids tvdb_ids;
  series_list ←
    (if bool_decide (0 < len valid_ids)%Z
     then
       let per_request := default (len valid_ids) per_request in
       json ←
         match json !! "monitor" with
         | Some json_monitor =>
             let json := delete "monitor" json in
             indices ← pure (py_range 0 (len valid_ids) per_request);
             for_ indices
               (edit_multiple_series_monitor valid_ids per_request
                  json_monitor) ();;
             mret json
         | None => mret json
         end;
       indices ← pure (py_range 0 (len valid_ids) per_request);
       '(_, series_list) ←
         for_ indices (edit_multiple_series_editor valid_ids per_request)
           (json, []);
       mret series_list
     else mret []);
  mret (series_list, invalid_ids).

(** One turn of the loop of [delete_multiple_series]; [json] is one dict
    here too. *)
Definition delete_multiple_series_editor (valid_ids : list Z)
    (per_request : Z) (json : gmap string Json) (i : Z)
  : M (gmap string Json) :=
  let json : gmap string Json :=
    <["seriesIds" := JList (JInt <$> py_slice valid_ids i (i + per_request))]>
      json in
  _delete_series_editor (JObj json);;
  mret json.

(** Deletes multiple Series in Sonarr by their TVDb IDs. *)
Definition delete_multiple_series (tvdb_ids : list SeriesRef)
    (addImportExclusion deleteFiles : bool) (per_request : option Z)
  : M (list Z) :=
  '(valid_ids, invalid_ids) ← _validate_tvdb_ids tvdb_ids;
  (if bool_decide (0 < len valid_ids)%Z
   then
     let json : gmap string Json :=
       <["addImportExclusion" := JBool addImportExclusion]>
         {["deleteFiles" := JBool deleteFiles]} in
     let per_request := default (len valid_ids) per_request in
     indices ← pure (py_range 0 (len valid_ids) per_request);
     for_ indices (delete_multiple_series_editor valid_ids per_request) json;;
     mret ()
   else mret ());;
  mret invalid_ids.

End Sonarr.

(** ** Vocabulary of the specification *)

(** Consecutive slices of [k] items, the last one possibly shorter.  Every
    turn but the last removes at least one item when [k] is positive, so
    the length of the list is fuel enough. *)
Fixpoint chunks_fuel {A} (fuel k : nat) (l : list A) : list (list A) :=
  match fuel with
  | O => []
  | S fuel' =>
      match l with
      | [] => []
      | _ => take k l :: chunks_fuel fuel' k (drop k l)
      end
  end.

Definition chunks {A} (k : Z) (l : list A) : list (list A) :=
  chunks_fuel (length l) (Z.to_nat k) l.

(** [ceil(n / k)] for a positive [k] *)
Definition ceil_div (n k : Z) : Z := ((n + k - 1) `div` k)%Z.

(** The chunk size in force: [per_request], or the whole list. *)
Definition chunk_size {A} (per_request : option Z) (l : list A) : Z :=
  default (len l) per_request.

(** A chunk size a caller may ask for: none, or at least one. *)
Definition chunk_size_ok (per_request : option Z) : Prop :=
  match per_request with
  | Some k => (1 ≤ k)%Z
  | None => True
  end.

(** The slices a batched phase works through. *)
Definition batches {A} (per_request : option Z) (l : list A)
  : list (list A) :=
  chunks (chunk_size per_request l) l.

(** The requests of the batched phases. *)
Definition import_request (chunk : list Json) : Request :=
  mkRequest POST "series/import" ∅ (Some (JList chunk)).

Definition seasonPass_request (monitor : Json) (chunk : list Z) : Request :=
  let monitored :=
    match monitor with
    | JStr s => bool_decide (s ≠ "none")
    | _ => true
    end in
  mkRequest POST "seasonPass" ∅
    (Some (JObj
      (<["series" :=
           JList ((λ s, JObj (<["monitored" := JBool monitored]>
                               {["id" := JInt s]})) <$> chunk)]>
         {["monitoringOptions" := JObj {["monitor" := monitor]}]}))).

Definition editor_request (options : gmap string Json) (chunk : list Z)
  : Request :=
  mkRequest PUT "series/editor" ∅
    (Some (JObj (<["seriesIds" := JList (JInt <$> chunk)]> options))).

Definition delete_request (addImportExclusion deleteFiles : bool)
    (chunk : list Z) : Request :=
  mkRequest DELETE "series/editor" ∅
    (Some (JObj
      (<["seriesIds" := JList (JInt <$> chunk)]>
         (<["addImportExclusion" := JBool addImportExclusion]>
            {["deleteFiles" := JBool deleteFiles]})))).

Definition languageProfile_request : Request :=
  mkRequest GET "languageProfile" ∅ None.

Definition series_request : Request := mkRequest GET "series" ∅ None.

Definition lookup_request `{Objs} (tvdb_id : Z) : Request :=
  mkRequest GET "series/lookup" {["term" := JStr (lookup_term tvdb_id)]} None.

(** The request is one of the batched phases or a deletion. *)
Definition is_mutation (r : Request) : bool :=
  match verb r with
  | GET => false
  | _ => true
  end.

(** What the transport does with a request. *)
Definition transport `{BaseAPI} (r : Request)
  : Server → Result Json * Server :=
  match verb r with
  | GET => _get (path r) (params r)
  | POST => _post (path r) (default JNull (body r))
  | PUT => _put (path r) (default JNull (body r)) (params r)
  | DELETE => _delete (path r) (body r) (params r)
  end.

(** [answered s requests responses s']: sent in this order to a service in
    state [s], the requests are answered without error by lists of items
    that load as the lists of series [responses], and leave the service in
    state [s']. *)
Inductive answered `{BaseAPI}
  : Server → list Request → list (list Series) → Server → Prop :=
  | answered_nil s : answered s [] [] s
  | answered_cons s r v items series s' rs vs s'' :
      transport r s = (Ok v, s') →
      py_iter v = Ok items →
      py_map Series_data items = Ok series →
      answered s' rs vs s'' →
      answered s (r :: rs) (series :: vs) s''.

(** [accepted s requests s']: sent in this order to a service in state
    [s], the requests are answered without error, whatever the answers,
    and leave the service in state [s']. *)
Inductive accepted `{BaseAPI} : Server → list Request → Server → Prop :=
  | accepted_nil s : accepted s [] s
  | accepted_cons s r v s' rs s'' :
      transport r s = (Ok v, s') →
      accepted s' rs s'' →
      accepted s (r :: rs) s''.

(** [sent s requests s']: the requests have been sent in this order to a
    service in state [s], whatever the outcome of each, and the service is
    left in state [s']. *)
Inductive sent `{BaseAPI} : Server → list Request → Server → Prop :=
  | sent_nil s : sent s [] s
  | sent_cons s r res s' rs s'' :
      transport r s = (res, s') →
      sent s' rs s'' →
      sent s (r :: rs) s''.

(** The shape of one turn of a batched loop: the request [r], then the
    series loaded from the items of the response handed to [step]. *)
Definition turn `{BaseAPI} {St} (r : Request) (step : list Series → St)
  : M St :=
  λ s,
    match transport r s with
    | (Ok v, s') =>
        match py_iter v with
        | Ok items =>
            match py_map Series_data items with
            | Ok series => (Ok (step series), s', [r])
            | Raise e => (Raise e, s', [r])
            end
        | Raise e => (Raise e, s', [r])
        end
    | (Raise e, s') => (Raise e, s', [r])
    end.

(** The shape of one turn of a batched loop that does not look at the
    response. *)
Definition blind_turn `{BaseAPI} {St} (r : Request) (acc : St) : M St :=
  λ s,
    match transport r s with
    | (Ok _, s') => (Ok acc, s', [r])
    | (Raise e, s') => (Raise e, s', [r])
    end.

(** An option dict that differs from [json0] in its ["seriesIds"] at
    most. *)
Definition same_options (json0 json : gmap string Json) : Prop :=
  ∀ c, <["seriesIds" := c]> json = <["seriesIds" := c]> json0.

(** A computation that issues no request. *)
Definition quiet `{BaseAPI} {A} (m : M A) : Prop := ∀ s, (m s).2 = [].

(** A computation whose only request, if any, is the fetch of the language
    profiles. *)
Definition fetches_profiles_only `{BaseAPI} {A} (m : M A) : Prop :=
  ∀ s, (m s).2 = [] ∨ (m s).2 = [languageProfile_request].

(** The three buckets of [add_multiple_series], as the outcome of one
    input item. *)
Inductive Bucket `{Objs} :=
  | Queued (payload : Json)
  | AlreadyExists (show : Series)
  | NotFoundId (tvdb_id : SeriesRef).

Definition queued `{Objs} (bs : list Bucket) : list Json :=
  omap (λ b, match b with Queued p => Some p | _ => None end) bs.

Definition already_exists `{Objs} (bs : list Bucket) : list Series :=
  omap (λ b, match b with AlreadyExists show => Some show | _ => None end) bs.

Definition not_found `{Objs} (bs : list Bucket) : list SeriesRef :=
  omap (λ b, match b with NotFoundId x => Some x | _ => None end) bs.

(** [shown tvdb_id show]: the item is the series [show], or an id that
    [get_series] resolves to [show]. *)
Definition shown `{BaseAPI} (tvdb_id : SeriesRef) (show : Series) : Prop :=
  match tvdb_id with
  | SeriesObj s => show = s
  | SeriesInt n =>
      ∃ s s' rq, get_series None (Some n) s = (Ok show, s', rq)
  end.

(** [sorted_into options tvdb_id b]: the bucket [b] is the outcome of the
    item.  A queued payload is the add data of the series shown; a series
    reported as existing is the series shown, and its add data raise
    [Exists]; an item reported as not found is an id whose resolution
    raises [NotFound], or shows a series whose add data raise [NotFound]. *)
Definition sorted_into `{BaseAPI} (options : gmap string Json)
    (tvdb_id : SeriesRef) (b : Bucket) : Prop :=
  match b with
  | Queued p =>
      ∃ show, shown tvdb_id show ∧ _get_add_data show options = Ok p
  | AlreadyExists show =>
      shown tvdb_id show ∧
      ∃ msg, _get_add_data show options = Raise (Exists msg)
  | NotFoundId x =>
      x = tvdb_id ∧
      ((∃ n s s' rq msg,
          tvdb_id = SeriesInt n ∧
          get_series None (Some n) s = (Raise (NotFound msg), s', rq)) ∨
       (∃ show msg,
          shown tvdb_id show ∧
          _get_add_data show options = Raise (NotFound msg)))
  end.

(** A collaborator that never raises [Exists]. *)
Definition raises_no_Exists `{BaseAPI} {A}
    (f : Server → Result A * Server) : Prop :=
  ∀ s msg, (f s).1 ≠ Raise (Exists msg).

(** [Exists] is raised by [_get_add_data] only: neither the transport, nor
    a validator, nor the constructor of an entity raises it. *)
Definition Exists_is_add_data_only `{BaseAPI} `{Util} : Prop :=
  (∀ path params, raises_no_Exists (_get path params)) ∧
  (∀ path json, raises_no_Exists (_post path json)) ∧
  (∀ v, raises_no_Exists (_validate_root_folder v)) ∧
  (∀ v, raises_no_Exists (_validate_quality_profile v)) ∧
  (∀ v create, raises_no_Exists (_validate_tags v create)) ∧
  (∀ title value options msg,
     validate_options title value options ≠ Raise (Exists msg)) ∧
  (∀ d msg, Series_data d ≠ Raise (Exists msg)) ∧
  (∀ d msg, LanguageProfile_data d ≠ Raise (Exists msg)).

(** A computation that never raises [Exists]. *)
Definition no_Exists `{BaseAPI} {A} (m : M A) : Prop :=
  ∀ s msg, (m s).1.1 ≠ Raise (Exists msg).

(** The dict after [options[key] = value] for a field that was given, and
    the dict as it was for a field left out. *)
Definition with_field (key : string) (value : option Json)
    (options : gmap string Json) : gmap string Json :=
  match value with
  | Some v => <[key := v]> options
  | None => options
  end.

(** ** A small remote service

    A concrete implementation of the collaborators, on which the
    operations can be run: a library of series, the series a lookup knows
    of, and the language profiles. *)

Module Mock.

Definition int_field (k : string) (d : Json) : Z :=
  match d with
  | JObj m => match m !! k with Some (JInt n) => n | _ => 0%Z end
  | _ => 0%Z
  end.

Definition str_field (k : string) (d : Json) : string :=
  match d with
  | JObj m => match m !! k with Some (JStr x) => x | _ => EmptyString end
  | _ => EmptyString
  end.

(** An entity is loaded from an object. *)
Definition loaded {A} (f : Json → A) (d : Json) : Result A :=
  match d with
  | JObj _ => Ok (f d)
  | _ => Raise (TypeError "the data of an entity are an object")
  end.

(** A series is its internal id, 0 when it is not in the library, and its
    TVDb id; a language profile is its id and its name, and is equal to
    its name. *)
#[export] Instance objs : Objs := {|
  Series := Z * Z;
  Series_data := loaded (λ d, (int_field "id" d, int_field "tvdbId" d));
  Series_id s := s.1;
  Series_tvdbId s := s.2;
  _get_add_data s options :=
    if bool_decide (s.1 = 0%Z)
    then Ok (JObj (<["tvdbId" := JInt s.2]> options))
    else Raise (Exists "already in Sonarr");
  lookup_term t := "tvdb:" +:+ pretty t;
  LanguageProfile := Z * string;
  LanguageProfile_data :=
    loaded (λ d, (int_field "id" d, str_field "name" d));
  LanguageProfile_id p := p.1;
  LanguageProfile_name p := p.2;
  LanguageProfile_eq p name := bool_decide (p.2 = name);
  LanguageProfile_str p := p.2;
  LanguageProfile_repr p := p.2;
  RootFolder := string;
  QualityProfile := string;
  Tag := string
|}.

Definition series (id tvdb_id : Z) : Series := (id, tvdb_id).

Definition profile (id : Z) (name : string) : LanguageProfile := (id, name).

#[export] Instance util : Util := {|
  validate_options title value options :=
    if bool_decide (value ∈ options) then Ok value
    else Raise (Invalid ("Invalid " +:+ title +:+ ": '" +:+ value
                         +:+ "' Options: " +:+ py_str_list py_repr_str options))
|}.

Record State := {
  library : list Json;
  known : list Json;
  profiles : list Json
}.

Definition series_json (id tvdb_id : Z) : Json :=
  JObj (<["tvdbId" := JInt tvdb_id]> {["id" := JInt id]}).

Definition profile_json (id : Z) (name : string) : Json :=
  JObj (<["name" := JStr name]> {["id" := JInt id]}).

Definition has_term (term : Json) (d : Json) : bool :=
  match term with
  | JStr t => bool_decide (t = "tvdb:" +:+ pretty (int_field "tvdbId" d))
  | _ => false
  end.

Definition listed (ids : Json) (d : Json) : bool :=
  match ids with
  | JList l =>
      existsb (λ i, match i with
                    | JInt n => bool_decide (n = int_field "id" d)
                    | _ => false
                    end) l
  | _ => false
  end.

Definition do_get (path : string) (params : gmap string Json) (s : State)
  : Result Json * State :=
  if bool_decide (path = "series") then (Ok (JList (library s)), s)
  else if bool_decide (path = "languageProfile")
  then (Ok (JList (profiles s)), s)
  else if bool_decide (path = "series/lookup")
  then (Ok (JList (filter (λ d, has_term (default JNull (params !! "term")) d)
                     (library s ++ known s))), s)
  else (Raise (ArrException "404"), s).

Definition do_post (path : string) (json : Json) (s : State)
  : Result Json * State :=
  if bool_decide (path = "series/import")
  then match json with
       | JList l =>
           (Ok json, {| library := library s ++ l; known := known s;
                        profiles := profiles s |})
       | _ => (Raise (ArrException "400"), s)
       end
  else if bool_decide (path = "seasonPass") then (Ok JNull, s)
  else (Raise (ArrException "404"), s).

Definition do_put (path : string) (json : Json) (params : gmap string Json)
    (s : State) : Result Json * State :=
  if bool_decide (path = "series/editor")
  then match json with
       | JObj m =>
           (Ok (JList (filter (λ d, listed (default JNull (m !! "seriesIds")) d)
                         (library s))), s)
       | _ => (Raise (ArrException "400"), s)
       end
  else (Raise (ArrException "404"), s).

Definition do_delete (path : string) (json : option Json)
    (params : gmap string Json) (s : State) : Result Json * State :=
  if bool_decide (path = "series/editor") then (Ok JNull, s)
  else (Raise (ArrException "404"), s).

Definition named {O} (what : string) (r : PyRef O) (s : State)
  : Result Json * State :=
  match r with
  | RStr x => (Ok (JStr x), s)
  | RInt n => (Ok (JInt n), s)
  | RObj _ => (Raise (Invalid ("Invalid " +:+ what)), s)
  end.

Definition tag_json (r : PyRef string) : Json :=
  match r with
  | RStr x => JStr x
  | RInt n => JInt n
  | RObj x => JStr x
  end.

#[export] Instance api : BaseAPI := {|
  Server := State;
  v3 := true;
  _get := do_get;
  _post := do_post;
  _put := do_put;
  _delete := do_delete;
  _validate_root_folder := named "Root Folder";
  _validate_quality_profile := named "Quality Profile";
  _validate_tags l create s := (Ok (JList (tag_json <$> l)), s)
|}.

(** A service with series 10 (TVDb id 2) in its library, TVDb ids 1 and 3
    known to the lookup, and two language profiles of the same name. *)
Definition service : State := {|
  library := [series_json 10 2];
  known := [series_json 0 1; series_json 0 3];
  profiles := [profile_json 1 "English"; profile_json 2 "English"]
|}.

(** Five ids to edit or delete. *)
Definition five : list SeriesRef :=
  [SeriesInt 101; SeriesInt 102; SeriesInt 103; SeriesInt 104; SeriesInt 105].

(** A service with five series in its library and three more known to
    the lookup. *)
Definition shelf : State := {|
  library := [series_json 11 101; series_json 12 102; series_json 13 103;
              series_json 14 104; series_json 15 105];
  known := [series_json 0 201; series_json 0 202; series_json 0 203];
  profiles := [profile_json 1 "English"]
|}.

End Mock.

(** ** A service with a quota

    A service that accepts as many posts as its state says, then fails.
    Every GET is answered by the one language profile it has. *)

Module Quota.

Definition do_get (path : string) (params : gmap string Json) (s : nat)
  : Result Json * nat :=
  (Ok (JList [Mock.profile_json 1 "English"]), s).

Definition do_post (path : string) (json : Json) (s : nat)
  : Result Json * nat :=
  match s with
  | O => (Raise (ArrException "503"), O)
  | S n => (Ok json, n)
  end.

#[export] Instance api : @BaseAPI Mock.objs := {|
  Server := nat;
  v3 := true;
  _get := do_get;
  _post := do_post;
  _put path json params s := (Ok json, s);
  _delete path json params s := (Ok JNull, s);
  _validate_root_folder r s := (Ok (JStr "/tv"), s);
  _validate_quality_profile r s := (Ok (JInt 1), s);
  _validate_tags l create s := (Ok (JList []), s)
|}.

End Quota.

(** ** A service with tags

    A service whose state is the list of its tags.  The validation of tags
    creates the missing ones, unless it is told not to. *)

Module Tagging.

Definition tag_name (r : PyRef (@Tag Mock.objs)) : string :=
  match r with
  | RStr x => x
  | RInt n => pretty n
  | RObj x => x
  end.

Definition validate_tags (l : list (PyRef (@Tag Mock.objs)))
    (create : option bool) (s : list string) : Result Json * list string :=
  let names := tag_name <$> l in
  match create with
  | Some false => (Ok (JList (JStr <$> filter (λ n, n ∈ s) names)), s)
  | _ => (Ok (JList (JStr <$> names)), s ++ filter (λ n, n ∉ s) names)
  end.

#[export] Instance api : @BaseAPI Mock.objs := {|
  Server := list string;
  v3 := true;
  _get path params s := (Ok (JList [Mock.profile_json 1 "English"]), s);
  _post path json s := (Ok json, s);
  _put path json params s := (Ok json, s);
  _delete path json params s := (Ok JNull, s);
  _validate_root_folder r s := (Ok (JStr "/tv"), s);
  _validate_quality_profile r s := (Ok (JInt 1), s);
  _validate_tags l create s := validate_tags l create s
|}.

End Tagging.

(** * Proofs *)

(** ** Ranges, slices and chunks *)

Section Chunks.
Context {A : Type}.
Implicit Types (l : list A) (k n i : Z).

Lemma py_slice_chunk l i k :
  (0 ≤ i)%Z → (1 ≤ k)%Z →
  py_slice l i (i + k) = take (Z.to_nat k) (drop (Z.to_nat i) l).
Proof.
  intros Hi Hk. unfold py_slice, py_index.
  rewrite !bool_decide_eq_false_2 by lia.
  destruct (decide (i + k ≤ Z.of_nat (length l))%Z) as [Hle|Hgt].
  - f_equal; [lia|f_equal; lia].
  - rewrite (take_ge (drop (Z.to_nat i) l)) by (rewrite length_drop; lia).
    destruct (decide (i ≤ Z.of_nat (length l))%Z) as [Hi'|Hi'].
    + rewrite Z.min_r, Z.min_l by lia.
      rewrite take_ge; [done|]. rewrite length_drop. lia.
    + rewrite !drop_ge by lia. by rewrite take_nil.
Qed.

Lemma range_slices_chunks l k :
  (1 ≤ k)%Z →
  ∀ f1 f2 i, (0 ≤ i)%Z →
    (len l - i ≤ Z.of_nat f1)%Z → (len l - i ≤ Z.of_nat f2)%Z →
    (λ j, py_slice l j (j + k)) <$> range_from f1 i (len l) k
    = chunks_fuel f2 (Z.to_nat k) (drop (Z.to_nat i) l).
Proof.
  intros Hk. unfold len. induction f1 as [|f1 IH]; intros f2 i Hi H1 H2.
  - cbn [range_from]. rewrite drop_ge by lia. by destruct f2.
  - cbn [range_from]. rewrite bool_decide_eq_true_2 by lia.
    case_bool_decide as Hlt.
    + destruct f2 as [|f2]; [lia|]. cbn [chunks_fuel].
      destruct (drop (Z.to_nat i) l) as [|x d] eqn:Hd.
      { apply (f_equal length) in Hd. rewrite length_drop in Hd.
        simpl in Hd. lia. }
      rewrite <- Hd, fmap_cons, py_slice_chunk by lia. f_equal.
      rewrite drop_drop, (IH f2 (i + k)%Z) by lia.
      do 2 f_equal. lia.
    + rewrite drop_ge by lia. by destruct f2.
Qed.

Lemma py_range_chunks l k :
  (1 ≤ k)%Z →
  ∃ indices, py_range 0 (len l) k = Ok indices ∧
    (λ j, py_slice l j (j + k)) <$> indices = chunks k l.
Proof.
  intros Hk. unfold py_range. rewrite bool_decide_eq_false_2 by lia.
  eexists; split; [done|]. unfold chunks.
  rewrite (range_slices_chunks l k Hk _ (length l) 0%Z); unfold len; try lia.
  done.
Qed.

Lemma chunks_fuel_concat (k : nat) :
  (1 ≤ k)%nat → ∀ f l, (length l ≤ f)%nat → concat (chunks_fuel f k l) = l.
Proof.
  intros Hk. induction f as [|f IH]; intros l Hl.
  - destruct l; [done|simpl in Hl; lia].
  - destruct l as [|x l]; [done|].
    change (chunks_fuel (S f) k (x :: l))
      with (take k (x :: l) :: chunks_fuel f k (drop k (x :: l))).
    simpl concat. rewrite IH; [apply take_drop|].
    rewrite length_drop. simpl in *. lia.
Qed.

Lemma chunks_concat l k : (1 ≤ k)%Z → concat (chunks k l) = l.
Proof. intros. apply chunks_fuel_concat; lia. Qed.

Lemma ceil_div_small n k : (0 < n ≤ k)%Z → ceil_div n k = 1%Z.
Proof.
  intros. unfold ceil_div. symmetry.
  apply (Z.div_unique _ _ 1 (n - 1)); lia.
Qed.

Lemma ceil_div_step n k : (0 < k)%Z → ceil_div (n + k) k = (ceil_div n k + 1)%Z.
Proof.
  intros. unfold ceil_div.
  replace (n + k + k - 1)%Z with ((n + k - 1) + 1 * k)%Z by lia.
  by rewrite Z.div_add by lia.
Qed.

Lemma ceil_div_0 k : (0 < k)%Z → ceil_div 0 k = 0%Z.
Proof. intros. unfold ceil_div. apply Z.div_small. lia. Qed.

Lemma chunks_fuel_length (k : nat) :
  (1 ≤ k)%nat → ∀ f l, (length l ≤ f)%nat →
  Z.of_nat (length (chunks_fuel f k l)) = ceil_div (len l) (Z.of_nat k).
Proof.
  intros Hk. unfold len. induction f as [|f IH]; intros l Hl.
  - destruct l; [|simpl in Hl; lia]. simpl. by rewrite ceil_div_0 by lia.
  - destruct l as [|x l]; [simpl; by rewrite ceil_div_0 by lia|].
    change (chunks_fuel (S f) k (x :: l))
      with (take k (x :: l) :: chunks_fuel f k (drop k (x :: l))).
    rewrite length_cons, Nat2Z.inj_succ, IH
      by (rewrite length_drop; simpl in *; lia).
    rewrite length_drop.
    destruct (decide (length (x :: l) ≤ k)%nat) as [Hle|Hgt].
    + replace (length (x :: l) - k)%nat with 0%nat by lia.
      rewrite ceil_div_0 by lia. rewrite ceil_div_small; [done|].
      simpl length in *. lia.
    + rewrite <- Z.add_1_r, <- ceil_div_step by lia. f_equal. lia.
Qed.

Lemma chunks_length l k :
  (1 ≤ k)%Z → Z.of_nat (length (chunks k l)) = ceil_div (len l) k.
Proof.
  intros. unfold chunks. rewrite chunks_fuel_length by lia. f_equal. lia.
Qed.

Lemma chunks_fuel_lookup (k : nat) :
  (1 ≤ k)%nat → ∀ f l j c, (length l ≤ f)%nat →
  chunks_fuel f k l !! j = Some c →
  c = take k (drop (j * k) l) ∧ (j * k < length l)%nat.
Proof.
  intros Hk. induction f as [|f IH]; intros l j c Hl Hc; [done|].
  destruct l as [|x l]; [done|].
  change (chunks_fuel (S f) k (x :: l))
    with (take k (x :: l) :: chunks_fuel f k (drop k (x :: l))) in Hc.
  destruct j as [|j].
  - simpl in Hc. injection Hc as <-. split; [done|simpl; lia].
  - simpl in Hc. apply IH in Hc as [-> Hlt].
    + rewrite drop_drop. rewrite length_drop in Hlt.
      split; [done|simpl in *; lia].
    + rewrite length_drop. simpl in *. lia.
Qed.

Lemma chunks_lookup l k j c :
  (1 ≤ k)%Z → chunks k l !! j = Some c →
  c = take (Z.to_nat k) (drop (j * Z.to_nat k) l)
  ∧ (j * Z.to_nat k < length l)%nat.
Proof. intros Hk. apply chunks_fuel_lookup; lia. Qed.

Lemma chunks_whole l : l ≠ [] → chunks (len l) l = [l].
Proof.
  intros Hl. unfold chunks, len. rewrite Nat2Z.id.
  destruct l as [|x l]; [done|].
  change (chunks_fuel (length (x :: l)) (length (x :: l)) (x :: l))
    with (take (length (x :: l)) (x :: l)
          :: chunks_fuel (length l) (length (x :: l))
               (drop (length (x :: l)) (x :: l))).
  rewrite take_ge, drop_ge by done. by destruct (length l).
Qed.

End Chunks.

(** ** The slices of a batched phase *)

Section Batches.
Context {A : Type}.
Implicit Types (l : list A) (per_request : option Z).

Lemma chunk_size_pos per_request l :
  chunk_size_ok per_request → l ≠ [] → (1 ≤ chunk_size per_request l)%Z.
Proof.
  intros Hok Hl. destruct per_request as [k|]; [done|].
  unfold chunk_size, len. destruct l; [done|]. simpl. lia.
Qed.

Lemma batches_nil per_request : batches per_request (@nil A) = [].
Proof. done. Qed.

Lemma batches_None l : batches None l = match l with [] => [] | _ => [l] end.
Proof.
  destruct l as [|x l]; [done|]. unfold batches, chunk_size.
  by apply chunks_whole.
Qed.

Lemma batches_concat per_request l :
  chunk_size_ok per_request → concat (batches per_request l) = l.
Proof.
  intros Hok. destruct l as [|x l]; [done|].
  apply chunks_concat, chunk_size_pos; done.
Qed.

Lemma batches_length k l :
  (1 ≤ k)%Z → Z.of_nat (length (batches (Some k) l)) = ceil_div (len l) k.
Proof. intros. by apply chunks_length. Qed.

Lemma batches_lookup per_request l j c :
  chunk_size_ok per_request →
  batches per_request l !! j = Some c →
  let k := Z.to_nat (chunk_size per_request l) in
  c = take k (drop (j * k) l) ∧ c ≠ [].
Proof.
  intros Hok Hc k. destruct l as [|x l]; [done|].
  assert (1 ≤ chunk_size per_request (x :: l))%Z as Hk
    by (by apply chunk_size_pos).
  apply chunks_lookup in Hc as [-> Hlt]; [|done]. split; [done|].
  fold k in Hlt |- *. assert (1 ≤ k)%nat as Hk' by (unfold k; lia).
  clearbody k. intros Hnil%(f_equal length).
  rewrite length_take, length_drop in Hnil. simpl in Hnil, Hlt. lia.
Qed.

Lemma range_batches per_request l :
  chunk_size_ok per_request → l ≠ [] →
  ∃ indices,
    py_range 0 (len l) (chunk_size per_request l) = Ok indices ∧
    (λ i, py_slice l i (i + chunk_size per_request l)) <$> indices
    = batches per_request l.
Proof. intros Hok Hl. by apply py_range_chunks, chunk_size_pos. Qed.

End Batches.

(** ** Running computations *)

Section MonadFacts.
Context `{BaseAPI}.

Lemma bind_unfold {A B} (m : M A) (f : A → M B) s :
  (m ≫= f) s =
  match m s with
  | (Ok a, s', rq) =>
      match f a s' with (r, s'', rq') => (r, s'', rq ++ rq') end
  | (Raise e, s', rq) => (Raise e, s', rq)
  end.
Proof. reflexivity. Qed.

Lemma bind_inv {A B} (m : M A) (f : A → M B) s r s' rq :
  (m ≫= f) s = (r, s', rq) →
  (∃ e, m s = (Raise e, s', rq) ∧ r = Raise e) ∨
  (∃ a s1 rq1 rq2,
     m s = (Ok a, s1, rq1) ∧ f a s1 = (r, s', rq2) ∧ rq = rq1 ++ rq2).
Proof.
  rewrite bind_unfold. destruct (m s) as [[[a|e] s1] rq1].
  - destruct (f a s1) as [[r2 s2] rq2] eqn:Hf. intros [= <- <- <-].
    right. by exists a, s1, rq1, rq2.
  - intros [= <- <- <-]. left. by exists e.
Qed.

Lemma bind_Ok_inv {A B} (m : M A) (f : A → M B) s b s' rq :
  (m ≫= f) s = (Ok b, s', rq) →
  ∃ a s1 rq1 rq2,
    m s = (Ok a, s1, rq1) ∧ f a s1 = (Ok b, s', rq2) ∧ rq = rq1 ++ rq2.
Proof. intros [(e & _ & [=])|Hok]%bind_inv. exact Hok. Qed.

(** A loop whose every turn issues one request, which depends on the item
    only as long as the accumulator satisfies [P]. *)
Lemma for_requests {I St} (P : St → Prop) (req : I → Request)
    (body : St → I → M St) :
  (∀ acc x s, P acc →
     (body acc x s).2 = [req x] ∧
     ∀ acc', (body acc x s).1.1 = Ok acc' → P acc') →
  ∀ xs acc s, P acc →
    match for_ xs body acc s with
    | (Ok acc', _, rq) => P acc' ∧ rq = req <$> xs
    | (Raise _, _, rq) => ∃ j, (j < length xs)%nat ∧ rq = req <$> take (S j) xs
    end.
Proof.
  intros Hbody. induction xs as [|x xs IH]; intros acc s Hacc; [done|].
  cbn [for_]. rewrite bind_unfold.
  destruct (Hbody acc x s Hacc) as [Hrq HP].
  destruct (body acc x s) as [[[a|e] s1] rq1]; simpl in Hrq, HP; subst rq1.
  - specialize (IH a s1 (HP a eq_refl)).
    destruct (for_ xs body a s1) as [[[a'|e'] s2] rq2].
    + destruct IH as [? ->]. done.
    + destruct IH as (j & Hj & ->). exists (S j). split; [simpl; lia|done].
  - exists 0%nat. split; [simpl; lia|done].
Qed.

End MonadFacts.

(** ** The batched loops: requests *)

Section Loops.
Context `{BaseAPI} `{Util}.

Lemma issue_run r f s :
  issue r f s = ((f s).1, (f s).2, [r]).
Proof. unfold issue. by destruct (f s). Qed.

Lemma answered_length s rs vs s' :
  answered s rs vs s' → length vs = length rs.
Proof. induction 1; simpl; congruence. Qed.

Lemma turn_requests {St} r (step : list Series → St) s :
  (turn r step s).2 = [r].
Proof.
  unfold turn. destruct (transport r s) as [[v|e] s']; [|done].
  destruct (py_iter v) as [items|e]; [|done].
  by destruct (py_map Series_data items).
Qed.

Lemma turn_state {St} r (step : list Series → St) s :
  (turn r step s).1.2 = (transport r s).2.
Proof.
  unfold turn. destruct (transport r s) as [[v|e] s']; [|done].
  destruct (py_iter v) as [items|e]; [|done].
  by destruct (py_map Series_data items).
Qed.

Lemma blind_turn_requests {St} r (acc : St) s : (blind_turn r acc s).2 = [r].
Proof. unfold blind_turn. by destruct (transport r s) as [[v|e] s']. Qed.

Lemma blind_turn_state {St} r (acc : St) s :
  (blind_turn r acc s).1.2 = (transport r s).2.
Proof. unfold blind_turn. by destruct (transport r s) as [[v|e] s']. Qed.

Lemma blind_turn_Ok {St} r (acc acc' : St) s :
  (blind_turn r acc s).1.1 = Ok acc' →
  acc' = acc ∧ ∃ v, transport r s = (Ok v, (blind_turn r acc s).1.2).
Proof.
  unfold blind_turn. destruct (transport r s) as [[v|e] s']; [|done].
  intros [= <-]. split; [done|]. by exists v.
Qed.

Lemma accepted_sent s rs s' : accepted s rs s' → sent s rs s'.
Proof. induction 1; econstructor; eauto. Qed.

Lemma answered_accepted s rs vs s' : answered s rs vs s' → accepted s rs s'.
Proof. induction 1; econstructor; eauto. Qed.

Lemma accepted_app s rs s' rs' s'' :
  accepted s rs s' → accepted s' rs' s'' → accepted s (rs ++ rs') s''.
Proof. induction 1; [done|]. intros. econstructor; eauto. Qed.

Lemma sent_app s rs s' rs' s'' :
  sent s rs s' → sent s' rs' s'' → sent s (rs ++ rs') s''.
Proof. induction 1; [done|]. intros. econstructor; eauto. Qed.

(** A loop whose every turn sends one request through the transport: the
    requests of the loop are those the service has been sent. *)
Lemma for_sent {I St} (P : St → Prop) (req : I → Request)
    (body : St → I → M St) :
  (∀ acc x s, P acc →
     (body acc x s).2 = [req x] ∧
     (body acc x s).1.2 = (transport (req x) s).2 ∧
     ∀ acc', (body acc x s).1.1 = Ok acc' → P acc') →
  ∀ xs acc s, P acc →
    sent s (for_ xs body acc s).2 (for_ xs body acc s).1.2.
Proof.
  intros Hbody. induction xs as [|x xs IH]; intros acc s Hacc; [constructor|].
  cbn [for_]. rewrite bind_unfold.
  destruct (Hbody acc x s Hacc) as (Hrq & Hst & HP).
  destruct (transport (req x) s) as [res s1'] eqn:Ht.
  destruct (body acc x s) as [[[a|e] s1] rq1]; simpl in Hrq, Hst, HP;
    subst rq1 s1.
  - specialize (IH a s1' (HP a eq_refl)).
    destruct (for_ xs body a s1') as [[r2 s2] rq2]. simpl in *.
    by econstructor.
  - simpl. econstructor; [done|constructor].
Qed.

(** A loop of blind turns that returns: its requests were accepted. *)
Lemma for_accepted {I St} (P : St → Prop) (req : I → Request)
    (body : St → I → M St) :
  (∀ acc x s, P acc →
     (body acc x s).2 = [req x] ∧
     ∀ acc', (body acc x s).1.1 = Ok acc' →
       P acc' ∧ ∃ v, transport (req x) s = (Ok v, (body acc x s).1.2)) →
  ∀ xs acc s acc' s' rq, P acc →
    for_ xs body acc s = (Ok acc', s', rq) →
    accepted s (req <$> xs) s'.
Proof.
  intros Hbody.
  induction xs as [|x xs IH]; intros acc s acc' s' rq Hacc Hrun.
  - injection Hrun as <- <- <-. constructor.
  - cbn [for_] in Hrun. apply bind_Ok_inv in Hrun
      as (a & s1 & rq1 & rq2 & Hb & Hrest & ->).
    destruct (Hbody acc x s Hacc) as (_ & HP). rewrite Hb in HP.
    destruct (HP a eq_refl) as (Ha & v & Ht). simpl in Ht.
    rewrite fmap_cons. econstructor; [exact Ht|]. by eapply IH.
Qed.

Lemma for_answered {I St} (P : St → Prop) (req : I → Request)
    (step : St → I → list Series → St) (body : St → I → M St) :
  (∀ acc x s, P acc → body acc x s = turn (req x) (step acc x) s) →
  (∀ acc x items, P acc → P (step acc x items)) →
  ∀ xs acc s acc' s' rq, P acc →
    for_ xs body acc s = (Ok acc', s', rq) →
    ∃ vs, answered s (req <$> xs) vs s' ∧
          acc' = foldl (λ a xv, step a xv.1 xv.2) acc (zip xs vs).
Proof.
  intros Hturn Hstep.
  induction xs as [|x xs IH]; intros acc s acc' s' rq Hacc Hrun.
  - injection Hrun as <- <- <-. exists []. split; [constructor|done].
  - cbn [for_] in Hrun. apply bind_Ok_inv in Hrun
      as (a & s1 & rq1 & rq2 & Hb & Hrest & ->).
    rewrite Hturn in Hb by done. unfold turn in Hb.
    destruct (transport (req x) s) as [[v|e] s1'] eqn:Ht; [|done].
    destruct (py_iter v) as [items|e] eqn:Hit; [|done].
    destruct (py_map Series_data items) as [series|e] eqn:Hload; [|done].
    injection Hb as <- <- <-.
    apply IH in Hrest as (vs & Hans & ->); [|by apply Hstep].
    exists (series :: vs). split; [|done].
    rewrite fmap_cons. by econstructor.
Qed.

Lemma for_turn_requests {I St} (P : St → Prop) (req : I → Request)
    (step : St → I → list Series → St) (body : St → I → M St) :
  (∀ acc x s, P acc → body acc x s = turn (req x) (step acc x) s) →
  (∀ acc x items, P acc → P (step acc x items)) →
  ∀ xs acc s, P acc →
    match for_ xs body acc s with
    | (Ok acc', _, rq) => P acc' ∧ rq = req <$> xs
    | (Raise _, _, rq) => ∃ j, (j < length xs)%nat ∧ rq = req <$> take (S j) xs
    end.
Proof.
  intros Hturn Hstep. apply for_requests. intros acc x s Hacc.
  rewrite Hturn by done. split; [apply turn_requests|].
  unfold turn. destruct (transport (req x) s) as [[v|e] s']; [|done].
  destruct (py_iter v) as [items|e]; [|done].
  destruct (py_map Series_data items); [|done].
  intros ? [= <-]. by apply Hstep.
Qed.

Lemma for_turn_sent {I St} (P : St → Prop) (req : I → Request)
    (step : St → I → list Series → St) (body : St → I → M St) :
  (∀ acc x s, P acc → body acc x s = turn (req x) (step acc x) s) →
  (∀ acc x items, P acc → P (step acc x items)) →
  ∀ xs acc s, P acc →
    sent s (for_ xs body acc s).2 (for_ xs body acc s).1.2.
Proof.
  intros Hturn Hstep. apply (for_sent P req). intros acc x s Hacc.
  rewrite Hturn by done.
  split; [apply turn_requests|]. split; [apply turn_state|].
  unfold turn. destruct (transport (req x) s) as [[v|e] s']; [|done].
  destruct (py_iter v) as [items|e]; [|done].
  destruct (py_map Series_data items); [|done].
  intros ? [= <-]. by apply Hstep.
Qed.

(** The four batched loops *)

Lemma import_turn json k series i s :
  add_multiple_series_import json k series i s =
  turn (import_request (py_slice json i (i + k)))
       (λ added, series ++ added) s.
Proof.
  unfold add_multiple_series_import, _post_series_import, turn.
  rewrite bind_unfold, issue_run.
  cbn [transport import_request verb path body default].
  destruct (_post _ _ s) as [[v|e] s']; [|done]. cbn [fst snd].
  rewrite bind_unfold. unfold pure.
  destruct (py_iter v) as [items|e]; [|done].
  rewrite bind_unfold. by destruct (py_map Series_data items).
Qed.

Lemma editor_turn valid k json series_list i s :
  edit_multiple_series_editor valid k (json, series_list) i s =
  turn (editor_request json (py_slice valid i (i + k)))
       (λ edited,
          (<["seriesIds" := JList (JInt <$> py_slice valid i (i + k))]> json,
           series_list ++ edited)) s.
Proof.
  unfold edit_multiple_series_editor, _put_series_editor, turn.
  rewrite bind_unfold, issue_run.
  cbn [transport editor_request verb path body params default].
  destruct (_put _ _ _ s) as [[v|e] s']; [|done]. cbn [fst snd].
  rewrite bind_unfold. unfold pure.
  destruct (py_iter v) as [items|e]; [|done].
  rewrite bind_unfold. by destruct (py_map Series_data items).
Qed.

Lemma monitor_turn valid k m u i s :
  edit_multiple_series_monitor valid k m u i s =
  blind_turn (seasonPass_request m (py_slice valid i (i + k))) () s.
Proof.
  unfold edit_multiple_series_monitor, _edit_series_monitoring,
    _post_seasonPass, blind_turn.
  rewrite bind_unfold, issue_run.
  cbn [transport seasonPass_request verb path body default].
  by destruct (_post _ _ s) as [[v|e] s'].
Qed.

Lemma delete_turn valid k json i s :
  delete_multiple_series_editor valid k json i s =
  blind_turn
    (mkRequest DELETE "series/editor" ∅
       (Some (JObj (<["seriesIds" :=
                        JList (JInt <$> py_slice valid i (i + k))]> json))))
    (<["seriesIds" := JList (JInt <$> py_slice valid i (i + k))]> json) s.
Proof.
  unfold delete_multiple_series_editor, _delete_series_editor, blind_turn.
  rewrite bind_unfold, issue_run.
  cbn [transport verb path body params].
  by destruct (_delete _ _ _ s) as [[v|e] s'].
Qed.

Lemma monitor_turn_requests valid k m u i s :
  (edit_multiple_series_monitor valid k m u i s).2 =
  [seasonPass_request m (py_slice valid i (i + k))].
Proof.
  unfold edit_multiple_series_monitor, _edit_series_monitoring,
    _post_seasonPass.
  rewrite bind_unfold, issue_run.
  by destruct (_post _ _ s) as [[v|e] s'].
Qed.

Lemma delete_turn_requests valid k json i s :
  (delete_multiple_series_editor valid k json i s).2 =
  [mkRequest DELETE "series/editor" ∅
     (Some (JObj (<["seriesIds" := JList (JInt <$> py_slice valid i (i + k))]>
                    json)))].
Proof.
  unfold delete_multiple_series_editor, _delete_series_editor.
  rewrite bind_unfold, issue_run.
  by destruct (_delete _ _ _ s) as [[v|e] s'].
Qed.

Lemma delete_turn_result valid k json i s acc' :
  (delete_multiple_series_editor valid k json i s).1.1 = Ok acc' →
  acc' = <["seriesIds" := JList (JInt <$> py_slice valid i (i + k))]> json.
Proof.
  unfold delete_multiple_series_editor, _delete_series_editor.
  rewrite bind_unfold, issue_run.
  destruct (_delete _ _ _ s) as [[v|e] s']; [|done]. by intros [= <-].
Qed.

Lemma same_options_refl json0 : same_options json0 json0.
Proof. done. Qed.

Lemma same_options_insert json0 json c :
  same_options json0 json → same_options json0 (<["seriesIds" := c]> json).
Proof. intros Hs c'. by rewrite insert_insert_eq. Qed.

Lemma import_loop_requests json k idx acc s :
  match for_ idx (add_multiple_series_import json k) acc s with
  | (Ok _, _, rq) =>
      rq = (λ i, import_request (py_slice json i (i + k))) <$> idx
  | (Raise _, _, rq) =>
      ∃ j, (j < length idx)%nat ∧
        rq = (λ i, import_request (py_slice json i (i + k))) <$> take (S j) idx
  end.
Proof.
  pose proof (for_turn_requests (λ _, True)
    (λ i, import_request (py_slice json i (i + k)))
    (λ series i added, series ++ added)
    (add_multiple_series_import json k)) as Hl.
  specialize (Hl (λ acc x s _, import_turn json k acc x s) (λ _ _ _ _, I)
                 idx acc s I).
  destruct (for_ _ _ _ _) as [[[?|?] ?] ?]; [by destruct Hl|done].
Qed.

Lemma editor_loop_requests valid k json0 idx json series_list s :
  same_options json0 json →
  match for_ idx (edit_multiple_series_editor valid k) (json, series_list) s
  with
  | (Ok _, _, rq) =>
      rq = (λ i, editor_request json0 (py_slice valid i (i + k))) <$> idx
  | (Raise _, _, rq) =>
      ∃ j, (j < length idx)%nat ∧
        rq = (λ i, editor_request json0 (py_slice valid i (i + k)))
             <$> take (S j) idx
  end.
Proof.
  intros Hsame.
  pose proof (for_turn_requests (λ acc, same_options json0 acc.1)
    (λ i, editor_request json0 (py_slice valid i (i + k)))
    (λ acc i edited,
       (<["seriesIds" := JList (JInt <$> py_slice valid i (i + k))]> acc.1,
        acc.2 ++ edited))
    (edit_multiple_series_editor valid k)) as Hl.
  lapply Hl.
  - clear Hl; intros Hl. lapply Hl.
    + clear Hl; intros Hl. specialize (Hl idx (json, series_list) s Hsame).
      destruct (for_ _ _ _ _) as [[[?|?] ?] ?]; [by destruct Hl|done].
    + intros acc x items Hacc. by apply same_options_insert.
  - intros [j sl] x s0 Hacc. rewrite editor_turn. simpl in Hacc.
    unfold editor_request. cbn [fst snd]. by rewrite !Hacc.
Qed.

Lemma monitor_loop_requests valid k m idx u s :
  match for_ idx (edit_multiple_series_monitor valid k m) u s with
  | (Ok _, _, rq) =>
      rq = (λ i, seasonPass_request m (py_slice valid i (i + k))) <$> idx
  | (Raise _, _, rq) =>
      ∃ j, (j < length idx)%nat ∧
        rq = (λ i, seasonPass_request m (py_slice valid i (i + k)))
             <$> take (S j) idx
  end.
Proof.
  pose proof (for_requests (λ _, True)
    (λ i, seasonPass_request m (py_slice valid i (i + k)))
    (edit_multiple_series_monitor valid k m)) as Hl.
  lapply Hl.
  - clear Hl; intros Hl. specialize (Hl idx u s I).
    destruct (for_ _ _ _ _) as [[[?|?] ?] ?]; [by destruct Hl|done].
  - intros acc x s0 _. split; [apply monitor_turn_requests|done].
Qed.

Lemma delete_loop_requests valid k json0 idx json s :
  same_options json0 json →
  match for_ idx (delete_multiple_series_editor valid k) json s with
  | (Ok _, _, rq) =>
      rq = (λ i, mkRequest DELETE "series/editor" ∅
                   (Some (JObj (<["seriesIds" :=
                                    JList (JInt <$> py_slice valid i (i + k))]>
                                  json0)))) <$> idx
  | (Raise _, _, rq) =>
      ∃ j, (j < length idx)%nat ∧
        rq = (λ i, mkRequest DELETE "series/editor" ∅
                     (Some (JObj (<["seriesIds" :=
                                      JList (JInt <$> py_slice valid i (i + k))]>
                                    json0)))) <$> take (S j) idx
  end.
Proof.
  intros Hsame.
  pose proof (for_requests (same_options json0)
    (λ i, mkRequest DELETE "series/editor" ∅
            (Some (JObj (<["seriesIds" :=
                             JList (JInt <$> py_slice valid i (i + k))]>
                           json0))))
    (delete_multiple_series_editor valid k)) as Hl.
  lapply Hl.
  - clear Hl; intros Hl. specialize (Hl idx json s Hsame).
    destruct (for_ _ _ _ _) as [[[?|?] ?] ?]; [by destruct Hl|done].
  - intros acc x s0 Hacc. split.
    + rewrite delete_turn_requests. by rewrite Hacc.
    + intros acc' ->%delete_turn_result. by apply same_options_insert.
Qed.

(** The batched loops and the service *)

Lemma import_loop_sent json k idx acc s :
  sent s (for_ idx (add_multiple_series_import json k) acc s).2
         (for_ idx (add_multiple_series_import json k) acc s).1.2.
Proof.
  apply (for_turn_sent (λ _, True)
    (λ i, import_request (py_slice json i (i + k)))
    (λ series i added, series ++ added)); [|done..].
  intros acc' x s' _. apply import_turn.
Qed.

Lemma editor_loop_sent valid k json series_list idx s :
  sent s
    (for_ idx (edit_multiple_series_editor valid k) (json, series_list) s).2
    (for_ idx (edit_multiple_series_editor valid k) (json, series_list) s).1.2.
Proof.
  apply (for_turn_sent (λ acc, same_options json acc.1)
    (λ i, editor_request json (py_slice valid i (i + k)))
    (λ acc i edited,
       (<["seriesIds" := JList (JInt <$> py_slice valid i (i + k))]> acc.1,
        acc.2 ++ edited))); [| |done].
  - intros [j sl] x s0 Hacc. rewrite editor_turn. simpl in Hacc.
    unfold editor_request. cbn [fst snd]. by rewrite !Hacc.
  - intros acc x items Hacc. by apply same_options_insert.
Qed.

Lemma monitor_loop_sent valid k m idx u s :
  sent s (for_ idx (edit_multiple_series_monitor valid k m) u s).2
         (for_ idx (edit_multiple_series_monitor valid k m) u s).1.2.
Proof.
  apply (for_sent (λ _, True)
    (λ i, seasonPass_request m (py_slice valid i (i + k)))); [|done].
  intros acc x s0 _. rewrite monitor_turn.
  split; [apply blind_turn_requests|]. split; [apply blind_turn_state|done].
Qed.

Lemma monitor_loop_accepted valid k m idx u s u' s' rq :
  for_ idx (edit_multiple_series_monitor valid k m) u s = (Ok u', s', rq) →
  accepted s
    ((λ i, seasonPass_request m (py_slice valid i (i + k))) <$> idx) s'.
Proof.
  apply (for_accepted (λ _, True)
    (λ i, seasonPass_request m (py_slice valid i (i + k)))); [|done].
  intros acc x s0 _. rewrite monitor_turn.
  split; [apply blind_turn_requests|].
  intros acc' Hacc'. split; [done|]. by apply blind_turn_Ok in Hacc' as [_ ?].
Qed.

Lemma delete_loop_sent valid k idx json s :
  sent s (for_ idx (delete_multiple_series_editor valid k) json s).2
         (for_ idx (delete_multiple_series_editor valid k) json s).1.2.
Proof.
  apply (for_sent (same_options json)
    (λ i, mkRequest DELETE "series/editor" ∅
            (Some (JObj (<["seriesIds" :=
                             JList (JInt <$> py_slice valid i (i + k))]>
                           json))))); [|done].
  intros acc x s0 Hacc. rewrite delete_turn, Hacc.
  split; [apply blind_turn_requests|]. split; [apply blind_turn_state|].
  intros acc' [-> _]%blind_turn_Ok. rewrite <- Hacc.
  by apply same_options_insert.
Qed.

Lemma delete_loop_accepted valid k idx json s json' s' rq :
  for_ idx (delete_multiple_series_editor valid k) json s = (Ok json', s', rq) →
  accepted s
    ((λ i, mkRequest DELETE "series/editor" ∅
             (Some (JObj (<["seriesIds" :=
                              JList (JInt <$> py_slice valid i (i + k))]>
                            json)))) <$> idx) s'.
Proof.
  apply (for_accepted (same_options json)
    (λ i, mkRequest DELETE "series/editor" ∅
            (Some (JObj (<["seriesIds" :=
                             JList (JInt <$> py_slice valid i (i + k))]>
                           json))))); [|done].
  intros acc x s0 Hacc. rewrite delete_turn, Hacc.
  split; [apply blind_turn_requests|].
  intros acc' Hacc'. apply blind_turn_Ok in Hacc' as [-> Ht].
  split; [|done]. rewrite <- Hacc. by apply same_options_insert.
Qed.

End Loops.

(** ** The batched loops: results *)

Section LoopResults.
Context `{BaseAPI} `{Util}.

Lemma foldl_extend {I B} (xs : list I) (vs : list (list B)) (acc : list B) :
  length vs = length xs →
  foldl (λ a (xv : I * list B), a ++ xv.2) acc (zip xs vs)
  = acc ++ concat vs.
Proof.
  revert vs acc. induction xs as [|x xs IH]; intros [|v vs] acc Hlen;
    simplify_eq/=.
  - by rewrite app_nil_r.
  - rewrite IH by done. by rewrite app_assoc.
Qed.

Lemma foldl_extend_snd {I B C} (g : C → I → C) (xs : list I)
    (vs : list (list B)) (c : C) (acc : list B) :
  length vs = length xs →
  (foldl (λ (a : C * list B) (xv : I * list B),
            (g a.1 xv.1, a.2 ++ xv.2)) (c, acc) (zip xs vs)).2
  = acc ++ concat vs.
Proof.
  revert vs c acc. induction xs as [|x xs IH]; intros [|v vs] c acc Hlen;
    simplify_eq/=.
  - by rewrite app_nil_r.
  - rewrite IH by done. by rewrite app_assoc.
Qed.

Lemma import_loop_result json k idx s series s' rq :
  for_ idx (add_multiple_series_import json k) [] s = (Ok series, s', rq) →
  ∃ vs,
    answered s ((λ i, import_request (py_slice json i (i + k))) <$> idx) vs s'
    ∧ series = concat vs.
Proof.
  intros Hrun.
  destruct (for_answered (λ _, True)
    (λ i, import_request (py_slice json i (i + k)))
    (λ series i added, series ++ added)
    (add_multiple_series_import json k)
    (λ acc x s _, import_turn json k acc x s) (λ _ _ _ _, I)
    idx [] s series s' rq I Hrun) as (vs & Hans & ->).
  exists vs. split; [done|].
  apply answered_length in Hans. rewrite length_fmap in Hans.
  by rewrite (foldl_extend idx vs []).
Qed.

Lemma editor_loop_result valid k json0 idx s acc' s' rq :
  for_ idx (edit_multiple_series_editor valid k) (json0, []) s
    = (Ok acc', s', rq) →
  ∃ vs,
    answered s
      ((λ i, editor_request json0 (py_slice valid i (i + k))) <$> idx) vs s'
    ∧ acc'.2 = concat vs.
Proof.
  intros Hrun.
  destruct (for_answered (λ acc, same_options json0 acc.1)
    (λ i, editor_request json0 (py_slice valid i (i + k)))
    (λ acc i edited,
       (<["seriesIds" := JList (JInt <$> py_slice valid i (i + k))]> acc.1,
        acc.2 ++ edited))
    (edit_multiple_series_editor valid k)) with
    (xs := idx) (acc := (json0, @nil Series)) (s := s) (acc' := acc')
    (s' := s') (rq := rq) as (vs & Hans & ->); try done.
  - intros [j sl] x s0 Hacc. rewrite editor_turn. simpl in Hacc.
    unfold editor_request. cbn [fst snd]. by rewrite !Hacc.
  - intros acc x items Hacc. by apply same_options_insert.
  - exists vs. split; [done|].
    apply answered_length in Hans. rewrite length_fmap in Hans.
    by rewrite (foldl_extend_snd
      (λ j i, <["seriesIds" := JList (JInt <$> py_slice valid i (i + k))]> j)
      idx vs json0 []).
Qed.

End LoopResults.

(** ** The course of [edit_multiple_series] *)

Section EditShape.
Context `{BaseAPI} `{Util}.

Lemma len_nil_iff {A} (l : list A) : (0 < len l)%Z ↔ l ≠ [].
Proof. unfold len. destruct l; simpl; split; (done || lia). Qed.

Lemma pure_run {A} (r : Result A) s : pure r s = (r, s, []).
Proof. done. Qed.

Lemma mret_run {A} (a : A) s : (mret a : M A) s = (Ok a, s, []).
Proof. done. Qed.

Lemma edit_multiple_series_shape tvdb_ids root_folder move_files
    quality_profile language_profile monitor monitored season_folder
    series_type tags apply_tags per_request s json s1 rq1 valid invalid s2 rq2 :
  _validate_edit_options root_folder None move_files quality_profile
    language_profile monitor monitored season_folder series_type tags
    apply_tags s = (Ok json, s1, rq1) →
  _validate_tvdb_ids tvdb_ids s1 = (Ok (valid, invalid), s2, rq2) →
  let k := chunk_size per_request valid in
  ∃ r s3 rq',
    edit_multiple_series tvdb_ids root_folder move_files quality_profile
      language_profile monitor monitored season_folder series_type tags
      apply_tags per_request s = (r, s3, rq1 ++ rq2 ++ rq') ∧
    (valid = [] → r = Ok ([], invalid) ∧ s3 = s2 ∧ rq' = []) ∧
    (valid ≠ [] →
       match py_range 0 (len valid) k with
       | Raise e => r = Raise e ∧ rq' = []
       | Ok idx =>
           let mon :=
             match json !! "monitor" with
             | Some m =>
                 (λ i, seasonPass_request m (py_slice valid i (i + k))) <$> idx
             | None => []
             end in
           let ed :=
             (λ i, editor_request (delete "monitor" json)
                     (py_slice valid i (i + k))) <$> idx in
           match r with
           | Ok (series_list, inv) =>
               inv = invalid ∧ rq' = mon ++ ed ∧
               ∃ s_mid vs, accepted s2 mon s_mid ∧ answered s_mid ed vs s3 ∧
                           series_list = concat vs
           | Raise _ => rq' `prefix_of` mon ++ ed
           end
       end).
Proof.
  intros Hval Hids k. unfold edit_multiple_series.
  rewrite bind_unfold, Hval, bind_unfold, Hids.
  case_bool_decide as Hlen.
  2:{ rewrite bind_unfold, mret_run, mret_run.
      exists (Ok ([], invalid)), s2, []. split; [by rewrite ?app_nil_r|].
      split; [done|]. intros Hne. by apply len_nil_iff in Hne. }
  apply len_nil_iff in Hlen.
  fold (chunk_size per_request valid). fold k.
  unfold mbind, M_bind, mret, M_ret, pure.
  destruct (py_range 0 (len valid) k) as [idx|e] eqn:Hrange.
  2:{ destruct (json !! "monitor");
        (eexists _, _, _; split; [reflexivity|]; split; [done|]; done). }
  destruct (json !! "monitor") as [m|] eqn:Hmon.
  - pose proof (monitor_loop_requests valid k m idx () s2) as Hm.
    destruct (for_ idx (edit_multiple_series_monitor valid k m) () s2)
      as [[[u|e] sm] rqm] eqn:Hrunm.
    + pose proof (editor_loop_requests valid k (delete "monitor" json) idx
        (delete "monitor" json) [] sm (same_options_refl _)) as He.
      destruct (for_ idx (edit_multiple_series_editor valid k)
                  (delete "monitor" json, []) sm)
        as [[[[j sl]|e] se] rqe] eqn:Hrune.
      * eexists _, _, _; split; [reflexivity|]. split; [done|]. intros _.
        subst rqm rqe. split; [done|]. split; [by rewrite ?app_nil_r|].
        apply editor_loop_result in Hrune as (vs & Hans & Hsl).
        apply monitor_loop_accepted in Hrunm. by exists sm, vs.
      * eexists _, _, _; split; [reflexivity|]. split; [done|]. intros _.
        subst rqm. destruct He as (j & _ & ->).
        rewrite ?app_nil_r, fmap_take. apply prefix_app, prefix_take.
    + eexists _, _, _; split; [reflexivity|]. split; [done|]. intros _.
      destruct Hm as (j & _ & ->). rewrite fmap_take.
      apply prefix_app_r, prefix_take.
  - rewrite (delete_id json "monitor") by done.
    pose proof (editor_loop_requests valid k json idx json [] s2
      (same_options_refl _)) as He.
    destruct (for_ idx (edit_multiple_series_editor valid k) (json, []) s2)
      as [[[[j sl]|e] se] rqe] eqn:Hrune.
    + eexists _, _, _; split; [reflexivity|]. split; [done|]. intros _.
      subst rqe. split; [done|]. split; [by rewrite ?app_nil_r|].
      apply editor_loop_result in Hrune as (vs & Hans & Hsl).
      exists s2, vs. split; [constructor|done].
    + eexists _, _, _; split; [reflexivity|]. split; [done|]. intros _.
      destruct He as (j & _ & ->).
      rewrite ?app_nil_r, fmap_take. apply prefix_take.
Qed.

(** The requests that follow validation and reconciliation are those the
    service has been sent, whatever the outcome of the call. *)
Lemma edit_multiple_series_sent tvdb_ids root_folder move_files
    quality_profile language_profile monitor monitored season_folder
    series_type tags apply_tags per_request s json s1 rq1 valid invalid s2 rq2
    r s3 rq' :
  _validate_edit_options root_folder None move_files quality_profile
    language_profile monitor monitored season_folder series_type tags
    apply_tags s = (Ok json, s1, rq1) →
  _validate_tvdb_ids tvdb_ids s1 = (Ok (valid, invalid), s2, rq2) →
  edit_multiple_series tvdb_ids root_folder move_files quality_profile
    language_profile monitor monitored season_folder series_type tags
    apply_tags per_request s = (r, s3, rq1 ++ rq2 ++ rq') →
  sent s2 rq' s3.
Proof.
  intros Hval Hids.
  assert (∃ r0 s0 rq0,
    edit_multiple_series tvdb_ids root_folder move_files quality_profile
      language_profile monitor monitored season_folder series_type tags
      apply_tags per_request s = (r0, s0, rq1 ++ rq2 ++ rq0) ∧
    sent s2 rq0 s0) as (r0 & s0 & rq0 & -> & Hsent).
  2:{ intros [= _ <- Hrq]. do 2 apply app_inv_head in Hrq. by subst rq0. }
  unfold edit_multiple_series.
  rewrite bind_unfold, Hval, bind_unfold, Hids.
  case_bool_decide as Hlen.
  { unfold mbind, M_bind, mret, M_ret, pure.
    destruct (py_range 0 (len valid) _) as [idx|e].
    2:{ destruct (json !! "monitor");
          (eexists _, _, _; split; [reflexivity|constructor]). }
    destruct (json !! "monitor") as [m|].
    - pose proof (monitor_loop_sent valid (default (len valid) per_request)
        m idx () s2) as Hm.
      destruct (for_ idx (edit_multiple_series_monitor valid _ m) () s2)
        as [[[u|e] sm] rqm]; simpl in Hm.
      + pose proof (editor_loop_sent valid (default (len valid) per_request)
          (delete "monitor" json) [] idx sm) as He.
        destruct (for_ idx (edit_multiple_series_editor valid _)
                    (delete "monitor" json, []) sm)
          as [[[[j sl]|e] se] rqe]; simpl in He;
          (eexists _, _, _; split; [reflexivity|]);
          rewrite ?app_nil_r; by eapply sent_app.
      + eexists _, _, _; split; [reflexivity|]. done.
    - pose proof (editor_loop_sent valid (default (len valid) per_request)
        json [] idx s2) as He.
      destruct (for_ idx (edit_multiple_series_editor valid _) (json, []) s2)
        as [[[[j sl]|e] se] rqe]; simpl in He;
        (eexists _, _, _; split; [reflexivity|]); by rewrite ?app_nil_r. }
  rewrite bind_unfold, mret_run, mret_run.
  eexists _, _, _; split; [reflexivity|]. constructor.
Qed.

End EditShape.

(** ** The course of [add_multiple_series] and [delete_multiple_series] *)

Section AddDeleteShape.
Context `{BaseAPI} `{Util}.

Lemma add_multiple_series_shape tvdb_ids root_folder quality_profile
    language_profile monitor season_folder search unmet_search series_type
    tags per_request s options s1 rq1 json existing not_found s2 rq2 :
  _validate_add_options root_folder quality_profile language_profile monitor
    season_folder search unmet_search series_type tags s
    = (Ok options, s1, rq1) →
  for_ tvdb_ids (add_multiple_series_item options) ([], [], []) s1
    = (Ok (json, existing, not_found), s2, rq2) →
  let k := chunk_size per_request json in
  ∃ r s3 rq',
    add_multiple_series tvdb_ids root_folder quality_profile language_profile
      monitor season_folder search unmet_search series_type tags per_request s
      = (r, s3, rq1 ++ rq2 ++ rq') ∧
    (json = [] → r = Ok ([], existing, not_found) ∧ s3 = s2 ∧ rq' = []) ∧
    (json ≠ [] →
       match py_range 0 (len json) k with
       | Raise e => r = Raise e ∧ rq' = []
       | Ok idx =>
           let imp :=
             (λ i, import_request (py_slice json i (i + k))) <$> idx in
           match r with
           | Ok (series, ex, nf) =>
               ex = existing ∧ nf = not_found ∧ rq' = imp ∧
               ∃ vs, answered s2 imp vs s3 ∧ series = concat vs
           | Raise _ => rq' `prefix_of` imp
           end
       end).
Proof.
  intros Hval Hloop k. unfold add_multiple_series.
  rewrite bind_unfold, Hval, bind_unfold, Hloop.
  case_bool_decide as Hlen.
  2:{ rewrite bind_unfold, mret_run, mret_run.
      exists (Ok ([], existing, not_found)), s2, [].
      split; [by rewrite !app_nil_r|].
      split; [done|]. intros Hne. by apply len_nil_iff in Hne. }
  apply len_nil_iff in Hlen.
  fold (chunk_size per_request json). fold k.
  unfold mbind, M_bind, mret, M_ret, pure.
  destruct (py_range 0 (len json) k) as [idx|e] eqn:Hrange.
  2:{ eexists _, _, _; split; [reflexivity|]; split; [done|]; done. }
  pose proof (import_loop_requests json k idx [] s2) as Hi.
  destruct (for_ idx (add_multiple_series_import json k) [] s2)
    as [[[series|e] s3] rqi] eqn:Hrun.
  - eexists _, _, _; split; [reflexivity|]. split; [done|]. intros _.
    subst rqi. split; [done|]. split; [done|].
    split; [by rewrite ?app_nil_r|].
    apply import_loop_result in Hrun as (vs & Hans & Hsl). by exists vs.
  - eexists _, _, _; split; [reflexivity|]. split; [done|]. intros _.
    destruct Hi as (j & _ & ->). rewrite ?app_nil_r, fmap_take.
    apply prefix_take.
Qed.

Lemma delete_multiple_series_shape tvdb_ids addImportExclusion deleteFiles
    per_request s valid invalid s2 rq2 :
  _validate_tvdb_ids tvdb_ids s = (Ok (valid, invalid), s2, rq2) →
  let k := chunk_size per_request valid in
  ∃ r s3 rq',
    delete_multiple_series tvdb_ids addImportExclusion deleteFiles
      per_request s = (r, s3, rq2 ++ rq') ∧
    (valid = [] → r = Ok invalid ∧ s3 = s2 ∧ rq' = []) ∧
    (valid ≠ [] →
       match py_range 0 (len valid) k with
       | Raise e => r = Raise e ∧ rq' = []
       | Ok idx =>
           let del :=
             (λ i, delete_request addImportExclusion deleteFiles
                     (py_slice valid i (i + k))) <$> idx in
           match r with
           | Ok inv => inv = invalid ∧ rq' = del ∧ accepted s2 del s3
           | Raise _ => rq' `prefix_of` del
           end
       end).
Proof.
  intros Hids k. unfold delete_multiple_series.
  rewrite bind_unfold, Hids.
  case_bool_decide as Hlen.
  2:{ rewrite bind_unfold, mret_run, mret_run.
      exists (Ok invalid), s2, []. split; [by rewrite !app_nil_r|].
      split; [done|]. intros Hne. by apply len_nil_iff in Hne. }
  apply len_nil_iff in Hlen.
  fold (chunk_size per_request valid). fold k.
  unfold mbind, M_bind, mret, M_ret, pure.
  destruct (py_range 0 (len valid) k) as [idx|e] eqn:Hrange.
  2:{ eexists _, _, _; split; [reflexivity|]; split; [done|]; done. }
  pose proof (delete_loop_requests valid k
    (<["addImportExclusion" := JBool addImportExclusion]>
       {["deleteFiles" := JBool deleteFiles]}) idx _ s2
    (same_options_refl _)) as Hd.
  destruct (for_ idx (delete_multiple_series_editor valid k) _ s2)
    as [[[j|e] s3] rqd] eqn:Hrun.
  - eexists _, _, _; split; [reflexivity|]. split; [done|]. intros _.
    subst rqd. split; [done|]. split; [by rewrite ?app_nil_r|].
    by apply delete_loop_accepted in Hrun.
  - eexists _, _, _; split; [reflexivity|]. split; [done|]. intros _.
    destruct Hd as (j & _ & ->). rewrite ?app_nil_r, fmap_take.
    apply prefix_take.
Qed.

Lemma add_multiple_series_sent tvdb_ids root_folder quality_profile
    language_profile monitor season_folder search unmet_search series_type
    tags per_request s options s1 rq1 json existing not_found s2 rq2 r s3 rq' :
  _validate_add_options root_folder quality_profile language_profile monitor
    season_folder search unmet_search series_type tags s
    = (Ok options, s1, rq1) →
  for_ tvdb_ids (add_multiple_series_item options) ([], [], []) s1
    = (Ok (json, existing, not_found), s2, rq2) →
  add_multiple_series tvdb_ids root_folder quality_profile language_profile
    monitor season_folder search unmet_search series_type tags per_request s
    = (r, s3, rq1 ++ rq2 ++ rq') →
  sent s2 rq' s3.
Proof.
  intros Hval Hloop.
  assert (∃ r0 s0 rq0,
    add_multiple_series tvdb_ids root_folder quality_profile language_profile
      monitor season_folder search unmet_search series_type tags per_request s
      = (r0, s0, rq1 ++ rq2 ++ rq0) ∧
    sent s2 rq0 s0) as (r0 & s0 & rq0 & -> & Hsent).
  2:{ intros [= _ <- Hrq]. do 2 apply app_inv_head in Hrq. by subst rq0. }
  unfold add_multiple_series.
  rewrite bind_unfold, Hval, bind_unfold, Hloop.
  case_bool_decide as Hlen.
  { unfold mbind, M_bind, mret, M_ret, pure.
    destruct (py_range 0 (len json) _) as [idx|e].
    2:{ eexists _, _, _; split; [reflexivity|constructor]. }
    pose proof (import_loop_sent json (default (len json) per_request) idx
      [] s2) as Hi.
    destruct (for_ idx (add_multiple_series_import json _) [] s2)
      as [[[series|e] se] rqi]; simpl in Hi;
      (eexists _, _, _; split; [reflexivity|]); by rewrite ?app_nil_r. }
  rewrite bind_unfold, mret_run, mret_run.
  eexists _, _, _; split; [reflexivity|]. constructor.
Qed.

Lemma delete_multiple_series_sent tvdb_ids addImportExclusion deleteFiles
    per_request s valid invalid s2 rq2 r s3 rq' :
  _validate_tvdb_ids tvdb_ids s = (Ok (valid, invalid), s2, rq2) →
  delete_multiple_series tvdb_ids addImportExclusion deleteFiles
    per_request s = (r, s3, rq2 ++ rq') →
  sent s2 rq' s3.
Proof.
  intros Hids.
  assert (∃ r0 s0 rq0,
    delete_multiple_series tvdb_ids addImportExclusion deleteFiles
      per_request s = (r0, s0, rq2 ++ rq0) ∧
    sent s2 rq0 s0) as (r0 & s0 & rq0 & -> & Hsent).
  2:{ intros [= _ <- Hrq]. apply app_inv_head in Hrq. by subst rq0. }
  unfold delete_multiple_series.
  rewrite bind_unfold, Hids.
  case_bool_decide as Hlen.
  { unfold mbind, M_bind, mret, M_ret, pure.
    destruct (py_range 0 (len valid) _) as [idx|e].
    2:{ eexists _, _, _; split; [reflexivity|constructor]. }
    pose proof (delete_loop_sent valid (default (len valid) per_request) idx
      (<["addImportExclusion" := JBool addImportExclusion]>
         {["deleteFiles" := JBool deleteFiles]}) s2) as Hd.
    destruct (for_ idx (delete_multiple_series_editor valid _) _ s2)
      as [[[j|e] se] rqd]; simpl in Hd;
      (eexists _, _, _; split; [reflexivity|]); by rewrite ?app_nil_r. }
  rewrite bind_unfold, mret_run, mret_run.
  eexists _, _, _; split; [reflexivity|]. constructor.
Qed.

End AddDeleteShape.

(** ** The ID reconciler *)

Section Reconciler.
Context `{BaseAPI} `{Util}.

Lemma validate_tvdb_id_foldl (catalog : gmap Z Series) tvdb_ids valid invalid :
  foldl (_validate_tvdb_id catalog) (valid, invalid) tvdb_ids =
  (valid ++ omap (λ t, Series_id <$> catalog !! t) (as_tvdb_id <$> tvdb_ids),
   invalid ++ filter (λ t, catalog !! t = None) (as_tvdb_id <$> tvdb_ids)).
Proof.
  revert valid invalid.
  induction tvdb_ids as [|x xs IH]; intros valid invalid.
  - by rewrite !app_nil_r.
  - cbn [foldl]. unfold _validate_tvdb_id at 2.
    rewrite fmap_cons, filter_cons. cbn [omap list_omap].
    destruct (catalog !! as_tvdb_id x) as [m|] eqn:Hm.
    + rewrite IH. rewrite decide_False by done.
      simpl. by rewrite <- app_assoc.
    + rewrite IH. rewrite decide_True by done.
      simpl. by rewrite <- app_assoc.
Qed.

Lemma partition_length (catalog : gmap Z Series) (keys : list Z) :
  (length (omap (λ t, Series_id <$> catalog !! t) keys)
   + length (filter (λ t, catalog !! t = None) keys) = length keys)%nat.
Proof.
  induction keys as [|x l IH]; [done|].
  rewrite filter_cons. cbn [omap list_omap].
  destruct (catalog !! x) eqn:Hf.
  - rewrite decide_False by done. simpl. lia.
  - rewrite decide_True by done. simpl. lia.
Qed.

Lemma all_series_requests s : (all_series s).2 = [series_request].
Proof.
  unfold all_series, _get_series. rewrite bind_unfold, issue_run.
  destruct (_get "series" ∅ s) as [[v|e] s']; [|done]. cbn [fst snd].
  rewrite bind_unfold, pure_run. by destruct (py_iter v).
Qed.

Lemma validate_tvdb_ids_run tvdb_ids s all s' rq :
  all_series s = (Ok all, s', rq) →
  _validate_tvdb_ids tvdb_ids s =
  (Ok (omap (λ t, Series_id <$> tvdb_sonarr_ids all !! t)
            (as_tvdb_id <$> tvdb_ids),
       filter (λ t, tvdb_sonarr_ids all !! t = None) (as_tvdb_id <$> tvdb_ids)),
   s', rq).
Proof.
  intros Hall. unfold _validate_tvdb_ids.
  rewrite bind_unfold, Hall, mret_run, validate_tvdb_id_foldl.
  by rewrite app_nil_r.
Qed.

Lemma validate_tvdb_ids_inv tvdb_ids s valid invalid s' rq :
  _validate_tvdb_ids tvdb_ids s = (Ok (valid, invalid), s', rq) →
  rq = [series_request] ∧
  ∃ all, all_series s = (Ok all, s', rq) ∧
    valid = omap (λ t, Series_id <$> tvdb_sonarr_ids all !! t)
                 (as_tvdb_id <$> tvdb_ids) ∧
    invalid = filter (λ t, tvdb_sonarr_ids all !! t = None)
                     (as_tvdb_id <$> tvdb_ids).
Proof.
  intros Hrun. pose proof (all_series_requests s) as Hrq.
  unfold _validate_tvdb_ids in Hrun.
  apply bind_Ok_inv in Hrun as (all & s1 & rq1 & rq2 & Hall & Hret & ->).
  rewrite mret_run, validate_tvdb_id_foldl in Hret.
  injection Hret as <- <- <- <-. rewrite Hall in Hrq. simpl in Hrq. subst rq1.
  split; [done|]. exists all. by rewrite app_nil_r.
Qed.

(** C1: [_validate_tvdb_ids] places every element of its input in exactly
    one of its two lists.  Once the catalog is fetched the call returns: the
    resolved list holds, in input order, the Sonarr id of every input whose
    TVDb id is in the catalog, and the unresolved list holds, in input
    order, the TVDb id of every other input.  Nothing is deduplicated, so
    the two lengths add up to the length of the input. *)
Theorem validate_tvdb_ids_partition (tvdb_ids : list SeriesRef)
    (all : list Series) (s s' : Server) (rq : list Request) :
  all_series s = (Ok all, s', rq) →
  let catalog := tvdb_sonarr_ids all in
  let keys := as_tvdb_id <$> tvdb_ids in
  ∃ valid_ids invalid_ids,
    _validate_tvdb_ids tvdb_ids s = (Ok (valid_ids, invalid_ids), s', rq) ∧
    (length valid_ids + length invalid_ids = length tvdb_ids)%nat ∧
    valid_ids = omap (λ t, Series_id <$> catalog !! t) keys ∧
    invalid_ids = filter (λ t, catalog !! t = None) keys.
Proof.
  intros Hall catalog keys.
  rewrite (validate_tvdb_ids_run _ _ _ _ _ Hall). eexists _, _.
  split; [reflexivity|]. split; [|done].
  fold catalog keys. rewrite partition_length. apply length_fmap.
Qed.

End Reconciler.

(** ** Language profiles *)

Section LanguageProfiles.
Context `{BaseAPI} `{Util}.

Lemma language_profile_requests s :
  (language_profile s).2 = [languageProfile_request].
Proof.
  unfold language_profile, _get_languageProfile.
  rewrite bind_unfold, issue_run.
  destruct (_get "languageProfile" ∅ s) as [[v|e] s']; [|done]. cbn [fst snd].
  rewrite bind_unfold, pure_run. by destruct (py_iter v).
Qed.

Lemma validate_language_profile_run value s profiles s' rq :
  language_profile s = (Ok profiles, s', rq) →
  _validate_language_profile value s =
  (_validate_language_profile_loop value profiles [], s', rq).
Proof.
  intros Hp. unfold _validate_language_profile.
  rewrite bind_unfold, Hp, pure_run. by rewrite app_nil_r.
Qed.

Lemma validate_language_profile_requests value s :
  (_validate_language_profile value s).2 = [languageProfile_request].
Proof.
  pose proof (language_profile_requests s) as Hrq.
  unfold _validate_language_profile. rewrite bind_unfold.
  destruct (language_profile s) as [[[p|e] s'] rq]; simpl in Hrq; subst rq;
    [|done].
  by rewrite pure_run.
Qed.

Lemma validate_language_profile_loop_none value profiles options :
  (∀ q, q ∈ profiles → language_profile_matches q value = false) →
  _validate_language_profile_loop value profiles options =
  Raise (Invalid ("Invalid Language Profile: '"
                  +:+ language_profile_str value +:+ "' Options: "
                  +:+ py_str_list LanguageProfile_repr (options ++ profiles))).
Proof.
  revert options. induction profiles as [|q qs IH]; intros options Hno.
  - by rewrite app_nil_r.
  - cbn [_validate_language_profile_loop].
    rewrite Hno by apply list_elem_of_here.
    rewrite IH by (intros; apply Hno; by apply list_elem_of_further).
    by rewrite <- app_assoc.
Qed.

Lemma validate_language_profile_loop_some value profiles options p :
  p ∈ profiles →
  language_profile_matches p value = true →
  (∀ q, q ∈ profiles → language_profile_matches q value = true →
        LanguageProfile_id q = LanguageProfile_id p) →
  _validate_language_profile_loop value profiles options =
  Ok (LanguageProfile_id p).
Proof.
  revert options. induction profiles as [|q qs IH]; intros options Hp Hm Hu.
  - by apply elem_of_nil in Hp.
  - cbn [_validate_language_profile_loop].
    destruct (language_profile_matches q value) eqn:Hq.
    + f_equal. apply Hu; [apply list_elem_of_here|done].
    + apply IH; [|done|].
      * apply elem_of_cons in Hp as [->|Hp]; [congruence|done].
      * intros q' Hq'. apply Hu. by apply list_elem_of_further.
Qed.

(** C9 (amended): for a fetched profile whose name is not borne by a
    fetched profile with another id, and which is equal to the name of no
    fetched profile with another id, [_validate_language_profile] returns
    its id for its name, for its id and for the profile itself.  A candidate
    that matches no fetched profile raises [Invalid], with the candidate
    and the fetched profiles in its message. *)
Theorem validate_language_profile_round_trip (profiles : list LanguageProfile)
    (s s' : Server) (rq : list Request) :
  language_profile s = (Ok profiles, s', rq) →
  (∀ p, p ∈ profiles →
     (∀ q, q ∈ profiles →
           LanguageProfile_name q = LanguageProfile_name p →
           LanguageProfile_id q = LanguageProfile_id p) →
     (∀ q, q ∈ profiles →
           LanguageProfile_eq p (LanguageProfile_name q) = true →
           LanguageProfile_id q = LanguageProfile_id p) →
     _validate_language_profile (RStr (LanguageProfile_name p)) s
       = (Ok (LanguageProfile_id p), s', rq) ∧
     _validate_language_profile (RInt (LanguageProfile_id p)) s
       = (Ok (LanguageProfile_id p), s', rq) ∧
     _validate_language_profile (RObj p) s
       = (Ok (LanguageProfile_id p), s', rq)) ∧
  (∀ value,
     (∀ q, q ∈ profiles → language_profile_matches q value = false) →
     _validate_language_profile value s
       = (Raise (Invalid ("Invalid Language Profile: '"
                          +:+ language_profile_str value +:+ "' Options: "
                          +:+ py_str_list LanguageProfile_repr profiles)),
          s', rq)).
Proof.
  intros Hfetch. split.
  - intros p Hp Hname Heq.
    rewrite !(validate_language_profile_run _ _ _ _ _ Hfetch).
    repeat split; f_equal; f_equal;
      apply validate_language_profile_loop_some; try done.
    + by apply bool_decide_eq_true.
    + intros q Hq Hm. apply Hname; [done|]. by apply bool_decide_eq_true in Hm.
    + by apply bool_decide_eq_true.
    + intros q _ Hq. by apply bool_decide_eq_true in Hq.
    + cbn [language_profile_matches]. apply orb_true_iff. left.
      by apply bool_decide_eq_true.
    + intros q Hq Hm. cbn [language_profile_matches] in Hm.
      apply orb_true_iff in Hm as [Hm|Hm]; [by apply bool_decide_eq_true in Hm|].
      by apply Heq.
  - intros value Hno.
    rewrite (validate_language_profile_run _ _ _ _ _ Hfetch).
    by rewrite validate_language_profile_loop_none.
Qed.

End LanguageProfiles.

(** ** Validation and the network *)

Section Validation.
Context `{BaseAPI} `{Util}.

Lemma inherited_run {A} (f : Server → Result A * Server) s :
  inherited f s = ((f s).1, (f s).2, []).
Proof. unfold inherited. by destruct (f s). Qed.

Lemma quiet_mret {A} (a : A) : quiet (mret a).
Proof. done. Qed.

Lemma quiet_raise {A} e : quiet (raise (A:=A) e).
Proof. done. Qed.

Lemma quiet_pure {A} (r : Result A) : quiet (pure r).
Proof. done. Qed.

Lemma quiet_inherited {A} (f : Server → Result A * Server) :
  quiet (inherited f).
Proof. intros s. by rewrite inherited_run. Qed.

Lemma quiet_bind {A B} (m : M A) (f : A → M B) :
  quiet m → (∀ a, quiet (f a)) → quiet (m ≫= f).
Proof.
  intros Hm Hf s. rewrite bind_unfold. specialize (Hm s).
  destruct (m s) as [[[a|e] s1] rq1]; simpl in Hm; subst rq1; [|done].
  specialize (Hf a s1). by destruct (f a s1) as [[??]?].
Qed.

Lemma quiet_fetches {A} (m : M A) : quiet m → fetches_profiles_only m.
Proof. intros Hm s. by left. Qed.

Lemma fetches_bind_l {A B} (m : M A) (f : A → M B) :
  quiet m → (∀ a, fetches_profiles_only (f a)) →
  fetches_profiles_only (m ≫= f).
Proof.
  intros Hm Hf s. rewrite bind_unfold. specialize (Hm s).
  destruct (m s) as [[[a|e] s1] rq1]; simpl in Hm; subst rq1; [|by left].
  specialize (Hf a s1). by destruct (f a s1) as [[??]?].
Qed.

Lemma fetches_bind_r {A B} (m : M A) (f : A → M B) :
  fetches_profiles_only m → (∀ a, quiet (f a)) →
  fetches_profiles_only (m ≫= f).
Proof.
  intros Hm Hf s. rewrite bind_unfold. specialize (Hm s).
  destruct (m s) as [[[a|e] s1] rq1]; simpl in Hm; [|done].
  specialize (Hf a s1). destruct (f a s1) as [[??] rq2]. simpl in *.
  subst rq2. by rewrite app_nil_r.
Qed.

Lemma fetches_validate_language_profile value :
  fetches_profiles_only (_validate_language_profile value).
Proof. intros s. right. apply validate_language_profile_requests. Qed.

Lemma validate_add_options_fetches root_folder quality_profile
    language_profile monitor season_folder search unmet_search series_type
    tags :
  fetches_profiles_only
    (_validate_add_options root_folder quality_profile language_profile
       monitor season_folder search unmet_search series_type tags).
Proof.
  unfold _validate_add_options.
  apply fetches_bind_l; [apply quiet_inherited|intros rf].
  apply fetches_bind_l; [apply quiet_inherited|intros qp].
  apply fetches_bind_r; [apply fetches_validate_language_profile|intros lp].
  apply quiet_bind; [apply quiet_pure|intros mo].
  apply quiet_bind; [apply quiet_pure|intros st].
  destruct tags as [[|t ts]|]; try apply quiet_mret.
  apply quiet_bind; [apply quiet_inherited|intros tg]. apply quiet_mret.
Qed.

Lemma validate_edit_options_fetches root_folder path move_files
    quality_profile language_profile monitor monitored season_folder
    series_type tags apply_tags :
  fetches_profiles_only
    (_validate_edit_options root_folder path move_files quality_profile
       language_profile monitor monitored season_folder series_type tags
       apply_tags).
Proof.
  unfold _validate_edit_options.
  destruct (forallb _ _); [apply quiet_fetches, quiet_raise|].
  apply fetches_bind_l.
  { destruct root_folder; [|apply quiet_mret].
    apply quiet_bind; [apply quiet_inherited|intros; apply quiet_mret]. }
  intros o1. apply fetches_bind_l.
  { destruct path; apply quiet_mret. }
  intros o2. apply fetches_bind_l.
  { destruct quality_profile; [|apply quiet_mret].
    apply quiet_bind; [apply quiet_inherited|intros; apply quiet_mret]. }
  intros o3. apply fetches_bind_r.
  { destruct language_profile; [|apply quiet_fetches, quiet_mret].
    apply fetches_bind_r; [apply fetches_validate_language_profile|].
    intros; apply quiet_mret. }
  intros o4. apply quiet_bind.
  { destruct monitor; [|apply quiet_mret].
    apply quiet_bind; [apply quiet_pure|intros; apply quiet_mret]. }
  intros o5. apply quiet_bind.
  { destruct monitored; apply quiet_mret. }
  intros o6. apply quiet_bind.
  { destruct season_folder; apply quiet_mret. }
  intros o7. apply quiet_bind.
  { destruct series_type; [|apply quiet_mret].
    apply quiet_bind; [apply quiet_pure|intros; apply quiet_mret]. }
  intros o8. destruct tags; [|apply quiet_mret].
  apply quiet_bind; [apply quiet_inherited|intros x].
  case_bool_decide; [apply quiet_mret|apply quiet_raise].
Qed.

(** C6 (amended): when the validation of the options fails, a bulk call
    raises the same exception and does nothing after the validation: it
    leaves the service as the validation left it, and of the endpoints of
    [sonarr.py] it has called none but, at most, the fetch of the language
    profiles that the validation itself makes: no lookup, fetch of the
    catalog, import, seasonPass, editor or delete request.  What the
    validation has done to the service by then, through the inherited
    validators, stays done. *)
Theorem validation_failure_aborts_bulk_call :
  (∀ tvdb_ids root_folder quality_profile language monitor
     season_folder search unmet_search series_type tags per_request
     (s s' : Server) e rq,
     _validate_add_options root_folder quality_profile language
       monitor season_folder search unmet_search series_type tags s
       = (Raise e, s', rq) →
     add_multiple_series tvdb_ids root_folder quality_profile
       language monitor season_folder search unmet_search
       series_type tags per_request s = (Raise e, s', rq) ∧
     (rq = [] ∨ rq = [languageProfile_request])) ∧
  (∀ tvdb_ids root_folder move_files quality_profile language
     monitor monitored season_folder series_type tags apply_tags per_request
     (s s' : Server) e rq,
     _validate_edit_options root_folder None move_files quality_profile
       language monitor monitored season_folder series_type tags
       apply_tags s = (Raise e, s', rq) →
     edit_multiple_series tvdb_ids root_folder move_files quality_profile
       language monitor monitored season_folder series_type tags
       apply_tags per_request s = (Raise e, s', rq) ∧
     (rq = [] ∨ rq = [languageProfile_request])).
Proof.
  split.
  - intros * Hval. split.
    + unfold add_multiple_series. by rewrite bind_unfold, Hval.
    + pose proof (validate_add_options_fetches root_folder quality_profile
        language monitor season_folder search unmet_search
        series_type tags s) as Hrq.
      by rewrite Hval in Hrq.
  - intros * Hval. split.
    + unfold edit_multiple_series. by rewrite bind_unfold, Hval.
    + pose proof (validate_edit_options_fetches root_folder None move_files
        quality_profile language monitor monitored season_folder
        series_type tags apply_tags s) as Hrq.
      by rewrite Hval in Hrq.
Qed.

End Validation.

(** ** The edit-options builder *)

Section EditOptions.
Context `{BaseAPI} `{Util}.

Ltac run_options :=
  unfold _validate_edit_options, _validate_monitor, _validate_series_type;
  cbn [is_None forallb andb];
  unfold mbind, M_bind, mret, M_ret, raise, pure.

(** C4 (amended): [_validate_edit_options] raises [ValueError] when the nine
    fields are [None].  With exactly one field given, and accepted by its
    validator, it returns the key of that field and [moveFiles], and
    nothing else but for [tags], which, with a legal [apply_tags], come
    with [applyTags]. *)
Theorem validate_edit_options_fields (move_files : bool) (apply_tags : string)
    (s : Server) :
  _validate_edit_options None None move_files None None None None None None
    None apply_tags s
  = (Raise (ValueError
      ("Expected either root_folder, path, quality_profile, "
       +:+ "language_profile, monitor, monitored, season_folder, "
       +:+ "series_type, or tags args")), s, []) ∧
  (∀ v x s',
     _validate_root_folder v s = (Ok x, s') →
     _validate_edit_options (Some v) None move_files None None None None None
       None None apply_tags s
     = (Ok (<["rootFolderPath" := x]> {["moveFiles" := JBool move_files]}),
        s', [])) ∧
  (∀ v,
     _validate_edit_options None (Some v) move_files None None None None None
       None None apply_tags s
     = (Ok (<["path" := JStr v]> {["moveFiles" := JBool move_files]}),
        s, [])) ∧
  (∀ v x s',
     _validate_quality_profile v s = (Ok x, s') →
     _validate_edit_options None None move_files (Some v) None None None None
       None None apply_tags s
     = (Ok (<[(if v3 then "qualityProfileId" else "profileId") := x]>
              {["moveFiles" := JBool move_files]}), s', [])) ∧
  (∀ v x s' rq,
     _validate_language_profile v s = (Ok x, s', rq) →
     _validate_edit_options None None move_files None (Some v) None None None
       None None apply_tags s
     = (Ok (<["languageProfileId" := JInt x]>
              {["moveFiles" := JBool move_files]}), s', rq)) ∧
  (∀ v x,
     validate_options "Monitor" v monitor_options = Ok x →
     _validate_edit_options None None move_files None None (Some v) None None
       None None apply_tags s
     = (Ok (<["monitor" := JStr x]> {["moveFiles" := JBool move_files]}),
        s, [])) ∧
  (∀ v,
     _validate_edit_options None None move_files None None None (Some v) None
       None None apply_tags s
     = (Ok (<["monitored" := JBool v]> {["moveFiles" := JBool move_files]}),
        s, [])) ∧
  (∀ v,
     _validate_edit_options None None move_files None None None None (Some v)
       None None apply_tags s
     = (Ok (<["seasonFolder" := JBool v]>
              {["moveFiles" := JBool move_files]}), s, [])) ∧
  (∀ v x,
     validate_options "Series Type" v series_type_options = Ok x →
     _validate_edit_options None None move_files None None None None None
       (Some v) None apply_tags s
     = (Ok (<["seriesType" := JStr x]> {["moveFiles" := JBool move_files]}),
        s, [])) ∧
  (∀ v x s',
     _validate_tags v (Some (bool_decide (apply_tags ≠ "remove"))) s
       = (Ok x, s') →
     apply_tags ∈ apply_tags_options →
     _validate_edit_options None None move_files None None None None None
       None (Some v) apply_tags s
     = (Ok (<["applyTags" := JStr apply_tags]>
              (<["tags" := x]> {["moveFiles" := JBool move_files]})),
        s', [])).
Proof.
  split; [done|].
  split. { intros v x s' Hv. run_options. by rewrite inherited_run, Hv. }
  split. { done. }
  split. { intros v x s' Hv. run_options. by rewrite inherited_run, Hv. }
  split. { intros v x s' rq Hv. run_options. rewrite Hv.
           by rewrite !app_nil_r. }
  split. { intros v x Hv. run_options. by rewrite Hv. }
  split. { done. }
  split. { done. }
  split. { intros v x Hv. run_options. by rewrite Hv. }
  intros v x s' Hv Hin. run_options. rewrite inherited_run, Hv.
  cbn [fst snd]. by rewrite bool_decide_eq_true_2 by done.
Qed.

End EditOptions.

(** ** Editing in bulk *)

Section Edit.
Context `{BaseAPI} `{Util}.

Lemma slices_fmap {A} (f : list A → Request) (l : list A) k (idx : list Z) :
  (λ i, f (py_slice l i (i + k))) <$> idx
  = f <$> ((λ i, py_slice l i (i + k)) <$> idx).
Proof. by rewrite <- list_fmap_compose. Qed.

Lemma validate_edit_options_requests_get root_folder move_files
    quality_profile language_profile monitor monitored season_folder
    series_type tags apply_tags s json s1 rq1 :
  _validate_edit_options root_folder None move_files quality_profile
    language_profile monitor monitored season_folder series_type tags
    apply_tags s = (Ok json, s1, rq1) →
  rq1 = [] ∨ rq1 = [languageProfile_request].
Proof.
  intros Hval.
  pose proof (validate_edit_options_fetches root_folder None move_files
    quality_profile language_profile monitor monitored season_folder
    series_type tags apply_tags s) as Hrq.
  by rewrite Hval in Hrq.
Qed.

Lemma nothing_resolved (catalog : gmap Z Series) (keys : list Z) :
  omap (λ t, Series_id <$> catalog !! t) keys = [] →
  filter (λ t, catalog !! t = None) keys = keys.
Proof.
  induction keys as [|x l IH]; [done|].
  rewrite filter_cons. cbn [omap list_omap].
  destruct (catalog !! x) eqn:Hx; [done|].
  intros Hl. rewrite decide_True by done. by rewrite IH.
Qed.

(** C8 (amended): when no identifier resolves, [edit_multiple_series] does
    not fail: it returns at once, with no edited series and every input id
    reported as unresolved.  After the requests of the validation and the
    fetch of the catalog, all of them GET, no seasonPass or series/editor
    request is issued. *)
Theorem edit_multiple_series_nothing_resolved tvdb_ids root_folder move_files
    quality_profile language_profile monitor monitored season_folder
    series_type tags apply_tags per_request (s s1 s2 : Server) json rq1
    invalid rq2 :
  _validate_edit_options root_folder None move_files quality_profile
    language_profile monitor monitored season_folder series_type tags
    apply_tags s = (Ok json, s1, rq1) →
  _validate_tvdb_ids tvdb_ids s1 = (Ok ([], invalid), s2, rq2) →
  edit_multiple_series tvdb_ids root_folder move_files quality_profile
    language_profile monitor monitored season_folder series_type tags
    apply_tags per_request s = (Ok ([], invalid), s2, rq1 ++ rq2) ∧
  invalid = as_tvdb_id <$> tvdb_ids ∧
  (rq1 = [] ∨ rq1 = [languageProfile_request]) ∧
  rq2 = [series_request] ∧
  Forall (λ r, is_mutation r = false) (rq1 ++ rq2).
Proof.
  intros Hval Hids.
  destruct (edit_multiple_series_shape tvdb_ids _ _ _ _ _ _ _ _ _ _
    per_request _ _ _ _ _ _ _ _ Hval Hids) as (r & s3 & rq' & Hrun & Hnil & _).
  destruct Hnil as (-> & -> & ->); [done|]. rewrite !app_nil_r in Hrun.
  apply validate_tvdb_ids_inv in Hids as (-> & all & _ & Hvalid & ->).
  apply validate_edit_options_requests_get in Hval as Hrq1.
  split; [done|]. split; [by apply nothing_resolved|].
  split; [done|]. split; [done|].
  destruct Hrq1 as [-> | ->]; by repeat constructor.
Qed.

Lemma ordered_phases (pre rq' mon ed : list Request) i j a b :
  Forall (λ r, verb r = GET) pre →
  Forall (λ r, path r = "seasonPass") mon →
  Forall (λ r, path r = "series/editor" ∧ verb r = PUT) ed →
  rq' `prefix_of` mon ++ ed →
  (pre ++ rq') !! i = Some a → (pre ++ rq') !! j = Some b →
  path a = "seasonPass" → verb a = POST →
  path b = "series/editor" → verb b = PUT →
  (i < j)%nat.
Proof.
  intros Hpre Hmon Hed Hpf Ha Hb Hpa Hva Hpb Hvb.
  assert (∀ n r, (pre ++ rq') !! n = Some r → verb r ≠ GET →
            (length pre ≤ n)%nat ∧
            (mon ++ ed) !! (n - length pre)%nat = Some r) as Hin.
  { intros n r Hn Hr. apply lookup_app_Some in Hn as [Hn|[Hle Hn]].
    - apply list_elem_of_lookup_2 in Hn.
      rewrite Forall_forall in Hpre. by apply Hpre in Hn.
    - split; [done|]. by eapply prefix_lookup_Some. }
  apply Hin in Ha as [Hia Ha]; [|congruence].
  apply Hin in Hb as [Hjb Hb]; [|congruence].
  apply lookup_app_Some in Ha as [Ha|[_ Ha]].
  2:{ apply list_elem_of_lookup_2 in Ha. rewrite Forall_forall in Hed.
      apply Hed in Ha as [Ha _]. congruence. }
  apply lookup_app_Some in Hb as [Hb|[Hb _]].
  { apply list_elem_of_lookup_2 in Hb. rewrite Forall_forall in Hmon.
    apply Hmon in Hb. congruence. }
  apply lookup_lt_Some in Ha. lia.
Qed.

(** C3: in [edit_multiple_series] with a monitor option and at least one
    resolved id, every seasonPass request is issued before any
    series/editor request, and the requests that follow validation and
    reconciliation are those the service has been sent, in this order.
    With a chunk size of at least one, or none, they are the seasonPass
    requests, one per chunk, then the series/editor requests over the same
    chunks of the same ids: a prefix of that sequence if the call raises,
    all of it if it returns, and then the service has accepted every
    seasonPass request before it has answered the series/editor requests
    with the series the call returns. *)
Theorem edit_multiple_series_monitor_first tvdb_ids root_folder move_files
    quality_profile language_profile monitor monitored season_folder
    series_type tags apply_tags per_request (s s1 s2 : Server) json rq1
    valid invalid rq2 m :
  _validate_edit_options root_folder None move_files quality_profile
    language_profile monitor monitored season_folder series_type tags
    apply_tags s = (Ok json, s1, rq1) →
  _validate_tvdb_ids tvdb_ids s1 = (Ok (valid, invalid), s2, rq2) →
  json !! "monitor" = Some m →
  valid ≠ [] →
  ∃ r s3 rq,
    edit_multiple_series tvdb_ids root_folder move_files quality_profile
      language_profile monitor monitored season_folder series_type tags
      apply_tags per_request s = (r, s3, rq1 ++ rq2 ++ rq) ∧
    (∀ i j a b,
       (rq1 ++ rq2 ++ rq) !! i = Some a → (rq1 ++ rq2 ++ rq) !! j = Some b →
       path a = "seasonPass" → verb a = POST →
       path b = "series/editor" → verb b = PUT →
       (i < j)%nat) ∧
    sent s2 rq s3 ∧
    (chunk_size_ok per_request →
     let chunks := batches per_request valid in
     let monitoring := seasonPass_request m <$> chunks in
     let editing := editor_request (delete "monitor" json) <$> chunks in
     rq `prefix_of` monitoring ++ editing ∧
     (∀ series_list invalid_ids,
        r = Ok (series_list, invalid_ids) →
        rq = monitoring ++ editing ∧
        invalid_ids = invalid ∧
        ∃ s_mid responses,
          accepted s2 monitoring s_mid ∧
          answered s_mid editing responses s3 ∧
          series_list = concat responses)).
Proof.
  intros Hval Hids Hm Hne.
  destruct (edit_multiple_series_shape tvdb_ids _ _ _ _ _ _ _ _ _ _
    per_request _ _ _ _ _ _ _ _ Hval Hids) as (r & s3 & rq & Hrun & _ & Hsh).
  specialize (Hsh Hne). rewrite Hm in Hsh.
  exists r, s3, rq. split; [done|].
  assert (sent s2 rq s3) as Hsent
    by (by eapply edit_multiple_series_sent).
  match goal with
  | |- ?A ∧ _ ∧ ?B =>
      enough (A ∧ B) as [HA HB]
        by (split; [exact HA|split; [exact Hsent|exact HB]])
  end.
  assert (Forall (λ q, verb q = GET) (rq1 ++ rq2)) as Hget.
  { apply validate_tvdb_ids_inv in Hids as (-> & _).
    apply validate_edit_options_requests_get in Hval as [-> | ->];
      by repeat constructor. }
  destruct (py_range 0 (len valid) (chunk_size per_request valid))
    as [idx|e] eqn:Hrange.
  - cbv zeta in Hsh.
    assert (rq `prefix_of`
              ((λ i, seasonPass_request m
                       (py_slice valid i (i + chunk_size per_request valid)))
                 <$> idx) ++
              ((λ i, editor_request (delete "monitor" json)
                       (py_slice valid i (i + chunk_size per_request valid)))
                 <$> idx)) as Hpf.
    { destruct r as [[sl inv]|e]; [|done]. by destruct Hsh as (_ & -> & _). }
    split.
    + intros i j a b. rewrite !(app_assoc rq1 rq2 rq).
      eapply ordered_phases; [exact Hget| | |exact Hpf].
      * apply Forall_fmap, Forall_true. done.
      * apply Forall_fmap, Forall_true. done.
    + intros Hok chunks monitoring editing.
      destruct (range_batches per_request valid Hok Hne)
        as (idx' & Hrange' & Hidx).
      rewrite Hrange in Hrange'. injection Hrange' as <-.
      rewrite !slices_fmap, Hidx in Hsh, Hpf.
      split; [exact Hpf|].
      intros sl inv ->. destruct Hsh as (-> & -> & s_mid & vs & ? & ? & ->).
      split; [done|]. split; [done|]. by exists s_mid, vs.
  - destruct Hsh as [-> ->]. split.
    + intros i j a b. rewrite !(app_assoc rq1 rq2 []).
      eapply (ordered_phases _ _ [] []); [exact Hget|done|done|done].
    + intros Hok.
      destruct (range_batches per_request valid Hok Hne)
        as (idx' & Hrange' & _).
      by rewrite Hrange in Hrange'.
Qed.

(** C10: every series/editor request of [edit_multiple_series] carries the
    validated option map without its ["monitor"] entry and with the
    ["seriesIds"] of its chunk.  So no payload has a ["monitor"] key, and
    all payloads agree outside ["seriesIds"]. *)
Theorem edit_multiple_series_editor_payloads tvdb_ids root_folder move_files
    quality_profile language_profile monitor monitored season_folder
    series_type tags apply_tags per_request (s s1 s2 : Server) json rq1
    valid invalid rq2 q :
  _validate_edit_options root_folder None move_files quality_profile
    language_profile monitor monitored season_folder series_type tags
    apply_tags s = (Ok json, s1, rq1) →
  _validate_tvdb_ids tvdb_ids s1 = (Ok (valid, invalid), s2, rq2) →
  q ∈ (edit_multiple_series tvdb_ids root_folder move_files quality_profile
         language_profile monitor monitored season_folder series_type tags
         apply_tags per_request s).2 →
  path q = "series/editor" →
  ∃ payload ids,
    q = mkRequest PUT "series/editor" ∅ (Some (JObj payload)) ∧
    payload = <["seriesIds" := JList (JInt <$> ids)]> (delete "monitor" json) ∧
    payload !! "monitor" = None ∧
    delete "seriesIds" payload = delete "seriesIds" (delete "monitor" json).
Proof.
  intros Hval Hids Hq Hpath.
  destruct (edit_multiple_series_shape tvdb_ids _ _ _ _ _ _ _ _ _ _
    per_request _ _ _ _ _ _ _ _ Hval Hids) as (r & s3 & rq & Hrun & Hnil & Hsh).
  rewrite Hrun in Hq. cbn [snd] in Hq.
  apply validate_tvdb_ids_inv in Hids as (-> & _).
  apply validate_edit_options_requests_get in Hval as Hrq1.
  apply elem_of_app in Hq as [Hq|Hq].
  { destruct Hrq1 as [-> | ->]; [by apply elem_of_nil in Hq|].
    apply list_elem_of_singleton in Hq. by subst q. }
  apply elem_of_app in Hq as [Hq|Hq].
  { apply list_elem_of_singleton in Hq. by subst q. }
  destruct (decide (valid = [])) as [Hv|Hv].
  { destruct (Hnil Hv) as (_ & _ & ->). by apply elem_of_nil in Hq. }
  specialize (Hsh Hv).
  destruct (py_range 0 (len valid) (chunk_size per_request valid))
    as [idx|e]; [|destruct Hsh as [_ ->]; by apply elem_of_nil in Hq].
  cbv zeta in Hsh.
  assert (q ∈ match json !! "monitor" with
              | Some m =>
                  (λ i, seasonPass_request m
                          (py_slice valid i
                             (i + chunk_size per_request valid))) <$> idx
              | None => []
              end ++
              ((λ i, editor_request (delete "monitor" json)
                       (py_slice valid i (i + chunk_size per_request valid)))
                 <$> idx)) as Hin.
  { destruct r as [[sl inv]|e].
    - by destruct Hsh as (_ & <- & _).
    - by eapply elem_of_prefix. }
  apply elem_of_app in Hin as [Hin|Hin].
  { destruct (json !! "monitor"); [|by apply elem_of_nil in Hin].
    apply list_elem_of_fmap in Hin as (i & -> & _). done. }
  apply list_elem_of_fmap in Hin as (i & -> & _).
  eexists _, _. split; [reflexivity|]. split; [reflexivity|].
  split.
  - rewrite lookup_insert_ne by done. apply lookup_delete_eq.
  - apply delete_insert_eq.
Qed.

End Edit.

(** ** Batching *)

Section Batched.
Context `{BaseAPI} `{Util}.


End Batched.

(** ** The first loop of [add_multiple_series] *)

Section AddItems.
Context `{BaseAPI} `{Util}.

Lemma get_series_run n s :
  get_series None (Some n) s =
  match transport (lookup_request n) s with
  | (Ok v, s') =>
      match py_iter v with
      | Ok (d :: _) => (Series_data d, s', [lookup_request n])
      | Ok [] => (Raise (NotFound "Item Not Found"), s', [lookup_request n])
      | Raise e => (Raise e, s', [lookup_request n])
      end
  | (Raise e, s') => (Raise e, s', [lookup_request n])
  end.
Proof.
  unfold get_series, Series_init, _get_series_lookup. cbn [forallb is_None andb].
  rewrite bind_unfold, issue_run.
  cbn [transport lookup_request verb path params].
  destruct (_get _ _ s) as [[v|e] s']; [|done]. cbn [fst snd].
  rewrite bind_unfold, pure_run.
  by destruct (py_iter v) as [[|d l]|e].
Qed.

Lemma get_series_requests n s :
  (get_series None (Some n) s).2 = [lookup_request n].
Proof.
  rewrite get_series_run.
  destruct (transport _ s) as [[v|e] s']; [|done].
  by destruct (py_iter v) as [[|d l]|e].
Qed.

(** One turn of the first loop of [add_multiple_series], case by case. *)
Lemma add_multiple_series_item_run options json existing nf x s :
  add_multiple_series_item options (json, existing, nf) x s =
  match
    (match x with
     | SeriesObj show => mret show
     | SeriesInt n => get_series None (Some n)
     end : M Series) s
  with
  | (Ok show, s', rq) =>
      match _get_add_data show options with
      | Ok d => (Ok (json ++ [d], existing, nf), s', rq)
      | Raise e =>
          if is_Exists e then (Ok (json, existing ++ [show], nf), s', rq)
          else if is_NotFound e then (Ok (json, existing, nf ++ [x]), s', rq)
          else (Raise e, s', rq)
      end
  | (Raise e, s', rq) =>
      if is_NotFound e then (Ok (json, existing, nf ++ [x]), s', rq)
      else (Raise e, s', rq)
  end.
Proof.
  unfold add_multiple_series_item, try_except.
  rewrite bind_unfold.
  destruct (_ s) as [[[show|e] s'] rq];
    [|destruct (is_NotFound e); by rewrite ?mret_run, ?app_nil_r].
  rewrite bind_unfold, pure_run.
  destruct (_get_add_data show options) as [d|e]; rewrite ?mret_run.
  - by rewrite !app_nil_r.
  - destruct e; cbn; by rewrite ?app_nil_r.
Qed.

Lemma add_multiple_series_item_sorted options json existing nf x s acc' s' rq :
  add_multiple_series_item options (json, existing, nf) x s
    = (Ok acc', s', rq) →
  ∃ b, sorted_into options x b ∧
       acc' = (json ++ queued [b], existing ++ already_exists [b],
               nf ++ not_found [b]).
Proof.
  rewrite add_multiple_series_item_run.
  destruct (_ s) as [[[show|e] s1] rq1] eqn:Hshow.
  - assert (shown x show) as Hshown.
    { destruct x as [sh|n]; [by injection Hshow as <-|]. by exists s, s1, rq1. }
    destruct (_get_add_data show options) as [d|e] eqn:Hd.
    + intros [= <- <- <-]. exists (Queued d). split; [by exists show|].
      by rewrite !app_nil_r.
    + destruct (is_Exists e) eqn:He.
      * intros [= <- <- <-]. exists (AlreadyExists show).
        split; [|by rewrite !app_nil_r].
        split; [done|]. destruct e; try done. by eexists.
      * destruct (is_NotFound e) eqn:Hnf; [|done]. intros [= <- <- <-].
        exists (NotFoundId x). split; [|by rewrite !app_nil_r].
        split; [done|]. right. destruct e; try done. by exists show, msg.
  - destruct (is_NotFound e) eqn:Hnf; [|done]. intros [= <- <- <-].
    exists (NotFoundId x). split; [|by rewrite !app_nil_r].
    split; [done|]. left. destruct x as [sh|n]; [done|].
    destruct e; try done. by exists n, s, s1, rq1, msg.
Qed.

Lemma queued_cons b bs : queued (b :: bs) = queued [b] ++ queued bs.
Proof. by destruct b. Qed.

Lemma already_exists_cons b bs :
  already_exists (b :: bs) = already_exists [b] ++ already_exists bs.
Proof. by destruct b. Qed.

Lemma not_found_cons b bs :
  not_found (b :: bs) = not_found [b] ++ not_found bs.
Proof. by destruct b. Qed.

Lemma add_multiple_series_loop_sorted options xs json existing nf s json'
    existing' nf' s' rq :
  for_ xs (add_multiple_series_item options) (json, existing, nf) s
    = (Ok (json', existing', nf'), s', rq) →
  ∃ bs, Forall2 (sorted_into options) xs bs ∧
        json' = json ++ queued bs ∧
        existing' = existing ++ already_exists bs ∧
        nf' = nf ++ not_found bs.
Proof.
  revert json existing nf s rq.
  induction xs as [|x xs IH]; intros json existing nf s rq Hrun.
  - injection Hrun as <- <- <- <- <-. exists [].
    split; [constructor|]. by rewrite !app_nil_r.
  - cbn [for_] in Hrun.
    apply bind_Ok_inv in Hrun as (acc & s1 & rq1 & rq2 & Hx & Hrest & ->).
    apply add_multiple_series_item_sorted in Hx as (b & Hb & ->).
    apply IH in Hrest as (bs & Hbs & -> & -> & ->).
    exists (b :: bs). split; [by constructor|].
    rewrite (queued_cons b bs), (already_exists_cons b bs),
      (not_found_cons b bs).
    by rewrite !app_assoc.
Qed.

Lemma buckets_length (bs : list Bucket) :
  (length (queued bs) + length (already_exists bs) + length (not_found bs)
   = length bs)%nat.
Proof.
  induction bs as [|b bs IH]; [done|].
  rewrite queued_cons, already_exists_cons, not_found_cons, !length_app.
  destruct b; simpl; lia.
Qed.

End AddItems.

(** ** The buckets of [add_multiple_series] *)

Section AddBuckets.
Context `{BaseAPI} `{Util}.

Lemma no_Exists_mret {A} (a : A) : no_Exists (mret a).
Proof. done. Qed.

Lemma no_Exists_pure {A} (r : Result A) :
  (∀ msg, r ≠ Raise (Exists msg)) → no_Exists (pure r).
Proof. intros Hr s msg. apply Hr. Qed.

Lemma no_Exists_inherited {A} (f : Server → Result A * Server) :
  raises_no_Exists f → no_Exists (inherited f).
Proof. intros Hf s msg. rewrite inherited_run. apply Hf. Qed.

Lemma no_Exists_issue r f : raises_no_Exists f → no_Exists (issue r f).
Proof. intros Hf s msg. rewrite issue_run. apply Hf. Qed.

Lemma no_Exists_bind {A B} (m : M A) (f : A → M B) :
  no_Exists m → (∀ a, no_Exists (f a)) → no_Exists (m ≫= f).
Proof.
  intros Hm Hf s msg. rewrite bind_unfold. specialize (Hm s msg).
  destruct (m s) as [[[a|e] s1] rq1];
    [|simpl in *; intros [= ->]; by apply Hm].
  specialize (Hf a s1 msg). destruct (f a s1) as [[??]?]. exact Hf.
Qed.

Lemma no_Exists_for {I St} (body : St → I → M St) xs acc :
  (∀ acc x, no_Exists (body acc x)) → no_Exists (for_ xs body acc).
Proof.
  intros Hb. revert acc. induction xs as [|x xs IH]; intros acc; [done|].
  cbn [for_]. apply no_Exists_bind; [apply Hb|apply IH].
Qed.

Lemma py_iter_no_Exists v msg : py_iter v ≠ Raise (Exists msg).
Proof. by destruct v. Qed.

Lemma py_range_no_Exists a b c msg : py_range a b c ≠ Raise (Exists msg).
Proof. unfold py_range. by case_bool_decide. Qed.

Lemma py_map_no_Exists {A B} (f : A → Result B) l msg :
  (∀ x, f x ≠ Raise (Exists msg)) → py_map f l ≠ Raise (Exists msg).
Proof.
  intros Hf. induction l as [|x l IH]; [done|]. cbn [py_map].
  specialize (Hf x). destruct (f x) as [y|e]; [|intros [= ->]; by apply Hf].
  destruct (py_map f l) as [ys|e]; [done|exact IH].
Qed.

Lemma validate_language_profile_loop_no_Exists value profiles options msg :
  _validate_language_profile_loop value profiles options ≠ Raise (Exists msg).
Proof.
  revert options. induction profiles as [|p ps IH]; intros options; [done|].
  cbn [_validate_language_profile_loop].
  by destruct (language_profile_matches p value).
Qed.

Section Assumed.
Hypothesis Hcollab : Exists_is_add_data_only.

Lemma validate_language_profile_no_Exists value :
  no_Exists (_validate_language_profile value).
Proof.
  destruct Hcollab as (Hget & _ & _ & _ & _ & _ & _ & Hdata).
  unfold _validate_language_profile, language_profile, _get_languageProfile.
  apply no_Exists_bind.
  - apply no_Exists_bind; [by apply no_Exists_issue|intros r].
    apply no_Exists_bind.
    + apply no_Exists_pure. intros msg. apply py_iter_no_Exists.
    + intros items. apply no_Exists_pure. intros msg.
      apply py_map_no_Exists. intros d. apply Hdata.
  - intros profiles. apply no_Exists_pure. intros msg.
    apply validate_language_profile_loop_no_Exists.
Qed.

Lemma validate_add_options_no_Exists root_folder quality_profile
    language_profile monitor season_folder search unmet_search series_type
    tags :
  no_Exists
    (_validate_add_options root_folder quality_profile language_profile
       monitor season_folder search unmet_search series_type tags).
Proof.
  destruct Hcollab as (Hget & Hpost & Hrf & Hqp & Htags & Hopt & _).
  unfold _validate_add_options, _validate_monitor, _validate_series_type.
  apply no_Exists_bind; [by apply no_Exists_inherited|intros rf].
  apply no_Exists_bind; [by apply no_Exists_inherited|intros qp].
  apply no_Exists_bind; [apply validate_language_profile_no_Exists|intros lp].
  apply no_Exists_bind; [by apply no_Exists_pure|intros mo].
  apply no_Exists_bind; [by apply no_Exists_pure|intros st].
  destruct tags as [[|t ts]|]; try apply no_Exists_mret.
  apply no_Exists_bind; [by apply no_Exists_inherited|intros tg].
  apply no_Exists_mret.
Qed.

Lemma get_series_no_Exists n : no_Exists (get_series None (Some n)).
Proof.
  destruct Hcollab as (Hget & _ & _ & _ & _ & _ & Hdata & _).
  intros s msg. rewrite get_series_run.
  unfold transport, lookup_request. cbn [verb path params].
  pose proof (Hget "series/lookup" {["term" := JStr (lookup_term n)]} s msg)
    as Hs.
  destruct (_get _ _ s) as [[v|e] s'];
    [|simpl in *; intros [= ->]; by apply Hs].
  pose proof (py_iter_no_Exists v msg) as Hv.
  destruct (py_iter v) as [[|d l]|e]; simpl; [done|apply Hdata|].
  intros [= ->]. by apply Hv.
Qed.

Lemma add_multiple_series_item_no_Exists options acc x :
  no_Exists (add_multiple_series_item options acc x).
Proof.
  destruct acc as [[json existing] nf]. intros s msg.
  rewrite add_multiple_series_item_run.
  destruct x as [show|n].
  - rewrite mret_run.
    destruct (_get_add_data show options) as [d|e]; [done|].
    by destruct e.
  - pose proof (get_series_no_Exists n s msg) as Hs.
    destruct (get_series None (Some n) s) as [[[show|e] s'] rq].
    + destruct (_get_add_data show options) as [d|e]; [done|]. by destruct e.
    + destruct e; simpl in *; try done. intros [= ->]. by apply Hs.
Qed.

Lemma add_multiple_series_import_no_Exists json k series i :
  no_Exists (add_multiple_series_import json k series i).
Proof.
  destruct Hcollab as (_ & Hpost & _ & _ & _ & _ & Hdata & _).
  unfold add_multiple_series_import, _post_series_import.
  apply no_Exists_bind; [by apply no_Exists_issue|intros r].
  apply no_Exists_bind.
  { apply no_Exists_pure. intros msg. apply py_iter_no_Exists. }
  intros items. apply no_Exists_bind; [|intros; apply no_Exists_mret].
  apply no_Exists_pure. intros msg. apply py_map_no_Exists.
  intros d. apply Hdata.
Qed.

Lemma add_multiple_series_no_Exists tvdb_ids root_folder quality_profile
    language_profile monitor season_folder search unmet_search series_type
    tags per_request :
  no_Exists
    (add_multiple_series tvdb_ids root_folder quality_profile
       language_profile monitor season_folder search unmet_search
       series_type tags per_request).
Proof.
  unfold add_multiple_series.
  apply no_Exists_bind; [apply validate_add_options_no_Exists|intros options].
  apply no_Exists_bind.
  { apply no_Exists_for. apply add_multiple_series_item_no_Exists. }
  intros [[json existing] nf].
  apply no_Exists_bind; [|intros; apply no_Exists_mret].
  case_bool_decide; [|apply no_Exists_mret].
  apply no_Exists_bind.
  { apply no_Exists_pure. intros msg. apply py_range_no_Exists. }
  intros idx. apply no_Exists_for. apply add_multiple_series_import_no_Exists.
Qed.

End Assumed.


(** C7 (amended): an id whose lookup yields nothing goes to the not-found
    bucket, and the lookup is the only request made for it: its turn of the
    loop leaves the queue of import payloads as it was, and a call whose
    ids are all unknown to the service issues their lookups and no import
    request. *)
Theorem add_multiple_series_not_found :
  (∀ options json existing not_found_ids n (s s' : Server) msg rq,
     get_series None (Some n) s = (Raise (NotFound msg), s', rq) →
     add_multiple_series_item options (json, existing, not_found_ids)
       (SeriesInt n) s
     = (Ok (json, existing, not_found_ids ++ [SeriesInt n]), s', rq) ∧
     rq = [lookup_request n]) ∧
  (∀ ids root_folder quality_profile language monitor season_folder
     search unmet_search series_type tags per_request (s s1 : Server)
     options rq1,
     _validate_add_options root_folder quality_profile language
       monitor season_folder search unmet_search series_type tags s
       = (Ok options, s1, rq1) →
     (∀ n, n ∈ ids → transport (lookup_request n) s1 = (Ok (JList []), s1)) →
     add_multiple_series (SeriesInt <$> ids) root_folder quality_profile
       language monitor season_folder search unmet_search
       series_type tags per_request s
     = (Ok ([], [], SeriesInt <$> ids), s1, rq1 ++ (lookup_request <$> ids))).
Proof.
  split.
  - intros * Hget. rewrite add_multiple_series_item_run, Hget. cbn.
    split; [done|]. pose proof (get_series_requests n s) as Hrq.
    by rewrite Hget in Hrq.
  - intros * Hval Hnone.
    assert (∀ nf, for_ (SeriesInt <$> ids) (add_multiple_series_item options)
                    ([], [], nf) s1
                  = (Ok ([], [], nf ++ (SeriesInt <$> ids)), s1,
                     lookup_request <$> ids)) as Hloop.
    { induction ids as [|n ids IH]; intros nf.
      - by rewrite app_nil_r.
      - rewrite !fmap_cons. cbn [for_]. rewrite bind_unfold.
        rewrite add_multiple_series_item_run, get_series_run.
        rewrite Hnone by apply list_elem_of_here. cbn.
        rewrite IH by (intros; apply Hnone; by apply list_elem_of_further).
        by rewrite <- app_assoc. }
    unfold add_multiple_series.
    rewrite bind_unfold, Hval, bind_unfold, (Hloop []).
    rewrite bool_decide_eq_false_2 by done.
    rewrite bind_unfold, !mret_run. by rewrite !app_nil_r.
Qed.

End AddBuckets.

(** ** The catalog of the ID reconciler *)

Section Catalog.
Context `{BaseAPI} `{Util}.

Lemma tvdb_sonarr_ids_last (all : list Series) (t : Z) :
  tvdb_sonarr_ids all !! t = last (filter (λ m, Series_tvdbId m = t) all).
Proof.
  unfold tvdb_sonarr_ids. induction all as [|m all IH] using rev_ind; [done|].
  rewrite foldl_snoc, filter_app.
  destruct (decide (Series_tvdbId m = t)) as [Heq|Hne].
  - rewrite Heq, lookup_insert_eq, filter_cons_True, filter_nil by done.
    by rewrite last_snoc.
  - rewrite lookup_insert_ne by done.
    by rewrite filter_cons_False, filter_nil, app_nil_r.
Qed.

Lemma tvdb_sonarr_ids_None (all : list Series) (t : Z) :
  tvdb_sonarr_ids all !! t = None ↔ Forall (λ m, Series_tvdbId m ≠ t) all.
Proof.
  rewrite tvdb_sonarr_ids_last, last_None. rewrite Forall_forall. split.
  - intros Hnil m Hm Heq. assert (m ∈ filter (λ m, Series_tvdbId m = t) all)
      as Hin by (by apply list_elem_of_filter).
    rewrite Hnil in Hin. by apply elem_of_nil in Hin.
  - intros Hall. destruct (filter _ all) as [|m l] eqn:Hf; [done|].
    assert (m ∈ filter (λ m, Series_tvdbId m = t) all) as Hin
      by (rewrite Hf; apply list_elem_of_here).
    apply list_elem_of_filter in Hin as [Heq Hin]. by apply Hall in Hin.
Qed.

(** X1: when several fetched series bear the same TVDb id, the last one
    fetched is the one [_validate_tvdb_ids] resolves that id to; an id is
    unresolved when no fetched series bears it. *)
Theorem validate_tvdb_ids_last_series (tvdb_ids : list SeriesRef)
    (all : list Series) (s s' : Server) (rq : list Request) :
  all_series s = (Ok all, s', rq) →
  _validate_tvdb_ids tvdb_ids s =
  (Ok (omap (λ t, Series_id <$> last (filter (λ m, Series_tvdbId m = t) all))
            (as_tvdb_id <$> tvdb_ids),
       filter (λ t, Forall (λ m, Series_tvdbId m ≠ t) all)
              (as_tvdb_id <$> tvdb_ids)),
   s', rq).
Proof.
  intros Hall. rewrite (validate_tvdb_ids_run _ _ _ _ _ Hall).
  assert (omap (λ t, Series_id <$> tvdb_sonarr_ids all !! t)
               (as_tvdb_id <$> tvdb_ids)
          = omap (λ t, Series_id <$> last (filter (λ m, Series_tvdbId m = t) all))
               (as_tvdb_id <$> tvdb_ids)) as ->.
  { apply list_omap_ext, Forall2_same_length_lookup. split; [done|].
    intros i t t' Ht Ht'. rewrite Ht in Ht'. injection Ht' as <-.
    by rewrite tvdb_sonarr_ids_last. }
  by rewrite (list_filter_iff _ _ _ (tvdb_sonarr_ids_None all)).
Qed.

Lemma validate_tvdb_ids_requests (tvdb_ids : list SeriesRef) (s : Server) :
  (_validate_tvdb_ids tvdb_ids s).2 = [series_request].
Proof.
  unfold _validate_tvdb_ids. rewrite bind_unfold.
  pose proof (all_series_requests s) as Hrq.
  destruct (all_series s) as [[[a|e] s1] rq1]; simpl in Hrq; subst rq1;
    [|done].
  by rewrite mret_run.
Qed.

(** X2: [_validate_tvdb_ids] issues one request, the fetch of all series,
    whatever its input, and leaves the service as the fetch left it.  It
    raises what the fetch raises, what the iteration of a response that is
    no list raises, or what the constructor of [Series] raises on the first
    item it cannot load.  Otherwise every resolved id is the id of a
    fetched series whose TVDb id was asked for, and every unresolved id was
    asked for and is borne by no fetched series. *)
Theorem validate_tvdb_ids_fetches_once (tvdb_ids : list SeriesRef) (s : Server) :
  (_validate_tvdb_ids tvdb_ids s).2 = [series_request] ∧
  (_validate_tvdb_ids tvdb_ids s).1.2 = (transport series_request s).2 ∧
  (∀ e s', transport series_request s = (Raise e, s') →
     _validate_tvdb_ids tvdb_ids s = (Raise e, s', [series_request])) ∧
  (∀ v e s', transport series_request s = (Ok v, s') → py_iter v = Raise e →
     _validate_tvdb_ids tvdb_ids s = (Raise e, s', [series_request])) ∧
  (∀ v items e s', transport series_request s = (Ok v, s') →
     py_iter v = Ok items → py_map Series_data items = Raise e →
     _validate_tvdb_ids tvdb_ids s = (Raise e, s', [series_request])) ∧
  (∀ v items all s', transport series_request s = (Ok v, s') →
     py_iter v = Ok items → py_map Series_data items = Ok all →
     ∃ valid_ids invalid_ids,
       _validate_tvdb_ids tvdb_ids s
       = (Ok (valid_ids, invalid_ids), s', [series_request]) ∧
       (∀ x, x ∈ valid_ids →
          ∃ m, m ∈ all ∧ Series_id m = x ∧
               Series_tvdbId m ∈ as_tvdb_id <$> tvdb_ids) ∧
       (∀ t, t ∈ invalid_ids →
          t ∈ as_tvdb_id <$> tvdb_ids ∧
          ∀ m, m ∈ all → Series_tvdbId m ≠ t)).
Proof.
  assert (∀ r s', transport series_request s = (r, s') →
            all_series s =
            (match r with
             | Ok v => match py_iter v with
                       | Ok items => py_map Series_data items
                       | Raise e => Raise e
                       end
             | Raise e => Raise e
             end, s', [series_request])) as Hall.
  { intros r s' Ht. unfold all_series, _get_series.
    rewrite bind_unfold, issue_run.
    change (_get "series" ∅ s) with (transport series_request s). rewrite Ht.
    destruct r as [v|e]; [|done]. cbn [fst snd].
    rewrite bind_unfold, pure_run. by destruct (py_iter v). }
  split; [|split; [|split; [|split; [|split]]]].
  - apply validate_tvdb_ids_requests.
  - destruct (transport series_request s) as [r s'] eqn:Ht.
    unfold _validate_tvdb_ids. rewrite bind_unfold, (Hall _ _ eq_refl).
    destruct r as [v|e]; [|done].
    destruct (py_iter v) as [items|e]; [|done].
    by destruct (py_map Series_data items).
  - intros e s' Ht. unfold _validate_tvdb_ids.
    by rewrite bind_unfold, (Hall _ _ Ht).
  - intros v e s' Ht Hv. unfold _validate_tvdb_ids.
    by rewrite bind_unfold, (Hall _ _ Ht), Hv.
  - intros v items e s' Ht Hv Hload. unfold _validate_tvdb_ids.
    by rewrite bind_unfold, (Hall _ _ Ht), Hv, Hload.
  - intros v items all s' Ht Hv Hload. specialize (Hall _ _ Ht).
    cbv beta iota in Hall. rewrite Hv, Hload in Hall.
    rewrite (validate_tvdb_ids_last_series _ _ _ _ _ Hall).
    eexists _, _. split; [reflexivity|]. split.
    + intros x Hx. apply list_elem_of_omap in Hx as (t & Ht' & Hx).
      destruct (last _) as [m|] eqn:Hlast; [|done]. injection Hx as <-.
      apply last_Some_elem_of, list_elem_of_filter in Hlast as [Hm Hin].
      exists m. split; [done|]. split; [done|]. by rewrite Hm.
    + intros t Ht'. apply list_elem_of_filter in Ht' as [Hno Hin].
      split; [done|]. intros m Hm. rewrite Forall_forall in Hno.
      by apply Hno.
Qed.

(** X3: when no fetched series bears one of the TVDb ids given,
    [delete_multiple_series] issues the fetch of the catalog only, leaves
    the service as the fetch left it, and returns every id given, in
    order. *)
Theorem delete_multiple_series_nothing_resolved (tvdb_ids : list SeriesRef)
    (addImportExclusion deleteFiles : bool) (per_request : option Z)
    (all : list Series) (s s' : Server) (rq : list Request) :
  all_series s = (Ok all, s', rq) →
  (∀ x m, x ∈ tvdb_ids → m ∈ all → Series_tvdbId m ≠ as_tvdb_id x) →
  delete_multiple_series tvdb_ids addImportExclusion deleteFiles per_request s
  = (Ok (as_tvdb_id <$> tvdb_ids), s', [series_request]).
Proof.
  intros Hall Hno.
  pose proof (all_series_requests s) as Hrq. rewrite Hall in Hrq.
  simpl in Hrq. subst rq.
  pose proof (validate_tvdb_ids_run tvdb_ids _ _ _ _ Hall) as Hids.
  assert (∀ t, t ∈ as_tvdb_id <$> tvdb_ids → tvdb_sonarr_ids all !! t = None)
    as Hnone.
  { intros t (x & -> & Hx)%list_elem_of_fmap. rewrite tvdb_sonarr_ids_None, Forall_forall.
    intros m Hm. by apply Hno. }
  assert (omap (λ t, Series_id <$> tvdb_sonarr_ids all !! t)
            (as_tvdb_id <$> tvdb_ids) = []) as Hvalid.
  { revert Hnone. generalize (as_tvdb_id <$> tvdb_ids).
    induction l as [|t l IH]; intros Hnone; [done|].
    cbn [omap list_omap]. rewrite Hnone by apply list_elem_of_here.
    simpl. apply IH. intros t' Ht'. apply Hnone. by apply list_elem_of_further. }
  rewrite Hvalid in Hids. rewrite (nothing_resolved _ _ Hvalid) in Hids.
  destruct (delete_multiple_series_shape tvdb_ids addImportExclusion
    deleteFiles per_request _ _ _ _ _ Hids) as (r & s3 & rq' & Hrun & Hnil & _).
  destruct (Hnil eq_refl) as (-> & -> & ->). by rewrite Hrun.
Qed.

End Catalog.

(** ** The option maps, key by key *)

Section OptionKeys.
Context `{BaseAPI} `{Util}.

Ltac in_list :=
  solve [repeat first [apply list_elem_of_here | apply list_elem_of_further]].

Lemma lookup_with_field key value options :
  with_field key value options !! key
  = match value with Some v => Some v | None => options !! key end.
Proof. destruct value; [apply lookup_insert_eq|done]. Qed.

Lemma lookup_with_field_ne key key' value options :
  key ≠ key' → with_field key value options !! key' = options !! key'.
Proof. intros Hne. destruct value; [by apply lookup_insert_ne|done]. Qed.

Lemma lookup_with_field_is_Some key key' value options :
  is_Some (with_field key value options !! key') →
  key' = key ∨ is_Some (options !! key').
Proof.
  destruct (decide (key = key')) as [->|Hne]; [by left|].
  rewrite lookup_with_field_ne by done. by right.
Qed.

(** The option map of [_validate_edit_options], entry by entry. *)
Lemma validate_edit_options_inv root_folder path move_files quality_profile
    language monitor monitored season_folder series_type tags apply_tags
    (s s' : Server) json rq :
  _validate_edit_options root_folder path move_files quality_profile
    language monitor monitored season_folder series_type tags apply_tags s
    = (Ok json, s', rq) →
  ∃ (rf qp : option Json) (lp : option Z) (mo st : option string)
    (tg : option Json),
    (is_Some rf ↔ is_Some root_folder) ∧
    (is_Some qp ↔ is_Some quality_profile) ∧
    (is_Some lp ↔ is_Some language) ∧
    match monitor with
    | Some v => ∃ x, mo = Some x ∧
                     validate_options "Monitor" v monitor_options = Ok x
    | None => mo = None
    end ∧
    match series_type with
    | Some v => ∃ x, st = Some x ∧
                     validate_options "Series Type" v series_type_options
                     = Ok x
    | None => st = None
    end ∧
    (is_Some tg ↔ is_Some tags) ∧
    (is_Some tags → apply_tags ∈ apply_tags_options) ∧
    json =
      with_field "applyTags" ((λ _, JStr apply_tags) <$> tg) $
      with_field "tags" tg $
      with_field "seriesType" (JStr <$> st) $
      with_field "seasonFolder" (JBool <$> season_folder) $
      with_field "monitored" (JBool <$> monitored) $
      with_field "monitor" (JStr <$> mo) $
      with_field "languageProfileId" (JInt <$> lp) $
      with_field (if v3 then "qualityProfileId" else "profileId") qp $
      with_field "path" (JStr <$> path) $
      with_field "rootFolderPath" rf {["moveFiles" := JBool move_files]}.
Proof.
  unfold _validate_edit_options. destruct (forallb _ _); [done|].
  generalize ({["moveFiles" := JBool move_files]} : gmap string Json).
  intros o0 Hrun.
  apply bind_Ok_inv in Hrun as (o1 & s1 & rq1 & rr1 & Hs1 & Hrun & ->).
  assert (∃ rf, (is_Some rf ↔ is_Some root_folder) ∧
                o1 = with_field "rootFolderPath" rf o0) as (rf & Hrf & E1).
  { destruct root_folder as [v|].
    - apply bind_Ok_inv in Hs1 as (x & ? & ? & ? & _ & [= <- _ _] & _).
      exists (Some x). split; [by split; eexists|done].
    - injection Hs1 as <- _ _. exists None. split; [|done].
      split; by intros [??]. }
  clear Hs1.
  apply bind_Ok_inv in Hrun as (o2 & s2 & rq2 & rr2 & Hs2 & Hrun & ->).
  assert (o2 = with_field "path" (JStr <$> path) o1) as E2.
  { destruct path; by injection Hs2 as <- _ _. }
  clear Hs2.
  apply bind_Ok_inv in Hrun as (o3 & s3 & rq3 & rr3 & Hs3 & Hrun & ->).
  assert (∃ qp, (is_Some qp ↔ is_Some quality_profile) ∧
     o3 = with_field (if v3 then "qualityProfileId" else "profileId") qp o2)
    as (qp & Hqp & E3).
  { destruct quality_profile as [v|].
    - apply bind_Ok_inv in Hs3 as (x & ? & ? & ? & _ & [= <- _ _] & _).
      exists (Some x). split; [by split; eexists|done].
    - injection Hs3 as <- _ _. exists None. split; [|done].
      split; by intros [??]. }
  clear Hs3.
  apply bind_Ok_inv in Hrun as (o4 & s4 & rq4 & rr4 & Hs4 & Hrun & ->).
  assert (∃ lp, (is_Some lp ↔ is_Some language) ∧
     o4 = with_field "languageProfileId" (JInt <$> lp) o3) as (lp & Hlp & E4).
  { destruct language as [v|].
    - apply bind_Ok_inv in Hs4 as (x & ? & ? & ? & _ & [= <- _ _] & _).
      exists (Some x). split; [by split; eexists|done].
    - injection Hs4 as <- _ _. exists None. split; [|done].
      split; by intros [??]. }
  clear Hs4.
  apply bind_Ok_inv in Hrun as (o5 & s5 & rq5 & rr5 & Hs5 & Hrun & ->).
  assert (∃ mo,
     match monitor with
     | Some v => ∃ x, mo = Some x ∧
                      validate_options "Monitor" v monitor_options = Ok x
     | None => mo = None
     end ∧
     o5 = with_field "monitor" (JStr <$> mo) o4) as (mo & Hmo & E5).
  { destruct monitor as [v|].
    - apply bind_Ok_inv in Hs5 as (x & ? & ? & ? & Hv & [= <- _ _] & _).
      exists (Some x). split; [|done]. exists x. split; [done|].
      unfold _validate_monitor in Hv. rewrite pure_run in Hv.
      by injection Hv as -> _.
    - injection Hs5 as <- _ _. by exists None. }
  clear Hs5.
  apply bind_Ok_inv in Hrun as (o6 & s6 & rq6 & rr6 & Hs6 & Hrun & ->).
  assert (o6 = with_field "monitored" (JBool <$> monitored) o5) as E6.
  { destruct monitored; by injection Hs6 as <- _ _. }
  clear Hs6.
  apply bind_Ok_inv in Hrun as (o7 & s7 & rq7 & rr7 & Hs7 & Hrun & ->).
  assert (o7 = with_field "seasonFolder" (JBool <$> season_folder) o6) as E7.
  { destruct season_folder; by injection Hs7 as <- _ _. }
  clear Hs7.
  apply bind_Ok_inv in Hrun as (o8 & s8 & rq8 & rr8 & Hs8 & Hrun & ->).
  assert (∃ st,
     match series_type with
     | Some v => ∃ x, st = Some x ∧
                      validate_options "Series Type" v series_type_options
                      = Ok x
     | None => st = None
     end ∧
     o8 = with_field "seriesType" (JStr <$> st) o7) as (st & Hst & E8).
  { destruct series_type as [v|].
    - apply bind_Ok_inv in Hs8 as (x & ? & ? & ? & Hv & [= <- _ _] & _).
      exists (Some x). split; [|done]. exists x. split; [done|].
      unfold _validate_series_type in Hv. rewrite pure_run in Hv.
      by injection Hv as -> _.
    - injection Hs8 as <- _ _. by exists None. }
  clear Hs8.
  destruct tags as [v|].
  - apply bind_Ok_inv in Hrun as (x & ? & ? & ? & _ & Hrun & _).
    case_bool_decide as Hin; [|done]. injection Hrun as <- _ _.
    exists rf, qp, lp, mo, st, (Some x). subst.
    do 5 (split; [done|]). split; [by split; eexists|]. done.
  - injection Hrun as <- _ _.
    exists rf, qp, lp, mo, st, None. subst.
    do 5 (split; [done|]). split; [split; by intros [??]|].
    split; [by intros [??]|done].
Qed.

Ltac key_lookup :=
  repeat first
    [ rewrite lookup_insert_eq
    | rewrite lookup_insert_ne by done
    | rewrite lookup_empty ].

Lemma lookup_insert_is_Some_inv (key key' : string) (v : Json)
    (m : gmap string Json) :
  is_Some (<[key := v]> m !! key') → key' = key ∨ is_Some (m !! key').
Proof.
  destruct (decide (key = key')) as [->|Hne]; [by left|].
  rewrite lookup_insert_ne by done. by right.
Qed.

(** X4: the option map that [_validate_add_options] returns has the nine
    keys of its dict literal, the quality profile under ["quality_profile"]
    on v3 and under ["profileId"] otherwise, and no other key but
    ["tags"], which is there exactly when the tag list is not empty.
    ["monitored"] is false exactly when [monitor] is ["none"]. *)
Theorem validate_add_options_keys root_folder quality_profile language
    monitor season_folder search unmet_search series_type tags
    (s s' : Server) options rq :
  _validate_add_options root_folder quality_profile language monitor
    season_folder search unmet_search series_type tags s
    = (Ok options, s', rq) →
  is_Some (options !! "root_folder") ∧
  is_Some (options !! (if v3 then "quality_profile" else "profileId")) ∧
  (∃ x, options !! "language_profile" = Some (JInt x)) ∧
  (∃ x, validate_options "Monitor" monitor monitor_options = Ok x ∧
        options !! "monitor" = Some (JStr x)) ∧
  options !! "monitored" = Some (JBool (bool_decide (monitor ≠ "none"))) ∧
  options !! "season_folder" = Some (JBool season_folder) ∧
  options !! "search" = Some (JBool search) ∧
  options !! "unmet_search" = Some (JBool unmet_search) ∧
  (∃ x, validate_options "Series Type" series_type series_type_options = Ok x
        ∧ options !! "series_type" = Some (JStr x)) ∧
  (is_Some (options !! "tags") ↔ ∃ t ts, tags = Some (t :: ts)) ∧
  (∀ key, is_Some (options !! key) →
     key ∈ ["root_folder"; if v3 then "quality_profile" else "profileId";
            "language_profile"; "monitor"; "monitored"; "season_folder";
            "search"; "unmet_search"; "series_type"; "tags"]).
Proof.
  unfold _validate_add_options. intros Hrun.
  apply bind_Ok_inv in Hrun as (rf & s1 & rq1 & rr1 & _ & Hrun & _).
  apply bind_Ok_inv in Hrun as (qp & s2 & rq2 & rr2 & _ & Hrun & _).
  apply bind_Ok_inv in Hrun as (lp & s3 & rq3 & rr3 & _ & Hrun & _).
  apply bind_Ok_inv in Hrun as (mo & s4 & rq4 & rr4 & Hmo & Hrun & _).
  apply bind_Ok_inv in Hrun as (st & s5 & rq5 & rr5 & Hst & Hrun & _).
  unfold _validate_monitor in Hmo. rewrite pure_run in Hmo.
  injection Hmo as Hmo _.
  unfold _validate_series_type in Hst. rewrite pure_run in Hst.
  injection Hst as Hst _.
  assert (∃ tg : option Json,
            (is_Some tg ↔ ∃ t ts, tags = Some (t :: ts)) ∧
            options = with_field "tags" tg
              (<["series_type" := JStr st]> $
               <["unmet_search" := JBool unmet_search]> $
               <["search" := JBool search]> $
               <["season_folder" := JBool season_folder]> $
               <["monitored" := JBool (bool_decide (monitor ≠ "none"))]> $
               <["monitor" := JStr mo]> $
               <["language_profile" := JInt lp]> $
               <[(if v3 then "quality_profile" else "profileId") := qp]> $
               <["root_folder" := rf]> ∅)) as (tg & Htg & ->).
  { destruct tags as [[|t ts]|].
    - injection Hrun as <- _ _. exists None. split; [|done].
      split; [by intros [??]|by intros (? & ? & ?)].
    - apply bind_Ok_inv in Hrun as (x & ? & ? & ? & _ & [= <- _ _] & _).
      exists (Some x). split; [|done]. split; [by eexists _, _|by eexists].
    - injection Hrun as <- _ _. exists None. split; [|done].
      split; [by intros [??]|by intros (? & ? & ?)]. }
  clear Hrun.
  split. { rewrite lookup_with_field_ne by done.
           destruct v3; key_lookup; by eexists. }
  split. { destruct v3; rewrite lookup_with_field_ne by done; key_lookup;
           by eexists. }
  split. { exists lp. rewrite lookup_with_field_ne by done.
           destruct v3; by key_lookup. }
  split. { exists mo. split; [done|]. rewrite lookup_with_field_ne by done.
           destruct v3; by key_lookup. }
  split. { rewrite lookup_with_field_ne by done. destruct v3; by key_lookup. }
  split. { rewrite lookup_with_field_ne by done. destruct v3; by key_lookup. }
  split. { rewrite lookup_with_field_ne by done. destruct v3; by key_lookup. }
  split. { rewrite lookup_with_field_ne by done. destruct v3; by key_lookup. }
  split. { exists st. split; [done|]. rewrite lookup_with_field_ne by done.
           destruct v3; by key_lookup. }
  split.
  { rewrite <- Htg, lookup_with_field. destruct tg; [done|].
    destruct v3; by key_lookup. }
  intros key Hkey.
  apply lookup_with_field_is_Some in Hkey as [->|Hkey]; [in_list|].
  repeat (apply lookup_insert_is_Some_inv in Hkey as [->|Hkey]; [in_list|]).
  rewrite lookup_empty in Hkey. by destruct Hkey.
Qed.

Ltac look_up :=
  repeat first
    [ rewrite lookup_with_field
    | rewrite lookup_with_field_ne by done
    | rewrite lookup_singleton_eq
    | rewrite lookup_singleton_ne by done ].

(** X5: the option map that [_validate_edit_options] returns, for any
    combination of fields: ["moveFiles"] is always there, every other key
    is there exactly when its field was given, ["applyTags"] goes with
    ["tags"], and there is no other key. *)
Theorem validate_edit_options_keys root_folder path move_files
    quality_profile language monitor monitored season_folder series_type tags
    apply_tags (s s' : Server) json rq :
  _validate_edit_options root_folder path move_files quality_profile
    language monitor monitored season_folder series_type tags apply_tags s
    = (Ok json, s', rq) →
  json !! "moveFiles" = Some (JBool move_files) ∧
  (is_Some (json !! "rootFolderPath") ↔ is_Some root_folder) ∧
  json !! "path" = JStr <$> path ∧
  (is_Some (json !! (if v3 then "qualityProfileId" else "profileId"))
   ↔ is_Some quality_profile) ∧
  match language with
  | Some _ => ∃ x, json !! "languageProfileId" = Some (JInt x)
  | None => json !! "languageProfileId" = None
  end ∧
  match monitor with
  | Some v => ∃ x, validate_options "Monitor" v monitor_options = Ok x ∧
                   json !! "monitor" = Some (JStr x)
  | None => json !! "monitor" = None
  end ∧
  json !! "monitored" = JBool <$> monitored ∧
  json !! "seasonFolder" = JBool <$> season_folder ∧
  match series_type with
  | Some v => ∃ x, validate_options "Series Type" v series_type_options = Ok x
                   ∧ json !! "seriesType" = Some (JStr x)
  | None => json !! "seriesType" = None
  end ∧
  match tags with
  | Some _ => is_Some (json !! "tags") ∧
              json !! "applyTags" = Some (JStr apply_tags) ∧
              apply_tags ∈ apply_tags_options
  | None => json !! "tags" = None ∧ json !! "applyTags" = None
  end ∧
  (∀ key, is_Some (json !! key) →
     key ∈ ["moveFiles"; "rootFolderPath"; "path";
            if v3 then "qualityProfileId" else "profileId";
            "languageProfileId"; "monitor"; "monitored"; "seasonFolder";
            "seriesType"; "tags"; "applyTags"]).
Proof.
  intros (rf & qp & lp & mo & st & tg & Hrf & Hqp & Hlp & Hmo & Hst & Htg
          & Hat & ->)%validate_edit_options_inv.
  split. { destruct v3; by look_up. }
  split. { destruct v3; look_up; rewrite <- Hrf; by destruct rf. }
  split. { destruct v3; look_up; by destruct path. }
  split. { destruct v3; look_up; rewrite <- Hqp; by destruct qp. }
  split.
  { destruct language as [v|].
    - destruct lp as [x|]; [|by destruct Hlp as [_ [[]]]].
      exists x. destruct v3; by look_up.
    - destruct lp as [x|]; [by destruct Hlp as [[[]] _]|].
      destruct v3; by look_up. }
  split.
  { destruct monitor as [v|].
    - destruct Hmo as (x & -> & Hx). exists x. split; [done|].
      destruct v3; by look_up.
    - subst mo. destruct v3; by look_up. }
  split. { destruct v3; look_up; by destruct monitored. }
  split. { destruct v3; look_up; by destruct season_folder. }
  split.
  { destruct series_type as [v|].
    - destruct Hst as (x & -> & Hx). exists x. split; [done|].
      destruct v3; by look_up.
    - subst st. destruct v3; by look_up. }
  split.
  { destruct tags as [v|].
    - destruct tg as [x|]; [|by destruct Htg as [_ [[]]]].
      split; [|split; [|by apply Hat]]; destruct v3; by look_up.
    - destruct tg as [x|]; [by destruct Htg as [[[]] _]|].
      split; destruct v3; by look_up. }
  intros key Hkey.
  repeat (apply lookup_with_field_is_Some in Hkey as [->|Hkey]; [in_list|]).
  destruct (decide (key = "moveFiles")) as [->|Hne]; [in_list|].
  rewrite lookup_singleton_ne in Hkey by done. by destruct Hkey.
Qed.

Lemma validate_edit_options_monitor_None root_folder path move_files
    quality_profile language monitored season_folder series_type tags
    apply_tags (s s' : Server) json rq :
  _validate_edit_options root_folder path move_files quality_profile
    language None monitored season_folder series_type tags apply_tags s
    = (Ok json, s', rq) →
  json !! "monitor" = None.
Proof.
  intros (rf & qp & lp & mo & st & tg & Hrf & Hqp & Hlp & Hmo & Hst & Htg
          & Hat & ->)%validate_edit_options_inv.
  subst mo. destruct v3; by look_up.
Qed.

Lemma edit_multiple_series_editor_only tvdb_ids root_folder move_files
    quality_profile language monitored season_folder series_type tags
    apply_tags per_request (s s1 s2 : Server) json rq1 valid invalid rq2 :
  _validate_edit_options root_folder None move_files quality_profile
    language None monitored season_folder series_type tags apply_tags s
    = (Ok json, s1, rq1) →
  _validate_tvdb_ids tvdb_ids s1 = (Ok (valid, invalid), s2, rq2) →
  ∃ r s3 rq',
    edit_multiple_series tvdb_ids root_folder move_files quality_profile
      language None monitored season_folder series_type tags apply_tags
      per_request s = (r, s3, rq1 ++ rq2 ++ rq') ∧
    Forall (λ q, verb q = PUT ∧ path q = "series/editor") rq' ∧
    sent s2 rq' s3.
Proof.
  intros Hval Hids.
  pose proof (validate_edit_options_monitor_None _ _ _ _ _ _ _ _ _ _ _ _ _ _
    Hval) as Hmon.
  destruct (edit_multiple_series_shape tvdb_ids root_folder move_files
    quality_profile language None monitored season_folder series_type tags
    apply_tags per_request s json s1 rq1 valid invalid s2 rq2
    Hval Hids) as (r & s3 & rq' & Hrun & Hnil & Hcons).
  exists r, s3, rq'. split; [done|].
  split; [|by eapply edit_multiple_series_sent].
  destruct (decide (valid = [])) as [Hv|Hv].
  { by destruct (Hnil Hv) as (_ & _ & ->). }
  specialize (Hcons Hv). rewrite Hmon in Hcons.
  destruct (py_range 0 (len valid) (chunk_size per_request valid)) as [idx|e].
  2:{ by destruct Hcons as [_ ->]. }
  cbn zeta in Hcons. rewrite app_nil_l in Hcons.
  assert (rq' `prefix_of`
            (λ i, editor_request (delete "monitor" json)
                    (py_slice valid i (i + chunk_size per_request valid)))
            <$> idx) as [rest Hpf].
  { destruct r as [[sl inv]|e]; [|done]. by destruct Hcons as (_ & -> & _). }
  assert (Forall (λ q, verb q = PUT ∧ path q = "series/editor")
            (rq' ++ rest)) as Hall
    by (rewrite <- Hpf; by apply Forall_fmap, Forall_true).
  by apply Forall_app in Hall as [? _].
Qed.

(** X6: without a monitor option [edit_multiple_series] never calls
    seasonPass, whatever the outcome of the call.  The requests it issues
    through the endpoints of [sonarr.py] are the fetch of the language
    profiles, the fetch of the catalog and series/editor requests; and once
    the options are validated and the ids reconciled, the series/editor
    requests are all that the service is sent. *)
Theorem edit_multiple_series_without_monitor tvdb_ids root_folder move_files
    quality_profile language monitored season_folder series_type tags
    apply_tags per_request (s : Server) :
  Forall (λ q, q = languageProfile_request ∨ q = series_request ∨
               (verb q = PUT ∧ path q = "series/editor"))
    (edit_multiple_series tvdb_ids root_folder move_files quality_profile
       language None monitored season_folder series_type tags apply_tags
       per_request s).2 ∧
  (∀ json (s1 s2 : Server) rq1 valid invalid rq2,
     _validate_edit_options root_folder None move_files quality_profile
       language None monitored season_folder series_type tags apply_tags s
       = (Ok json, s1, rq1) →
     _validate_tvdb_ids tvdb_ids s1 = (Ok (valid, invalid), s2, rq2) →
     ∃ r s3 rq',
       edit_multiple_series tvdb_ids root_folder move_files quality_profile
         language None monitored season_folder series_type tags apply_tags
         per_request s = (r, s3, rq1 ++ rq2 ++ rq') ∧
       Forall (λ q, verb q = PUT ∧ path q = "series/editor") rq' ∧
       sent s2 rq' s3).
Proof.
  split; [|intros *; apply edit_multiple_series_editor_only].
  destruct (_validate_edit_options root_folder None move_files quality_profile
    language None monitored season_folder series_type tags apply_tags s)
    as [[[json|e] s1] rq1] eqn:Hval.
  2:{ unfold edit_multiple_series. rewrite bind_unfold, Hval. cbn [snd].
      pose proof (validate_edit_options_fetches root_folder None move_files
        quality_profile language None monitored season_folder series_type
        tags apply_tags s) as Hrq.
      rewrite Hval in Hrq. simpl in Hrq.
      destruct Hrq as [->| ->]; [constructor|]. apply Forall_singleton.
      by left. }
  assert (Forall (λ q, q = languageProfile_request ∨ q = series_request ∨
                       (verb q = PUT ∧ path q = "series/editor")) rq1)
    as Hrq1.
  { apply validate_edit_options_requests_get in Hval as [->| ->];
      [constructor|]. apply Forall_singleton. by left. }
  pose proof (validate_tvdb_ids_requests tvdb_ids s1) as Hrq2.
  destruct (_validate_tvdb_ids tvdb_ids s1) as [[[[valid invalid]|e] s2] rq2]
    eqn:Hids; simpl in Hrq2; subst rq2.
  2:{ unfold edit_multiple_series. rewrite bind_unfold, Hval, bind_unfold, Hids.
      cbn [snd]. apply Forall_app. split; [done|].
      apply Forall_singleton. by right; left. }
  destruct (edit_multiple_series_editor_only tvdb_ids root_folder move_files
    quality_profile language monitored season_folder series_type tags
    apply_tags per_request s s1 s2 json rq1 valid invalid [series_request]
    Hval Hids) as (r & s3 & rq' & -> & Hed & _).
  cbn [snd]. apply Forall_app. split; [done|].
  apply Forall_app. split; [apply Forall_singleton; by right; left|].
  eapply Forall_impl; [exact Hed|]. intros q Hq. by right; right.
Qed.

End OptionKeys.

(** ** The first matching language profile *)

Section FirstMatch.
Context `{BaseAPI} `{Util}.

Lemma validate_language_profile_loop_head value profiles options :
  _validate_language_profile_loop value profiles options =
  match head (filter (λ p, language_profile_matches p value = true) profiles)
  with
  | Some p => Ok (LanguageProfile_id p)
  | None =>
      Raise (Invalid ("Invalid Language Profile: '"
                      +:+ language_profile_str value +:+ "' Options: "
                      +:+ py_str_list LanguageProfile_repr
                            (options ++ profiles)))
  end.
Proof.
  revert options. induction profiles as [|q qs IH]; intros options.
  - by rewrite app_nil_r.
  - cbn [_validate_language_profile_loop]. rewrite filter_cons.
    destruct (language_profile_matches q value) eqn:Hq.
    + by rewrite decide_True by done.
    + rewrite decide_False by done. rewrite IH. by rewrite <- app_assoc.
Qed.

(** X7: [_validate_language_profile] returns the id of the first fetched
    profile that matches the candidate, and raises [Invalid] when none
    does. *)
Theorem validate_language_profile_first_match
    (value : PyRef LanguageProfile) (profiles : list LanguageProfile)
    (s s' : Server) (rq : list Request) :
  language_profile s = (Ok profiles, s', rq) →
  _validate_language_profile value s =
  (match head (filter (λ p, language_profile_matches p value = true) profiles)
   with
   | Some p => Ok (LanguageProfile_id p)
   | None =>
       Raise (Invalid ("Invalid Language Profile: '"
                       +:+ language_profile_str value +:+ "' Options: "
                       +:+ py_str_list LanguageProfile_repr profiles))
   end, s', rq).
Proof.
  intros Hp. rewrite (validate_language_profile_run _ _ _ _ _ Hp).
  by rewrite validate_language_profile_loop_head.
Qed.

End FirstMatch.

(** ** Series objects, failed imports and chunk sizes below one *)

Section Edges.
Context `{BaseAPI} `{Util}.

(** The first loop of [add_multiple_series] over [Series] objects. *)
Lemma objects_loop options shows json existing nf s :
  ∃ r, for_ (SeriesObj <$> shows) (add_multiple_series_item options)
         (json, existing, nf) s = (r, s, []) ∧
    (Forall (λ show, ∀ e, _get_add_data show options = Raise e →
                          is_Exists e = true ∨ is_NotFound e = true) shows →
     r = Ok
       (json ++ omap (λ show, match _get_add_data show options with
                              | Ok d => Some d
                              | Raise _ => None
                              end) shows,
        existing ++ filter (λ show, match _get_add_data show options with
                                    | Ok _ => false
                                    | Raise e => is_Exists e
                                    end = true) shows,
        nf ++ (SeriesObj <$>
               filter (λ show, match _get_add_data show options with
                               | Ok _ => false
                               | Raise e => is_NotFound e
                               end = true) shows))).
Proof.
  revert json existing nf.
  induction shows as [|show shows IH]; intros json existing nf.
  - exists (Ok (json, existing, nf)). split; [done|]. intros _.
    by rewrite !app_nil_r.
  - rewrite fmap_cons. cbn [for_]. rewrite bind_unfold.
    rewrite add_multiple_series_item_run, mret_run.
    rewrite !filter_cons. cbn [omap list_omap].
    destruct (_get_add_data show options) as [d|e] eqn:Hd.
    + destruct (IH (json ++ [d]) existing nf) as (r & -> & Hr).
      exists r. split; [done|]. intros Hall. apply Forall_cons in Hall as [_ Hall].
      rewrite (Hr Hall). rewrite decide_False by done.
      rewrite decide_False by done. by rewrite <- app_assoc.
    + destruct (is_Exists e) eqn:Hex.
      * destruct (IH json (existing ++ [show]) nf) as (r & -> & Hr).
        exists r. split; [done|]. intros Hall.
        apply Forall_cons in Hall as [_ Hall]. rewrite (Hr Hall).
        rewrite decide_True by done.
        rewrite decide_False by (by destruct e). by rewrite <- app_assoc.
      * destruct (is_NotFound e) eqn:Hnf.
        -- destruct (IH json existing (nf ++ [SeriesObj show])) as (r & -> & Hr).
           exists r. split; [done|]. intros Hall.
           apply Forall_cons in Hall as [_ Hall]. rewrite (Hr Hall).
           rewrite decide_False by done.
           rewrite decide_True by done. by rewrite fmap_cons, <- app_assoc.
        -- exists (Raise e). split; [done|]. intros Hall.
           apply Forall_cons in Hall as [Hshow _].
           destruct (Hshow e Hd); congruence.
Qed.

(** X8: [add_multiple_series] looks up no [Series] object it is given.
    When the add data of every object are a payload or raise [Exists] or
    [NotFound], the requests after validation are the imports of the
    payloads, chunk by chunk, and a call that returns reports the objects
    that raised [Exists] as existing and those that raised [NotFound] as
    not found, the objects themselves. *)
Theorem add_multiple_series_objects_not_looked_up (shows : list Series)
    root_folder quality_profile language monitor season_folder search
    unmet_search series_type tags per_request (s s1 : Server) options rq1 :
  _validate_add_options root_folder quality_profile language monitor
    season_folder search unmet_search series_type tags s
    = (Ok options, s1, rq1) →
  Forall (λ show, ∀ e, _get_add_data show options = Raise e →
                       is_Exists e = true ∨ is_NotFound e = true) shows →
  chunk_size_ok per_request →
  let payloads :=
    omap (λ show, match _get_add_data show options with
                  | Ok d => Some d
                  | Raise _ => None
                  end) shows in
  ∃ r s3 rq',
    add_multiple_series (SeriesObj <$> shows) root_folder quality_profile
      language monitor season_folder search unmet_search series_type tags
      per_request s = (r, s3, rq1 ++ rq') ∧
    rq' `prefix_of` import_request <$> batches per_request payloads ∧
    ∀ series existing not_found_ids,
      r = Ok (series, existing, not_found_ids) →
      rq' = import_request <$> batches per_request payloads ∧
      existing = filter (λ show, match _get_add_data show options with
                                 | Ok _ => false
                                 | Raise e => is_Exists e
                                 end = true) shows ∧
      not_found_ids =
        SeriesObj <$> filter (λ show, match _get_add_data show options with
                                      | Ok _ => false
                                      | Raise e => is_NotFound e
                                      end = true) shows.
Proof.
  intros Hval Hall Hok payloads.
  destruct (objects_loop options shows [] [] [] s1) as (r0 & Hloop & Hr0).
  rewrite (Hr0 Hall) in Hloop. rewrite !app_nil_l in Hloop. fold payloads in Hloop.
  destruct (add_multiple_series_shape (SeriesObj <$> shows) root_folder
    quality_profile language monitor season_folder search unmet_search
    series_type tags per_request s options s1 rq1 _ _ _ s1 [] Hval Hloop)
    as (r & s3 & rq' & Hrun & Hnil & Hcons).
  exists r, s3, rq'. split; [by rewrite Hrun|].
  destruct (decide (payloads = [])) as [Hp|Hp].
  { destruct (Hnil Hp) as (-> & -> & ->). rewrite Hp.
    split; [done|]. by intros ??? [= <- <- <-]. }
  specialize (Hcons Hp).
  destruct (range_batches per_request payloads Hok Hp) as (idx & Hrange & Hb).
  rewrite Hrange in Hcons. cbn zeta in Hcons.
  rewrite slices_fmap, Hb in Hcons.
  destruct r as [[[series ex] nf']|e].
  - destruct Hcons as (-> & -> & -> & _). split; [done|].
    by intros ??? [= <- <- <-].
  - split; [done|]. by intros.
Qed.

Lemma for_app_Ok {I St} (xs ys : list I) (body : St → I → M St) acc s acc' s'
    rq :
  for_ xs body acc s = (Ok acc', s', rq) →
  for_ (xs ++ ys) body acc s =
  match for_ ys body acc' s' with (r, s'', rq') => (r, s'', rq ++ rq') end.
Proof.
  revert acc s rq. induction xs as [|x xs IH]; intros acc s rq Hrun.
  - injection Hrun as <- <- <-. simpl. by destruct (for_ ys body acc s) as [[??]?].
  - cbn [for_] in Hrun. apply bind_Ok_inv in Hrun
      as (a & s1 & rq1 & rq2 & Hb & Hrest & ->).
    rewrite <- app_comm_cons. cbn [for_]. rewrite bind_unfold, Hb.
    rewrite (IH _ _ _ Hrest).
    destruct (for_ ys body acc' s') as [[??]?]. by rewrite app_assoc.
Qed.

Lemma import_loop_answered json k idx acc s vs s' :
  answered s ((λ i, import_request (py_slice json i (i + k))) <$> idx) vs s' →
  for_ idx (add_multiple_series_import json k) acc s
  = (Ok (acc ++ concat vs), s',
     (λ i, import_request (py_slice json i (i + k))) <$> idx).
Proof.
  revert acc s vs. induction idx as [|i idx IH]; intros acc s vs Hans.
  - inversion Hans; subst. simpl. by rewrite app_nil_r.
  - rewrite fmap_cons in Hans.
    inversion Hans as [|? ? v items series s1 ? vs' ? Ht Hit Hload Hrest];
      subst.
    cbn [for_]. rewrite bind_unfold, import_turn. unfold turn.
    rewrite Ht, Hit, Hload. rewrite (IH _ _ _ Hrest).
    cbn [concat]. by rewrite app_assoc.
Qed.

(** X9: when the import of a chunk fails, or its response is no list,
    [add_multiple_series] raises that exception: the chunks before it have
    been imported, the chunks after it are not sent, and the service is
    left as the failed request left it. *)
Theorem add_multiple_series_import_failure tvdb_ids root_folder
    quality_profile language monitor season_folder search unmet_search
    series_type tags per_request (s s1 s2 s_mid s3 : Server) options rq1
    json existing not_found_ids rq2 pre c post responses e :
  _validate_add_options root_folder quality_profile language monitor
    season_folder search unmet_search series_type tags s
    = (Ok options, s1, rq1) →
  for_ tvdb_ids (add_multiple_series_item options) ([], [], []) s1
    = (Ok (json, existing, not_found_ids), s2, rq2) →
  chunk_size_ok per_request →
  batches per_request json = pre ++ c :: post →
  answered s2 (import_request <$> pre) responses s_mid →
  (transport (import_request c) s_mid = (Raise e, s3) ∨
   ∃ v, transport (import_request c) s_mid = (Ok v, s3) ∧
        py_iter v = Raise e) →
  add_multiple_series tvdb_ids root_folder quality_profile language monitor
    season_folder search unmet_search series_type tags per_request s
  = (Raise e, s3,
     rq1 ++ rq2 ++ (import_request <$> pre) ++ [import_request c]).
Proof.
  intros Hval Hloop Hok Hb Hans Hfail.
  assert (json ≠ []) as Hne.
  { intros ->. rewrite batches_nil in Hb. by destruct pre. }
  destruct (range_batches per_request json Hok Hne) as (idx & Hrange & Hidx).
  rewrite Hb in Hidx.
  apply fmap_app_inv in Hidx as (ipre & irest & Hpre & Hrest & ->).
  symmetry in Hrest.
  apply fmap_cons_inv in Hrest as (i & ipost & Hc & Hpost & ->).
  unfold add_multiple_series.
  rewrite bind_unfold, Hval, bind_unfold, Hloop.
  rewrite bool_decide_eq_true_2 by (by apply len_nil_iff).
  fold (chunk_size per_request json).
  set (k := chunk_size per_request json) in *.
  unfold mbind, M_bind, mret, M_ret, pure. rewrite Hrange.
  rewrite Hpre, <- list_fmap_compose in Hans.
  rewrite (for_app_Ok _ _ _ _ _ _ _ _
             (import_loop_answered json k ipre [] s2 responses s_mid Hans)).
  cbn [for_]. rewrite bind_unfold, import_turn. unfold turn. rewrite <- Hc.
  rewrite slices_fmap, <- Hpre.
  destruct Hfail as [Ht|(v & Ht & Hv)]; rewrite Ht; [|rewrite Hv];
    by rewrite ?app_nil_l, ?app_nil_r.
Qed.

Lemma py_range_nonpositive (n k : Z) :
  (0 < n)%Z → (k ≤ 0)%Z →
  py_range 0 n k =
  if bool_decide (k = 0)%Z
  then Raise (ValueError "range() arg 3 must not be zero")
  else Ok [].
Proof.
  intros Hn Hk. unfold py_range. case_bool_decide; [done|]. f_equal.
  destruct (Z.to_nat (Z.abs (n - 0))); [done|]. cbn [range_from].
  rewrite bool_decide_false by lia. by rewrite bool_decide_false by lia.
Qed.

(** X10: with resolved ids and a chunk size of zero,
    [delete_multiple_series] raises [ValueError]; with a negative one it
    returns the unresolved ids.  In both cases nothing is deleted: the
    fetch of the catalog is the only request. *)
Theorem delete_multiple_series_nonpositive_per_request tvdb_ids
    addImportExclusion deleteFiles (k : Z) (s s2 : Server) valid invalid rq2 :
  _validate_tvdb_ids tvdb_ids s = (Ok (valid, invalid), s2, rq2) →
  valid ≠ [] →
  (k ≤ 0)%Z →
  delete_multiple_series tvdb_ids addImportExclusion deleteFiles (Some k) s
  = (if bool_decide (k = 0)%Z
     then Raise (ValueError "range() arg 3 must not be zero")
     else Ok invalid, s2, rq2).
Proof.
  intros Hids Hne Hk. unfold delete_multiple_series.
  rewrite bind_unfold, Hids.
  assert (0 < len valid)%Z as Hlen by (by apply len_nil_iff).
  rewrite bool_decide_eq_true_2 by done.
  cbv [default from_option id]. unfold mbind, M_bind, mret, M_ret, pure.
  rewrite py_range_nonpositive by done.
  case_bool_decide; cbn [for_]; unfold mret, M_ret; by rewrite ?app_nil_r.
Qed.

(** X11: with resolved ids and a chunk size of zero,
    [edit_multiple_series] raises [ValueError]; with a negative one it
    returns no edited series and the unresolved ids.  In both cases no
    seasonPass or series/editor request is issued. *)
Theorem edit_multiple_series_nonpositive_per_request tvdb_ids root_folder
    move_files quality_profile language monitor monitored season_folder
    series_type tags apply_tags (k : Z) (s s1 s2 : Server) json rq1 valid
    invalid rq2 :
  _validate_edit_options root_folder None move_files quality_profile
    language monitor monitored season_folder series_type tags
    apply_tags s = (Ok json, s1, rq1) →
  _validate_tvdb_ids tvdb_ids s1 = (Ok (valid, invalid), s2, rq2) →
  valid ≠ [] →
  (k ≤ 0)%Z →
  edit_multiple_series tvdb_ids root_folder move_files quality_profile
    language monitor monitored season_folder series_type tags
    apply_tags (Some k) s
  = (if bool_decide (k = 0)%Z
     then Raise (ValueError "range() arg 3 must not be zero")
     else Ok ([], invalid), s2, rq1 ++ rq2).
Proof.
  intros Hval Hids Hne Hk. unfold edit_multiple_series.
  rewrite bind_unfold, Hval, bind_unfold, Hids.
  assert (0 < len valid)%Z as Hlen by (by apply len_nil_iff).
  rewrite bool_decide_eq_true_2 by done.
  cbv [default from_option id]. unfold mbind, M_bind, mret, M_ret, pure.
  rewrite py_range_nonpositive by done.
  destruct (json !! "monitor");
    case_bool_decide; cbn [for_]; unfold mret, M_ret; by rewrite ?app_nil_r.
Qed.

(** X12: with queued payloads and a chunk size of zero,
    [add_multiple_series] raises [ValueError]; with a negative one it
    returns no added series, and the two other buckets.  In both cases
    nothing is imported. *)
Theorem add_multiple_series_nonpositive_per_request tvdb_ids root_folder
    quality_profile language monitor season_folder search unmet_search
    series_type tags (k : Z) (s s1 s2 : Server) options rq1 json existing
    not_found_ids rq2 :
  _validate_add_options root_folder quality_profile language monitor
    season_folder search unmet_search series_type tags s
    = (Ok options, s1, rq1) →
  for_ tvdb_ids (add_multiple_series_item options) ([], [], []) s1
    = (Ok (json, existing, not_found_ids), s2, rq2) →
  json ≠ [] →
  (k ≤ 0)%Z →
  add_multiple_series tvdb_ids root_folder quality_profile language monitor
    season_folder search unmet_search series_type tags (Some k) s
  = (if bool_decide (k = 0)%Z
     then Raise (ValueError "range() arg 3 must not be zero")
     else Ok ([], existing, not_found_ids), s2, rq1 ++ rq2).
Proof.
  intros Hval Hloop Hne Hk. unfold add_multiple_series.
  rewrite bind_unfold, Hval, bind_unfold, Hloop.
  assert (0 < len json)%Z as Hlen by (by apply len_nil_iff).
  rewrite bool_decide_eq_true_2 by done.
  cbv [default from_option id]. unfold mbind, M_bind, mret, M_ret, pure.
  rewrite py_range_nonpositive by done.
  case_bool_decide; cbn [for_]; unfold mret, M_ret; by rewrite ?app_nil_r.
Qed.

End Edges.

(** * Runs on the small remote service *)

Import Mock.

(** A service with one language profile. *)
Lemma validate_language_profile_round_trip_witness :
  _validate_language_profile (RStr "English")
    {| library := []; known := []; profiles := [profile_json 7 "English"] |}
  = (Ok 7%Z,
     {| library := []; known := []; profiles := [profile_json 7 "English"] |},
     [languageProfile_request]).
Proof.
  refine (proj1 (proj1 (validate_language_profile_round_trip
    [profile 7 "English"] _ _ _ _) (profile 7 "English") _ _ _)).
  - reflexivity.
  - apply list_elem_of_here.
  - intros q Hq _. apply list_elem_of_singleton in Hq. by subst q.
  - intros q Hq _. apply list_elem_of_singleton in Hq. by subst q.
Defined.

(** C9, as stated, fails when two fetched profiles share a name: the second
    one is validated to its own id by its id, and to the id of the first by
    its name and as an object, which is equal to the name of the first. *)
Lemma validate_language_profile_name_clash :
  (language_profile service).1.1
    = Ok [profile 1 "English"; profile 2 "English"] ∧
  (_validate_language_profile (RStr "English") service).1.1 = Ok 1%Z ∧
  (_validate_language_profile (RInt 2) service).1.1 = Ok 2%Z ∧
  (_validate_language_profile (RObj (profile 2 "English")) service).1.1
    = Ok 1%Z.
Proof. repeat split; vm_compute; reflexivity. Qed.

(** The validation of this call fails on its monitor mode, before anything
    is fetched. *)
Lemma validation_failure_aborts_bulk_call_witness :
  ∃ msg,
    edit_multiple_series [SeriesInt 1; SeriesInt 2] None false None None
      (Some "sometimes") None None None None "add" None service
    = (Raise (Invalid msg), service, []).
Proof.
  eexists.
  refine (proj1 (proj2 validation_failure_aborts_bulk_call
    [SeriesInt 1; SeriesInt 2] None false None None (Some "sometimes") None
    None None None "add" None service service _ [] _)).
  vm_compute. reflexivity.
Defined.

(** C6, as stated, fails: the validation that rejects this language
    profile has fetched the profiles from the service first, and the
    validation that rejects this mode of applying tags has created the tag
    first. *)
Lemma failed_validation_has_acted_on_the_service :
  _validate_edit_options None None false None (Some (RStr "Klingon")) None
    None None None None "add" service
  = (Raise (Invalid
       "Invalid Language Profile: 'Klingon' Options: [English, English]"),
     service, [languageProfile_request]) ∧
  edit_multiple_series [SeriesInt 1; SeriesInt 2] None false None
    (Some (RStr "Klingon")) None None None None None "add" None service
  = (Raise (Invalid
       "Invalid Language Profile: 'Klingon' Options: [English, English]"),
     service, [languageProfile_request]) ∧
  _validate_edit_options (H0:=Tagging.api) None None false None None None
    None None None (Some [RStr "hd"]) "bogus" (@nil string)
  = (Raise (Invalid
       "Invalid apply_tags: 'bogus' Options: ['add', 'replace', 'remove']"),
     ["hd"], []) ∧
  edit_multiple_series (H0:=Tagging.api) [SeriesInt 1; SeriesInt 2] None
    false None None None None None None (Some [RStr "hd"]) "bogus" None
    (@nil string)
  = (Raise (Invalid
       "Invalid apply_tags: 'bogus' Options: ['add', 'replace', 'remove']"),
     ["hd"], []).
Proof. repeat split; vm_compute; reflexivity. Qed.

(** Tags alone, to replace the tags of the series. *)
Lemma validate_edit_options_fields_witness :
  _validate_edit_options None None false None None None None None None
    (Some [RStr "hd"]) "replace" service
  = (Ok (<["applyTags" := JStr "replace"]>
           (<["tags" := JList [JStr "hd"]]> {["moveFiles" := JBool false]})),
     service, []).
Proof.
  refine (proj2 (proj2 (proj2 (proj2 (proj2 (proj2 (proj2 (proj2 (proj2
    (validate_edit_options_fields false "replace" service)))))))))
    [RStr "hd"] (JList [JStr "hd"]) service _ _).
  - reflexivity.
  - apply (bool_decide_unpack _). vm_compute. exact I.
Defined.

(** C4, as stated, fails for [tags]: given alone, they yield a map of
    three keys, ["applyTags"] being the third. *)
Lemma validate_edit_options_tags_adds_applyTags :
  _validate_edit_options None None false None None None None None None
    (Some [RStr "hd"]) "add" service
  = (Ok (<["applyTags" := JStr "add"]>
           (<["tags" := JList [JStr "hd"]]> {["moveFiles" := JBool false]})),
     service, []) ∧
  dom (<["applyTags" := JStr "add"]>
         (<["tags" := JList [JStr "hd"]]>
            ({["moveFiles" := JBool false]} : gmap string Json)))
  = {["moveFiles"; "tags"; "applyTags"]}.
Proof. split; [reflexivity|vm_compute; reflexivity]. Qed.

(** Two ids that the service does not know of. *)
Lemma add_multiple_series_not_found_witness :
  add_multiple_series [SeriesInt 999; SeriesInt 998] (RStr "/tv") (RInt 1)
    (RInt 1) "all" true true true "standard" None None service
  = (Ok ([], [], [SeriesInt 999; SeriesInt 998]), service,
     [languageProfile_request; lookup_request 999; lookup_request 998]).
Proof.
  refine (proj2 add_multiple_series_not_found [999; 998]%Z (RStr "/tv")
    (RInt 1) (RInt 1) "all" true true true "standard" None None service
    service
    (<["series_type" := JStr "standard"]> $
     <["unmet_search" := JBool true]> $
     <["search" := JBool true]> $
     <["season_folder" := JBool true]> $
     <["monitored" := JBool true]> $
     <["monitor" := JStr "all"]> $
     <["language_profile" := JInt 1]> $
     <["quality_profile" := JInt 1]> $
     <["root_folder" := JStr "/tv"]> ∅)
    [languageProfile_request] _ _).
  - reflexivity.
  - intros n Hn.
    apply elem_of_cons in Hn as [->|Hn]; [reflexivity|].
    apply list_elem_of_singleton in Hn as ->. reflexivity.
Defined.

(** C7, as stated, fails: the id 999, which the service does not know of,
    is reported as not found after a lookup request made for it. *)
Lemma not_found_id_is_looked_up :
  add_multiple_series [SeriesInt 999] (RStr "/tv") (RInt 1) (RInt 1) "all"
    true true true "standard" None None service
  = (Ok ([], [], [SeriesInt 999]), service,
     [languageProfile_request;
      mkRequest GET "series/lookup" {["term" := JStr "tvdb:999"]} None]).
Proof. reflexivity. Qed.

(** Five inputs, with duplicates, against the five series of [shelf]. *)
Lemma validate_tvdb_ids_partition_witness :
  ∃ valid_ids invalid_ids,
    _validate_tvdb_ids
      [SeriesInt 103; SeriesInt 7; SeriesObj (series 0 101); SeriesInt 103;
       SeriesInt 7]%Z shelf
    = (Ok (valid_ids, invalid_ids), shelf, [series_request]) ∧
    (length valid_ids + length invalid_ids = 5)%nat ∧
    valid_ids = [13; 11; 13]%Z ∧
    invalid_ids = [7; 7]%Z.
Proof.
  destruct (validate_tvdb_ids_partition (H:=objs) (H0:=api)
    [SeriesInt 103; SeriesInt 7; SeriesObj (series 0 101); SeriesInt 103;
     SeriesInt 7]%Z
    [series 11 101; series 12 102; series 13 103; series 14 104;
     series 15 105]
    shelf shelf [series_request] eq_refl)
    as (valid_ids & invalid_ids & Hrun & Hlen & Hvalid & Hinvalid).
  exists valid_ids, invalid_ids. split; [exact Hrun|]. split; [exact Hlen|].
  split; [by rewrite Hvalid|by rewrite Hinvalid].
Defined.

(** The small service raises [ArrException] and [Invalid] only. *)
Lemma mock_Exists_is_add_data_only : Exists_is_add_data_only.
Proof.
  repeat split.
  - intros path params s msg. unfold _get. simpl. unfold do_get.
    by repeat case_bool_decide.
  - intros path json s msg. unfold _post. simpl. unfold do_post.
    repeat case_bool_decide; try done. by destruct json.
  - intros [x|n|o] s msg; done.
  - intros [x|n|o] s msg; done.
  - done.
  - intros title value options msg. unfold validate_options. simpl.
    by case_bool_decide.
  - intros d msg. by destruct d.
  - intros d msg. by destruct d.
Qed.



(** Five series, monitored and edited two at a time. *)
Lemma edit_multiple_series_monitor_first_witness :
  ∃ r s3,
    edit_multiple_series five None true None None (Some "future") (Some true)
      None None None "add" (Some 2%Z) shelf
    = (r, s3,
       [] ++ [series_request] ++
       (seasonPass_request (JStr "future") <$> [[11; 12]; [13; 14]; [15]]%Z) ++
       (editor_request
          (<["monitored" := JBool true]> {["moveFiles" := JBool true]})
          <$> [[11; 12]; [13; 14]; [15]]%Z)).
Proof.
  assert (_validate_edit_options None None true None None (Some "future")
            (Some true) None None None "add" shelf
          = (Ok (<["monitored" := JBool true]>
                   (<["monitor" := JStr "future"]>
                      {["moveFiles" := JBool true]})), shelf, []))
    as Hval by reflexivity.
  assert (_validate_tvdb_ids five shelf
          = (Ok ([11; 12; 13; 14; 15]%Z, []), shelf, [series_request]))
    as Hids by reflexivity.
  destruct (edit_multiple_series_monitor_first (H:=objs) (H0:=api) five None
    true None None (Some "future") (Some true) None None None "add"
    (Some 2%Z) shelf shelf shelf _ _ _ _ _ (JStr "future") Hval Hids)
    as (r & s3 & rq & Hrun & _ & _ & Hall); [reflexivity|done|].
  destruct Hall as [_ Hall]; [by vm_compute|].
  exists r, s3. rewrite Hrun. do 3 f_equal.
  destruct r as [[series_list invalid_ids]|e];
    [exact (proj1 (Hall series_list invalid_ids eq_refl))|].
  exfalso. vm_compute in Hrun. discriminate Hrun.
Defined.

(** Two ids that are not in the library. *)
Lemma edit_multiple_series_nothing_resolved_witness :
  edit_multiple_series [SeriesInt 1; SeriesInt 3] (Some (RStr "/tv")) false
    None None None None None None None "add" None service
  = (Ok ([], [1; 3]%Z), service, [] ++ [series_request]).
Proof.
  refine (proj1 (edit_multiple_series_nothing_resolved (H:=objs) (H0:=api)
    [SeriesInt 1; SeriesInt 3] (Some (RStr "/tv")) false None None None None
    None None None "add" None service service service
    (<["rootFolderPath" := JStr "/tv"]> {["moveFiles" := JBool false]}) []
    [1; 3]%Z [series_request] _ _)); vm_compute; reflexivity.
Defined.

(** C8, as stated, fails: with two ids that are not in the library the
    call does not fail, it returns no edited series and the two ids. *)
Lemma edit_multiple_series_nothing_resolved_returns :
  (_validate_tvdb_ids [SeriesInt 1; SeriesInt 3] service).1.1
    = Ok ([], [1; 3]%Z) ∧
  (edit_multiple_series [SeriesInt 1; SeriesInt 3] (Some (RStr "/tv")) false
     None None None None None None None "add" None service).1.1
    = Ok ([], [1; 3]%Z).
Proof. split; reflexivity. Qed.

(** The second of the three series/editor requests of a call. *)
Lemma edit_multiple_series_editor_payloads_witness :
  ∃ payload ids,
    editor_request {["moveFiles" := JBool false]} [13; 14]%Z
    = mkRequest PUT "series/editor" ∅ (Some (JObj payload)) ∧
    payload = <["seriesIds" := JList (JInt <$> ids)]>
                (delete "monitor"
                   (<["monitor" := JStr "none"]>
                      {["moveFiles" := JBool false]})) ∧
    payload !! "monitor" = None ∧
    delete "seriesIds" payload
    = delete "seriesIds"
        (delete "monitor"
           (<["monitor" := JStr "none"]> {["moveFiles" := JBool false]})).
Proof.
  assert (_validate_edit_options None None false None None (Some "none")
            None None None None "add" shelf
          = (Ok (<["monitor" := JStr "none"]>
                   {["moveFiles" := JBool false]}), shelf, []))
    as Hval by reflexivity.
  assert (_validate_tvdb_ids five shelf
          = (Ok ([11; 12; 13; 14; 15]%Z, []), shelf, [series_request]))
    as Hids by reflexivity.
  apply (edit_multiple_series_editor_payloads (H:=objs) (H0:=api) five None
    false None None (Some "none") None None None None "add" (Some 2%Z) shelf
    shelf shelf _ _ _ _ _ _ Hval Hids); [|reflexivity].
  assert ((edit_multiple_series five None false None None (Some "none") None
             None None None "add" (Some 2%Z) shelf).2
          = [series_request] ++
            (seasonPass_request (JStr "none")
               <$> [[11; 12]; [13; 14]; [15]]%Z) ++
            (editor_request {["moveFiles" := JBool false]}
               <$> [[11; 12]; [13; 14]; [15]]%Z)) as ->
    by reflexivity.
  simpl. do 5 apply list_elem_of_further. apply list_elem_of_here.
Defined.

(** Two series of the library bear the TVDb id 101. *)
Lemma validate_tvdb_ids_last_series_witness :
  _validate_tvdb_ids [SeriesInt 101; SeriesInt 7]
    {| library := [series_json 11 101; series_json 12 101]; known := [];
       profiles := [] |}
  = (Ok ([12]%Z, [7]%Z),
     {| library := [series_json 11 101; series_json 12 101]; known := [];
        profiles := [] |},
     [series_request]).
Proof.
  exact (validate_tvdb_ids_last_series (H:=objs) (H0:=api)
    [SeriesInt 101; SeriesInt 7] [series 11 101; series 12 101]
    {| library := [series_json 11 101; series_json 12 101]; known := [];
       profiles := [] |}
    {| library := [series_json 11 101; series_json 12 101]; known := [];
       profiles := [] |}
    [series_request] eq_refl).
Defined.

(** Two ids that are not in the library. *)
Lemma delete_multiple_series_nothing_resolved_witness :
  delete_multiple_series [SeriesInt 1; SeriesInt 3] false false None service
  = (Ok [1; 3]%Z, service, [series_request]).
Proof.
  refine (delete_multiple_series_nothing_resolved (H:=objs) (H0:=api)
    [SeriesInt 1; SeriesInt 3] false false None [series 10 2] service service
    [series_request] eq_refl _).
  intros x m Hx Hm. apply list_elem_of_singleton in Hm as ->.
  apply elem_of_cons in Hx as [->|Hx]; [done|].
  apply list_elem_of_singleton in Hx as ->. done.
Defined.

(** An empty list of tags, and no monitoring. *)
Lemma validate_add_options_keys_witness :
  ∃ options,
    _validate_add_options (RStr "/tv") (RInt 1) (RInt 1) "none" true true
      false "standard" (Some []) service
    = (Ok options, service, [languageProfile_request]) ∧
    options !! "monitored" = Some (JBool false) ∧
    options !! "unmet_search" = Some (JBool false) ∧
    (is_Some (options !! "tags")
     ↔ ∃ t ts, Some [] = Some (t :: ts : list (PyRef Tag))).
Proof.
  assert (_validate_add_options (RStr "/tv") (RInt 1) (RInt 1) "none" true
            true false "standard" (Some []) service
          = (Ok (<["series_type" := JStr "standard"]> $
                 <["unmet_search" := JBool false]> $
                 <["search" := JBool true]> $
                 <["season_folder" := JBool true]> $
                 <["monitored" := JBool false]> $
                 <["monitor" := JStr "none"]> $
                 <["language_profile" := JInt 1]> $
                 <["quality_profile" := JInt 1]> $
                 <["root_folder" := JStr "/tv"]> ∅),
             service, [languageProfile_request]))
    as Hval by reflexivity.
  eexists. split; [exact Hval|].
  destruct (validate_add_options_keys (H:=objs) (H0:=api) _ _ _ _ _ _ _ _ _
    _ _ _ _ Hval)
    as (_ & _ & _ & _ & Hmonitored & _ & _ & Hunmet & _ & Htags & _).
  split; [exact Hmonitored|]. split; [exact Hunmet|exact Htags].
Defined.

(** A monitor mode and a monitored flag, and nothing else. *)
Lemma validate_edit_options_keys_witness :
  ∃ json : gmap string Json,
    _validate_edit_options None None true None None (Some "future")
      (Some true) None None None "add" shelf = (Ok json, shelf, []) ∧
    json !! "moveFiles" = Some (JBool true) ∧
    json !! "path" = None ∧
    json !! "monitored" = Some (JBool true) ∧
    json !! "tags" = None ∧ json !! "applyTags" = None.
Proof.
  assert (_validate_edit_options None None true None None (Some "future")
            (Some true) None None None "add" shelf
          = (Ok (<["monitored" := JBool true]>
                   (<["monitor" := JStr "future"]>
                      {["moveFiles" := JBool true]})), shelf, []))
    as Hval by reflexivity.
  eexists. split; [exact Hval|].
  destruct (validate_edit_options_keys (H:=objs) (H0:=api) _ _ _ _ _ _ _ _ _
    _ _ _ _ _ _ Hval)
    as (Hmove & _ & Hpath & _ & _ & _ & Hmonitored & _ & _ & Htags & _).
  split; [exact Hmove|]. split; [exact Hpath|]. split; [exact Hmonitored|].
  exact Htags.
Defined.

(** Two profiles of the same name: the first one is returned. *)
Lemma validate_language_profile_first_match_witness :
  _validate_language_profile (RStr "English") service
  = (Ok 1%Z, service, [languageProfile_request]).
Proof.
  exact (validate_language_profile_first_match (H:=objs) (H0:=api)
    (RStr "English") [profile 1 "English"; profile 2 "English"] service
    service [languageProfile_request] eq_refl).
Defined.

(** A new series and one of the library, given as objects. *)
Lemma add_multiple_series_objects_not_looked_up_witness :
  ∃ r s3 rq',
    add_multiple_series (SeriesObj <$> [series 0 1; series 10 2])
      (RStr "/tv") (RInt 1) (RInt 1) "all" true true true "standard" None
      None service
    = (r, s3, [languageProfile_request] ++ rq') ∧
    ∀ added existing not_found_ids,
      r = Ok (added, existing, not_found_ids) →
      existing = [series 10 2] ∧ not_found_ids = [].
Proof.
  assert (_validate_add_options (RStr "/tv") (RInt 1) (RInt 1) "all" true
            true true "standard" None service
          = (Ok (<["series_type" := JStr "standard"]> $
                 <["unmet_search" := JBool true]> $
                 <["search" := JBool true]> $
                 <["season_folder" := JBool true]> $
                 <["monitored" := JBool true]> $
                 <["monitor" := JStr "all"]> $
                 <["language_profile" := JInt 1]> $
                 <["quality_profile" := JInt 1]> $
                 <["root_folder" := JStr "/tv"]> ∅),
             service, [languageProfile_request]))
    as Hval by reflexivity.
  destruct (add_multiple_series_objects_not_looked_up (H:=objs) (H0:=api)
    [series 0 1; series 10 2] _ _ _ _ _ _ _ _ _ None _ _ _ _ Hval)
    as (r & s3 & rq' & Hrun & _ & Hres).
  { apply Forall_cons. split; [by intros e [=]|].
    apply Forall_cons. split; [|by apply Forall_nil].
    intros e [= <-]. by left. }
  { done. }
  exists r, s3, rq'. split; [exact Hrun|].
  intros added existing not_found_ids Hr.
  destruct (Hres _ _ _ Hr) as (_ & -> & ->). by split.
Defined.

(** Three new series, one at a time, on a service that accepts one post. *)
Lemma add_multiple_series_import_failure_witness :
  ∃ c1 c2,
    add_multiple_series (H0:=Quota.api)
      (SeriesObj <$> [series 0 1; series 0 2; series 0 3])
      (RStr "/tv") (RInt 1) (RInt 1) "all" true true true "standard" None
      (Some 1%Z) 1%nat
    = (Raise (ArrException "503"), 0%nat,
       [languageProfile_request] ++ [] ++
       (import_request <$> [c1]) ++ [import_request c2]).
Proof.
  eexists _, _.
  refine (add_multiple_series_import_failure (H:=objs) (H0:=Quota.api)
    (SeriesObj <$> [series 0 1; series 0 2; series 0 3])
    (RStr "/tv") (RInt 1) (RInt 1) "all" true true true "standard" None
    (Some 1%Z) 1%nat 1%nat 1%nat 0%nat 0%nat _ [languageProfile_request]
    _ _ _ [] [_] _ [_] [_] (ArrException "503") eq_refl eq_refl _ eq_refl _ _).
  - done.
  - econstructor; [reflexivity|reflexivity|reflexivity|constructor].
  - left. reflexivity.
Defined.

(** Five series to delete, by chunks of minus two, then of zero. *)
Lemma delete_multiple_series_nonpositive_per_request_witness :
  delete_multiple_series five false true (Some (-2)%Z) shelf
  = (Ok [], shelf, [series_request]) ∧
  delete_multiple_series five false true (Some 0%Z) shelf
  = (Raise (ValueError "range() arg 3 must not be zero"), shelf,
     [series_request]).
Proof.
  split.
  - refine (delete_multiple_series_nonpositive_per_request (H:=objs)
      (H0:=api) five false true (-2)%Z shelf shelf [11; 12; 13; 14; 15]%Z []
      [series_request] eq_refl _ _); [done|lia].
  - refine (delete_multiple_series_nonpositive_per_request (H:=objs)
      (H0:=api) five false true 0%Z shelf shelf [11; 12; 13; 14; 15]%Z []
      [series_request] eq_refl _ _); [done|lia].
Defined.

(** Five series to monitor and edit, by chunks of zero. *)
Lemma edit_multiple_series_nonpositive_per_request_witness :
  edit_multiple_series five None false None None (Some "none") None None
    None None "add" (Some 0%Z) shelf
  = (Raise (ValueError "range() arg 3 must not be zero"), shelf,
     [series_request]).
Proof.
  refine (edit_multiple_series_nonpositive_per_request (H:=objs) (H0:=api)
    five None false None None (Some "none") None None None None "add" 0%Z
    shelf shelf shelf
    (<["monitor" := JStr "none"]> {["moveFiles" := JBool false]}) []
    [11; 12; 13; 14; 15]%Z [] [series_request] eq_refl eq_refl _ _);
    [done|lia].
Defined.

(** Two new series to add, by chunks of minus one. *)
Lemma add_multiple_series_nonpositive_per_request_witness :
  add_multiple_series [SeriesInt 1; SeriesInt 3] (RStr "/tv") (RInt 1)
    (RInt 1) "all" true true true "standard" None (Some (-1)%Z) service
  = (Ok ([], [], []), service,
     [languageProfile_request; lookup_request 1; lookup_request 3]).
Proof.
  refine (add_multiple_series_nonpositive_per_request (H:=objs) (H0:=api)
    [SeriesInt 1; SeriesInt 3] (RStr "/tv") (RInt 1) (RInt 1) "all" true true
    true "standard" None (-1)%Z service service service
    (<["series_type" := JStr "standard"]> $
     <["unmet_search" := JBool true]> $
     <["search" := JBool true]> $
     <["season_folder" := JBool true]> $
     <["monitored" := JBool true]> $
     <["monitor" := JStr "all"]> $
     <["language_profile" := JInt 1]> $
     <["quality_profile" := JInt 1]> $
     <["root_folder" := JStr "/tv"]> ∅)
    [languageProfile_request] _ [] []
    [lookup_request 1; lookup_request 3] eq_refl _ _ _).
  - reflexivity.
  - done.
  - lia.
Defined.
